(** * Task board: ordering, optimistic cache and realtime resync

    A shallow embedding of the client-side reconciliation core of the task
    board: the gateway functions of [lib/supabase], the query hook
    [useSupabaseQuery], the board hook [useBoard], and the drag handler
    [handleDragEnd] and the form handlers of [App.tsx].

    Conventions of the embedding.
    - JavaScript numbers holding positions are integers ([Z]); ids, titles
      and timestamps are strings.
    - An [async] function is a program of type [Async]: a tree whose nodes
      read or update the React state or await a gateway call, and whose
      leaves return or throw.  [run] executes such a program against the
      answers of the remote store; [suspend] stops it at its first [await]
      and gives the state the presentation layer renders meanwhile.
    - The remote store is an oracle ([Supabase]): one answer per request.
      Nothing is assumed about the answers. *)

From Stdlib Require Import List String ZArith Bool Lia Arith DecimalString.
From Stdlib Require Import Permutation Sorting.Sorted.
Import ListNotations.
Local Open Scope string_scope.
Local Open Scope list_scope.
Local Open Scope Z_scope.

(** ** Data model ([lib/database.types]) *)

Inductive Priority := low | medium | high.

Record Column := mkColumn {
  c_id : string;
  c_title : string;
  c_position : Z;
  c_user_id : string;
  c_created_at : string;
  c_updated_at : string
}.

Record Task := mkTask {
  id : string;
  title : string;
  priority : Priority;
  column_id : string;
  position : Z;
  user_id : string;
  created_at : string;
  updated_at : string
}.

(** The argument of [updateTask]: every field is optional. *)
Record TaskPatch := mkPatch {
  p_title : option string;
  p_priority : option Priority;
  p_column_id : option string;
  p_position : option Z
}.

(** One element of a position batch: [{ id, position, column_id }]. *)
Record PositionUpdate := mkUpdate {
  u_id : string;
  u_position : Z;
  u_column_id : string
}.

(** A thrown JavaScript value: an [Error] instance with its message, or
    anything else (for which [e instanceof Error] is false). *)
Inductive JsError :=
| ErrorObj (message : string)
| NonError (shown : string).

Inductive Outcome (A : Type) :=
| Returned (a : A)
| Threw (e : JsError).
Arguments Returned {A} a.
Arguments Threw {A} e.

Definition Priority_eqb (p q : Priority) : bool :=
  match p, q with
  | low, low | medium, medium | high, high => true
  | _, _ => false
  end.

(** ** Remote store gateway ([lib/supabase]) *)

(** A row of [select('id, title, priority')]. *)
Record TaskBrief := mkBrief {
  b_id : string;
  b_title : string;
  b_priority : Priority
}.

(** A record of the batch upsert.  A field holding [undefined] is absent
    from the request body: [None]. *)
Record UpsertRecord := mkUpsert {
  r_id : string;
  r_position : Z;
  r_column_id : string;
  r_user_id : string;
  r_title : option string;
  r_priority : option Priority
}.

(** The requests the gateway sends to the store. *)
Inductive Request :=
| AuthGetUser
| SelectColumns
| SelectTasks
| SelectTasksIn (ids : list string)
| InsertColumn (title : string) (position : Z) (user_id : string)
| UpdateColumnRow (id title : string)
| DeleteColumnRow (id : string)
| UpsertColumns (records : list (string * Z))
| InsertTask (title column_id : string) (priority : Priority) (position : Z)
             (user_id : string)
| UpdateTaskRow (id : string) (updates : TaskPatch)
| DeleteTaskRow (id : string)
| UpsertTasks (records : list UpsertRecord).

(** The answers of the store: [{ data, error }] of each request, an error
    being [inl]; [auth_getUser] is the id of the signed-in user, if any. *)
Record Supabase := mkSupabase {
  auth_getUser : option string;
  columns_select : JsError + list Column;
  tasks_select : JsError + list Task;
  tasks_select_in : list string -> JsError + option (list TaskBrief);
  columns_insert : string -> Z -> string -> JsError + Column;
  columns_update : string -> string -> JsError + Column;
  columns_delete : string -> option JsError;
  columns_upsert : list (string * Z) -> option JsError;
  tasks_insert : string -> string -> Priority -> Z -> string -> JsError + Task;
  tasks_update : string -> TaskPatch -> JsError + Task;
  tasks_delete : string -> option JsError;
  tasks_upsert : list UpsertRecord -> option JsError
}.

(** Result of a gateway function: what it returns or throws, and the
    requests it sent, in order. *)
Definition Remote (A : Type) : Type := (Outcome A * list Request)%type.

(** [if (error) throw error; return data] *)
Definition orThrow {A} (reply : JsError + A) (sent : list Request) : Remote A :=
  match reply with
  | inl error => (Threw error, sent)
  | inr data => (Returned data, sent)
  end.

Definition orThrowVoid (reply : option JsError) (sent : list Request) : Remote unit :=
  match reply with
  | Some error => (Threw error, sent)
  | None => (Returned tt, sent)
  end.

(** [new Map(pairs).get(k)]: the constructor sets the pairs in order, so
    the last pair with key [k] is the one found. *)
Definition Map_get {V} (pairs : list (string * V)) (k : string) : option V :=
  option_map snd (find (fun p => String.eqb (fst p) k) (rev pairs)).

Module Gateway.

Definition fetchColumns (sb : Supabase) : Remote (list Column) :=
  orThrow (columns_select sb) [SelectColumns].

Definition createColumn (sb : Supabase) (title : string) (position : Z)
  : Remote Column :=
  match auth_getUser sb with
  | None => (Threw (ErrorObj "Not authenticated"), [AuthGetUser])
  | Some uid =>
      orThrow (columns_insert sb title position uid)
              [AuthGetUser; InsertColumn title position uid]
  end.

Definition updateColumn (sb : Supabase) (id title : string) : Remote Column :=
  orThrow (columns_update sb id title) [UpdateColumnRow id title].

Definition deleteColumn (sb : Supabase) (id : string) : Remote unit :=
  orThrowVoid (columns_delete sb id) [DeleteColumnRow id].

Definition updateColumnPositions (sb : Supabase) (updates : list (string * Z))
  : Remote unit :=
  orThrowVoid (columns_upsert sb updates) [UpsertColumns updates].

Definition fetchTasks (sb : Supabase) : Remote (list Task) :=
  orThrow (tasks_select sb) [SelectTasks].

Definition createTask (sb : Supabase) (title columnId : string)
  (priority : Priority) (position : Z) : Remote Task :=
  match auth_getUser sb with
  | None => (Threw (ErrorObj "Not authenticated"), [AuthGetUser])
  | Some uid =>
      orThrow (tasks_insert sb title columnId priority position uid)
              [AuthGetUser; InsertTask title columnId priority position uid]
  end.

Definition updateTask (sb : Supabase) (id : string) (updates : TaskPatch)
  : Remote Task :=
  orThrow (tasks_update sb id updates) [UpdateTaskRow id updates].

Definition deleteTask (sb : Supabase) (id : string) : Remote unit :=
  orThrowVoid (tasks_delete sb id) [DeleteTaskRow id].

(** The records of the upsert, from the rows the lookup returned
    ([currentTasks], [None] for [null]). *)
Definition upsertRecords (uid : string) (currentTasks : option (list TaskBrief))
  (updates : list PositionUpdate) : list UpsertRecord :=
  let rows := match currentTasks with Some rows => rows | None => [] end in
  let taskTitles := map (fun task => (b_id task, b_title task)) rows in
  let taskPriorities := map (fun task => (b_id task, b_priority task)) rows in
  map (fun u =>
         {| r_id := u_id u;
            r_position := u_position u;
            r_column_id := u_column_id u;
            r_user_id := uid;
            r_title := Map_get taskTitles (u_id u);
            r_priority := Map_get taskPriorities (u_id u) |})
      updates.

Definition updateTaskPositions (sb : Supabase) (updates : list PositionUpdate)
  : Remote unit :=
  match auth_getUser sb with
  | None => (Threw (ErrorObj "Not authenticated"), [AuthGetUser])
  | Some uid =>
      let ids := map u_id updates in
      match tasks_select_in sb ids with
      | inl fetchError => (Threw fetchError, [AuthGetUser; SelectTasksIn ids])
      | inr currentTasks =>
          let records := upsertRecords uid currentTasks updates in
          orThrowVoid (tasks_upsert sb records)
                      [AuthGetUser; SelectTasksIn ids; UpsertTasks records]
      end
  end.

End Gateway.

(** ** Asynchronous programs over the React state *)

Inductive Table := columns | tasks.

Definition Row (t : Table) : Type :=
  match t with columns => Column | tasks => Task end.

(** The calls of the hooks into the gateway. *)
Inductive GatewayCall :=
| Fetch (t : Table)
| CreateColumn (title : string) (position : Z)
| UpdateColumn (id title : string)
| DeleteColumn (id : string)
| CreateTask (title columnId : string) (priority : Priority) (position : Z)
| UpdateTask (id : string) (updates : TaskPatch)
| DeleteTask (id : string)
| UpdateTaskPositions (updates : list PositionUpdate).

Definition ReplyOf (c : GatewayCall) : Type :=
  match c with
  | Fetch t => list (Row t)
  | CreateColumn _ _ | UpdateColumn _ _ => Column
  | CreateTask _ _ _ _ | UpdateTask _ _ => Task
  | DeleteColumn _ | DeleteTask _ | UpdateTaskPositions _ => unit
  end.

Definition gateway (sb : Supabase) (c : GatewayCall) : Remote (ReplyOf c) :=
  match c return Remote (ReplyOf c) with
  | Fetch columns => Gateway.fetchColumns sb
  | Fetch tasks => Gateway.fetchTasks sb
  | CreateColumn title position => Gateway.createColumn sb title position
  | UpdateColumn id title => Gateway.updateColumn sb id title
  | DeleteColumn id => Gateway.deleteColumn sb id
  | CreateTask title columnId priority position =>
      Gateway.createTask sb title columnId priority position
  | UpdateTask id updates => Gateway.updateTask sb id updates
  | DeleteTask id => Gateway.deleteTask sb id
  | UpdateTaskPositions updates => Gateway.updateTaskPositions sb updates
  end.

(** A remote write is any gateway call other than a list fetch. *)
Definition isWrite (c : GatewayCall) : bool :=
  match c with Fetch _ => false | _ => true end.

(** The body of an [async] function over a state of type [S]. *)
Inductive Async (S A : Type) : Type :=
| Ret (o : Outcome A)
| Get (k : S -> Async S A)
| Modify (f : S -> S) (k : Async S A)
| Await (c : GatewayCall) (k : Outcome (ReplyOf c) -> Async S A).
Arguments Ret {S A} o.
Arguments Get {S A} k.
Arguments Modify {S A} f k.
Arguments Await {S A} c k.

Definition ret {S A} (a : A) : Async S A := Ret (Returned a).
Definition throw {S A} (e : JsError) : Async S A := Ret (Threw e).
Definition get {S} : Async S S := Get (fun s => ret s).
Definition modify {S} (f : S -> S) : Async S unit := Modify f (ret tt).
(** [await call(...)]: a rejected promise throws at the [await]. *)
Definition await {S} (c : GatewayCall) : Async S (ReplyOf c) :=
  Await c (fun r => Ret r).

Fixpoint bind {S A B} (p : Async S A) (f : A -> Async S B) : Async S B :=
  match p with
  | Ret (Returned a) => f a
  | Ret (Threw e) => Ret (Threw e)
  | Get k => Get (fun s => bind (k s) f)
  | Modify g k => Modify g (bind k f)
  | Await c k => Await c (fun r => bind (k r) f)
  end.

(** [try { p } catch (e) { h e }] *)
Fixpoint try_catch {S A} (p : Async S A) (h : JsError -> Async S A) : Async S A :=
  match p with
  | Ret (Returned a) => Ret (Returned a)
  | Ret (Threw e) => h e
  | Get k => Get (fun s => try_catch (k s) h)
  | Modify g k => Modify g (try_catch k h)
  | Await c k => Await c (fun r => try_catch (k r) h)
  end.

(** [try { p } finally { fin }] *)
Fixpoint try_finally {S A} (p : Async S A) (fin : Async S unit) : Async S A :=
  match p with
  | Ret o => bind fin (fun _ => Ret o)
  | Get k => Get (fun s => try_finally (k s) fin)
  | Modify g k => Modify g (try_finally k fin)
  | Await c k => Await c (fun r => try_finally (k r) fin)
  end.

Declare Scope async_scope.
Delimit Scope async_scope with async.
Notation "x <- p ;; q" := (bind p (fun x => q))
  (at level 61, p at next level, right associativity) : async_scope.
Notation "p ;; q" := (bind p (fun _ => q))
  (at level 61, right associativity) : async_scope.
Local Open Scope async_scope.

(** What a complete execution leaves behind. *)
Record Run (S A : Type) := mkRun {
  outcome : Outcome A;
  final : S;
  calls : list GatewayCall
}.
Arguments mkRun {S A} outcome final calls.
Arguments outcome {S A} r.
Arguments final {S A} r.
Arguments calls {S A} r.

(** Execution from state [s], each [await] answered by the store. *)
Fixpoint run {S A} (sb : Supabase) (p : Async S A) (s : S) : Run S A :=
  match p with
  | Ret o => mkRun o s []
  | Get k => run sb (k s) s
  | Modify f k => run sb k (f s)
  | Await c k =>
      let r := run sb (k (fst (gateway sb c))) s in
      mkRun (outcome r) (final r) (c :: calls r)
  end.

(** Execution up to the first [await]: the state that is rendered while
    the call is in flight, and the call ([None] when the program ends
    without awaiting). *)
Fixpoint suspend {S A} (p : Async S A) (s : S) : S * option GatewayCall :=
  match p with
  | Ret _ => (s, None)
  | Get k => suspend (k s) s
  | Modify f k => suspend k (f s)
  | Await c _ => (s, Some c)
  end.

(** ** React state of the board view *)

(** State of one [useSupabaseQuery] instance: its [useState] cells, its
    refs and the [isSubscribed] flag of the running subscription effect. *)
Record Query (T : Type) := mkQuery {
  data : list T;
  loading : bool;
  q_error : option JsError;
  refreshCount : nat;
  isMounted : bool;
  channelRef : option string;
  isSubscribed : bool
}.
Arguments mkQuery {T}.
Arguments data {T} q.
Arguments loading {T} q.
Arguments q_error {T} q.
Arguments refreshCount {T} q.
Arguments isMounted {T} q.
Arguments channelRef {T} q.
Arguments isSubscribed {T} q.

(** State held by [Dashboard]: the two queries of [useBoard], its
    [optimisticTasks] and [error] cells, and [activeTask]. *)
Record Board := mkBoard {
  columnsQ : Query Column;
  tasksQ : Query Task;
  optimisticTasks : option (list Task);
  error : option string;
  activeTask : option Task
}.

Definition getQ (t : Table) (b : Board) : Query (Row t) :=
  match t return Query (Row t) with
  | columns => columnsQ b
  | tasks => tasksQ b
  end.

Definition setQ (t : Table) : Query (Row t) -> Board -> Board :=
  match t return Query (Row t) -> Board -> Board with
  | columns => fun q b =>
      mkBoard q (tasksQ b) (optimisticTasks b) (error b) (activeTask b)
  | tasks => fun q b =>
      mkBoard (columnsQ b) q (optimisticTasks b) (error b) (activeTask b)
  end.

Definition updQ (t : Table) (f : Query (Row t) -> Query (Row t)) (b : Board)
  : Board := setQ t (f (getQ t b)) b.

Definition setOptimisticTasks
  (f : option (list Task) -> option (list Task)) (b : Board) : Board :=
  mkBoard (columnsQ b) (tasksQ b) (f (optimisticTasks b)) (error b)
          (activeTask b).

Definition setError (e : option string) (b : Board) : Board :=
  mkBoard (columnsQ b) (tasksQ b) (optimisticTasks b) e (activeTask b).

Definition setActiveTask (t : option Task) (b : Board) : Board :=
  mkBoard (columnsQ b) (tasksQ b) (optimisticTasks b) (error b) t.

Definition setLoading {T} (v : bool) (q : Query T) : Query T :=
  mkQuery (data q) v (q_error q) (refreshCount q) (isMounted q)
          (channelRef q) (isSubscribed q).

Definition setQError {T} (e : option JsError) (q : Query T) : Query T :=
  mkQuery (data q) (loading q) e (refreshCount q) (isMounted q)
          (channelRef q) (isSubscribed q).

(** [setData(result); refreshCountRef.current += 1] *)
Definition setDataQ {T} (result : list T) (q : Query T) : Query T :=
  mkQuery result (loading q) (q_error q) (S (refreshCount q)) (isMounted q)
          (channelRef q) (isSubscribed q).

Definition setMounted {T} (v : bool) (q : Query T) : Query T :=
  mkQuery (data q) (loading q) (q_error q) (refreshCount q) v
          (channelRef q) (isSubscribed q).

Definition setChannel {T} (ch : option string) (sub : bool) (q : Query T)
  : Query T :=
  mkQuery (data q) (loading q) (q_error q) (refreshCount q) (isMounted q)
          ch sub.

(** [useState([])], [useState(true)], [useState(null)], [useRef(...)]. *)
Definition initialQuery {T} : Query T :=
  mkQuery [] true None 0%nat true None false.

Definition initialBoard : Board :=
  mkBoard initialQuery initialQuery None None None.

(** ** Equality of JSON renderings *)

Definition Task_eqb (a b : Task) : bool :=
  String.eqb (id a) (id b) && String.eqb (title a) (title b) &&
  Priority_eqb (priority a) (priority b) &&
  String.eqb (column_id a) (column_id b) && Z.eqb (position a) (position b) &&
  String.eqb (user_id a) (user_id b) &&
  String.eqb (created_at a) (created_at b) &&
  String.eqb (updated_at a) (updated_at b).

Definition Column_eqb (a b : Column) : bool :=
  String.eqb (c_id a) (c_id b) && String.eqb (c_title a) (c_title b) &&
  Z.eqb (c_position a) (c_position b) &&
  String.eqb (c_user_id a) (c_user_id b) &&
  String.eqb (c_created_at a) (c_created_at b) &&
  String.eqb (c_updated_at a) (c_updated_at b).

Definition Row_eqb (t : Table) : Row t -> Row t -> bool :=
  match t return Row t -> Row t -> bool with
  | columns => Column_eqb
  | tasks => Task_eqb
  end.

Fixpoint list_eqb {T} (eqb : T -> T -> bool) (l1 l2 : list T) : bool :=
  match l1, l2 with
  | [], [] => true
  | x :: r1, y :: r2 => eqb x y && list_eqb eqb r1 r2
  | _, _ => false
  end.

(** [JSON.stringify(result) !== JSON.stringify(data)] on rows of table [t]. *)
Definition jsonDiffers (t : Table) (result current : list (Row t)) : bool :=
  negb (list_eqb (Row_eqb t) result current).

(** ** The query hook ([hooks/useSupabaseQuery]) *)

(** [setData(result)] of the query of table [t], seen from the board: for
    the tasks query the new array is a new value of [tasks], so the effect
    of [useBoard] on [[tasks]] runs with it,
    [if (tasks) setOptimisticTasks(tasks)] (an array is always truthy). *)
Definition setData (t : Table) : list (Row t) -> Board -> Board :=
  match t return list (Row t) -> Board -> Board with
  | columns => fun result b => updQ columns (setDataQ result) b
  | tasks => fun result b =>
      setOptimisticTasks (fun _ => Some result) (updQ tasks (setDataQ result) b)
  end.

(** [e instanceof Error ? e : new Error('An error occurred')] *)
Definition asError (e : JsError) : JsError :=
  match e with
  | ErrorObj m => ErrorObj m
  | NonError _ => ErrorObj "An error occurred"
  end.

(** Guarded state update: [if (isMountedRef.current) { ... }]. *)
Definition whenMounted (t : Table) (f : Board -> Board) : Async Board unit :=
  Get (fun b => if isMounted (getQ t b) then modify f else ret tt).

Definition fetchData (t : Table) (forceRefresh : bool) : Async Board unit :=
  Get (fun b =>
    if negb (isMounted (getQ t b)) then ret tt
    else
      try_finally
        (try_catch
           (modify (updQ t (setLoading true)) ;;
            result <- await (Fetch t) ;;
            whenMounted t (fun b1 =>
              let b2 :=
                if forceRefresh || jsonDiffers t result (data (getQ t b))
                then setData t result b1 else b1 in
              updQ t (setQError None) b2))
           (fun e => whenMounted t (updQ t (setQError (Some (asError e))))))
        (whenMounted t (updQ t (setLoading false)))).

(** [refetch: () => fetchData(true)] *)
Definition refetch (t : Table) : Async Board unit := fetchData t true.

Definition tableName (t : Table) : string :=
  match t with columns => "columns" | tasks => "tasks" end.

(** Events of the realtime channel of a query. *)
Inductive EventType := INSERT | UPDATE | DELETE.

(** The mount effect: [isMountedRef.current = true]. *)
Definition mountEffect (t : Table) : Async Board unit :=
  modify (updQ t (setMounted true)).

(** The body of the subscription effect: [isSubscribed = true], a channel
    named after the table and a random [suffix] stored in [channelRef]
    (a channel already there is unsubscribed and replaced), then the
    initial fetch. *)
Definition subscribeEffect (t : Table) (suffix : string) : Async Board unit :=
  modify (updQ t (setChannel
                    (Some (tableName t ++ "_changes_" ++ suffix)%string) true)) ;;
  fetchData t true.

(** The cleanups of both effects of the hook. *)
Definition cleanupEffect (t : Table) : Async Board unit :=
  modify (updQ t (setChannel None false)) ;;
  modify (updQ t (setMounted false)).

(** The callback given to [subscribe]. *)
Definition onStatus (t : Table) (status : string) : Async Board unit :=
  Get (fun b =>
    if String.eqb status "SUBSCRIBED" && isMounted (getQ t b)
       && isSubscribed (getQ t b)
    then fetchData t true else ret tt).

(** The [postgres_changes] handler of the hook. *)
Definition onChange (t : Table) (payload : EventType) : Async Board unit :=
  Get (fun b => if isMounted (getQ t b) then fetchData t true else ret tt).

(** ** Ordering helpers *)

(** [Math.max(...args)]; with no argument the result is [-Infinity], which
    is no integer: [None]. *)
Fixpoint Math_max (args : list Z) : option Z :=
  match args with
  | [] => None
  | x :: rest =>
      Some (match Math_max rest with
            | None => x
            | Some m => Z.max x m
            end)
  end.

(** The integer a finite number is.  Both uses of [Math.max] below have at
    least one argument, so the default is never taken
    (see [Math_max_finite]). *)
Definition intOf (n : option Z) : Z :=
  match n with Some z => z | None => 0 end.

(** [columns ? Math.max(...columns.map(c => c.position), -1) + 1 : 0] *)
Definition newColumnPosition (cols : option (list Column)) : Z :=
  match cols with
  | Some cs => intOf (Math_max (map c_position cs ++ [-1])) + 1
  | None => 0
  end.

(** [columnTasks.length > 0 ? Math.max(...columnTasks.map(t => t.position)) + 1 : 0]
    with [columnTasks] the tasks of [columnId]. *)
Definition newTaskPosition (ots : list Task) (columnId : string) : Z :=
  let columnTasks := filter (fun t => String.eqb (column_id t) columnId) ots in
  if (0 <? List.length columnTasks)%nat
  then intOf (Math_max (map position columnTasks)) + 1
  else 0.

(** Stable insertion of [x] in a list sorted by position. *)
Fixpoint insertByPosition (x : Task) (l : list Task) : list Task :=
  match l with
  | [] => [x]
  | y :: r =>
      if position x <=? position y then x :: y :: r
      else y :: insertByPosition x r
  end.

(** [[...l].sort((a, b) => a.position - b.position)]: ascending and
    stable. *)
Definition sortByPosition (l : list Task) : list Task :=
  fold_right insertByPosition [] l.

Fixpoint mapi_from {A B} (f : A -> nat -> B) (i : nat) (l : list A) : list B :=
  match l with
  | [] => []
  | x :: r => f x i :: mapi_from f (S i) r
  end.

(** [l.map((x, index) => f x index)] *)
Definition mapi {A B} (f : A -> nat -> B) (l : list A) : list B :=
  mapi_from f 0%nat l.

(** [l.findIndex(p)], [None] for [-1]. *)
Fixpoint findIndex {A} (p : A -> bool) (l : list A) : option nat :=
  match l with
  | [] => None
  | x :: r => if p x then Some 0%nat else option_map S (findIndex p r)
  end.

(** [const x = l.find(p); if (x) { x.field = ... }]: the first element
    satisfying [p] is updated in place. *)
Fixpoint updateFirst {A} (p : A -> bool) (f : A -> A) (l : list A) : list A :=
  match l with
  | [] => []
  | x :: r => if p x then f x :: r else x :: updateFirst p f r
  end.

(** ** The board hook ([hooks/useBoard]) *)

(** The clock when a handler runs: [Date.now()] and
    [new Date().toISOString()]. *)
Record Instant := mkInstant {
  ms : N;
  iso : string
}.

(** [e instanceof Error ? e.message : fallback] *)
Definition messageOr (e : JsError) (fallback : string) : string :=
  match e with
  | ErrorObj m => m
  | NonError _ => fallback
  end.

(** The [catch] block of the column handlers. *)
Definition failWith {A} (fallback : string) (e : JsError) : Async Board A :=
  modify (setError (Some (messageOr e fallback))) ;;
  throw e.

(** The [catch] block of the task handlers: "On error, revert to server
    state". *)
Definition revertAndFail {A} (fallback : string) (e : JsError) : Async Board A :=
  refetch tasks ;;
  modify (setError (Some (messageOr e fallback))) ;;
  throw e.

Definition handleCreateColumn (title : string) : Async Board unit :=
  Get (fun b =>
    try_catch
      (let position := newColumnPosition (Some (data (columnsQ b))) in
       await (CreateColumn title position) ;;
       refetch columns)
      (failWith "Failed to create column")).

Definition handleUpdateColumn (id title : string) : Async Board unit :=
  try_catch
    (await (UpdateColumn id title) ;;
     refetch columns)
    (failWith "Failed to update column").

Definition handleDeleteColumn (id : string) : Async Board unit :=
  try_catch
    (await (DeleteColumn id) ;;
     refetch columns ;;
     refetch tasks)
    (failWith "Failed to delete column").

(** [`temp-${Date.now()}`] *)
Definition tempIdAt (now : Instant) : string :=
  ("temp-" ++ NilZero.string_of_uint (N.to_uint (ms now)))%string.

Definition tempTaskAt (now : Instant) (title columnId : string)
  (priority : Priority) (position : Z) : Task :=
  {| id := tempIdAt now;
     title := title;
     column_id := columnId;
     priority := priority;
     position := position;
     user_id := "";
     created_at := iso now;
     updated_at := iso now |}.

(** [prev => prev ? [...prev, tempTask] : [tempTask]] *)
Definition appendTask (tempTask : Task) (prev : option (list Task))
  : option (list Task) :=
  match prev with
  | Some l => Some (l ++ [tempTask])
  | None => Some [tempTask]
  end.

(** [prev => prev ? prev.map(t => t.id === tempId ? createdTask : t) : [createdTask]] *)
Definition commit (tempId : string) (createdTask : Task)
  (prev : option (list Task)) : option (list Task) :=
  match prev with
  | Some l =>
      Some (map (fun t => if String.eqb (id t) tempId then createdTask else t) l)
  | None => Some [createdTask]
  end.

Definition handleCreateTask (now : Instant) (title columnId : string)
  (priority : Priority) : Async Board unit :=
  Get (fun b =>
    match optimisticTasks b with
    | None => ret tt
    | Some ots =>
        try_catch
          (let position := newTaskPosition ots columnId in
           let tempId := tempIdAt now in
           let tempTask := tempTaskAt now title columnId priority position in
           modify (setOptimisticTasks (appendTask tempTask)) ;;
           createdTask <- await (CreateTask title columnId priority position) ;;
           modify (setOptimisticTasks (commit tempId createdTask)))
          (revertAndFail "Failed to create task")
    end).

Definition orElse {A} (o : option A) (d : A) : A :=
  match o with Some a => a | None => d end.

(** [{ ...task, ...updates, updated_at: new Date().toISOString() }] *)
Definition patchTask (now : Instant) (updates : TaskPatch) (task : Task) : Task :=
  {| id := id task;
     title := orElse (p_title updates) (title task);
     priority := orElse (p_priority updates) (priority task);
     column_id := orElse (p_column_id updates) (column_id task);
     position := orElse (p_position updates) (position task);
     user_id := user_id task;
     created_at := created_at task;
     updated_at := iso now |}.

Definition handleUpdateTask (now : Instant) (taskId : string)
  (updates : TaskPatch) : Async Board unit :=
  Get (fun b =>
    match optimisticTasks b with
    | None => ret tt
    | Some _ =>
        try_catch
          (modify (setOptimisticTasks
                     (option_map
                        (map (fun task =>
                                if String.eqb (id task) taskId
                                then patchTask now updates task else task)))) ;;
           await (UpdateTask taskId updates) ;;
           ret tt)
          (revertAndFail "Failed to update task")
    end).

Definition handleDeleteTask (taskId : string) : Async Board unit :=
  Get (fun b =>
    match optimisticTasks b with
    | None => ret tt
    | Some _ =>
        try_catch
          (modify (setOptimisticTasks
                     (option_map
                        (filter (fun task => negb (String.eqb (id task) taskId))))) ;;
           await (DeleteTask taskId))
          (revertAndFail "Failed to delete task")
    end).

(** The optimistic application of a position batch to one task:
    [const update = updates.find(u => u.id === task.id)], then the task
    with the position and column of [update] and a new [updated_at] when
    there is one, the task itself otherwise. *)
Definition applyTo (now : Instant) (updates : list PositionUpdate) (task : Task)
  : Task :=
  match find (fun u => String.eqb (u_id u) (id task)) updates with
  | Some update =>
      {| id := id task;
         title := title task;
         priority := priority task;
         column_id := u_column_id update;
         position := u_position update;
         user_id := user_id task;
         created_at := created_at task;
         updated_at := iso now |}
  | None => task
  end.

(** [prev => { if (!prev) return null; return prev.map(task => ...) }] *)
Definition applyUpdates (now : Instant) (updates : list PositionUpdate)
  (prev : option (list Task)) : option (list Task) :=
  option_map (map (applyTo now updates)) prev.

(** The batch built by [handleMoveTask]: the tasks of the target column
    other than the moved one, shifted when at or after the new position,
    then the moved task. *)
Definition moveUpdates (ots : list Task) (taskId newColumnId : string)
  (newPosition : Z) : list PositionUpdate :=
  let columnTasks :=
    filter (fun t => String.eqb (column_id t) newColumnId
                     && negb (String.eqb (id t) taskId)) ots in
  let updates :=
    map (fun task =>
           {| u_id := id task;
              u_position := if position task >=? newPosition
                            then position task + 1 else position task;
              u_column_id := newColumnId |})
        columnTasks in
  updates ++ [ {| u_id := taskId;
                  u_position := newPosition;
                  u_column_id := newColumnId |} ].

Definition handleMoveTask (now : Instant) (taskId newColumnId : string)
  (newPosition : Z) : Async Board unit :=
  Get (fun b =>
    match optimisticTasks b with
    | None => ret tt
    | Some ots =>
        try_catch
          (match find (fun t => String.eqb (id t) taskId) ots with
           | None => ret tt
           | Some taskToMove =>
               let updates := moveUpdates ots taskId newColumnId newPosition in
               modify (setOptimisticTasks (applyUpdates now updates)) ;;
               await (UpdateTaskPositions updates)
           end)
          (revertAndFail "Failed to move task")
    end).

Definition handleReorderTasks (now : Instant) (updates : list PositionUpdate)
  : Async Board unit :=
  Get (fun b =>
    match optimisticTasks b with
    | None => ret tt
    | Some _ =>
        try_catch
          (modify (setOptimisticTasks (applyUpdates now updates)) ;;
           await (UpdateTaskPositions updates))
          (revertAndFail "Failed to reorder tasks")
    end).

(** What the hook returns to the presentation layer:
    [columns], [tasks: optimisticTasks || tasks] (a non-null array, even
    empty, is truthy). *)
Definition exposedColumns (b : Board) : list Column := data (columnsQ b).

Definition exposedTasks (b : Board) : list Task :=
  match optimisticTasks b with
  | Some ots => ots
  | None => data (tasksQ b)
  end.

(** The handlers of the two channels that [useBoard] opens itself. *)
Definition onColumnsChanges (payload : EventType) : Async Board unit :=
  refetch columns.

Definition onTasksChanges (payload : EventType) : Async Board unit :=
  match payload with
  | INSERT | UPDATE | DELETE => refetch tasks
  end.

(** ** The drag handler ([App.tsx]) *)

(** [UniqueIdentifier] of the drag library: [string | number]. *)
Inductive UniqueIdentifier :=
| IdStr (s : string)
| IdNum (n : Z).

(** [task.id === uid] for a string [task.id]. *)
Definition idIs (uid : UniqueIdentifier) (s : string) : bool :=
  match uid with
  | IdStr x => String.eqb s x
  | IdNum _ => false
  end.

(** [getTasksByColumn]: the tasks a column displays, in display order. *)
Definition getTasksByColumn (tasks : list Task) (columnId : string) : list Task :=
  sortByPosition (filter (fun task => String.eqb (column_id task) columnId) tasks).

(** [(task, index) => ({ id: task.id, position: index, column_id })] *)
Definition positionIsIndex (columnId : string) (task : Task) (index : nat)
  : PositionUpdate :=
  {| u_id := id task; u_position := Z.of_nat index; u_column_id := columnId |}.

(** The batch of the drop-on-a-task branch: position = index for the tasks
    of the column of [overTask], in their current order. *)
Definition dropUpdates (tasks : list Task) (activeTask overTask : Task)
  : list PositionUpdate :=
  let columnTasks :=
    filter (fun t => String.eqb (column_id t) (column_id overTask)) tasks in
  let sortedTasks := sortByPosition columnTasks in
  let updates := mapi (positionIsIndex (column_id overTask)) sortedTasks in
  if negb (String.eqb (column_id activeTask) (column_id overTask))
  then updateFirst (fun u => String.eqb (u_id u) (id activeTask))
                   (fun u => {| u_id := u_id u;
                                u_position := u_position u;
                                u_column_id := column_id overTask |})
                   updates
  else updates.

(** [handleDragEnd({ active, over })].  [tasks] is the list exposed by the
    hook, never null; the hook exposes no [refetchTasks], so the [catch]
    block only logs. *)
Definition handleDragEnd (now : Instant) (active : UniqueIdentifier)
  (over : option UniqueIdentifier) : Async Board unit :=
  Get (fun b =>
    let tasks := exposedTasks b in
    match over with
    | None => modify (setActiveTask None)
    | Some overId =>
        match find (fun task => idIs active (id task)) tasks with
        | None => modify (setActiveTask None)
        | Some activeTask =>
            try_finally
              (try_catch
                 (match overId with
                  | IdNum _ => ret tt
                  | IdStr overId =>
                      let isColumn :=
                        negb (existsb (fun task => String.eqb (id task) overId) tasks) in
                      if isColumn then
                        let columnId := overId in
                        let columnTasks :=
                          filter (fun t => String.eqb (column_id t) columnId) tasks in
                        let newPosition := Z.of_nat (List.length columnTasks) in
                        if negb (String.eqb (column_id activeTask) columnId)
                        then handleMoveTask now (id activeTask) columnId newPosition
                        else ret tt
                      else
                        match find (fun task => String.eqb (id task) overId) tasks with
                        | None => modify (setActiveTask None)
                        | Some overTask =>
                            let columnTasks :=
                              filter (fun t => String.eqb (column_id t)
                                                          (column_id overTask))
                                     tasks in
                            let sortedTasks := sortByPosition columnTasks in
                            match findIndex
                                    (fun t => String.eqb (id t) (id overTask))
                                    sortedTasks with
                            | None => modify (setActiveTask None)
                            | Some overIndex =>
                                handleReorderTasks now
                                  (dropUpdates tasks activeTask overTask)
                            end
                        end
                  end)
                 (fun error => ret tt))
              (modify (setActiveTask None))
        end
    end).

(** ** Mutations, lifecycle and realtime events of a board view *)

(** The task mutations of the orchestrator. *)
Inductive Mutation :=
| MCreate (title columnId : string) (priority : Priority)
| MUpdate (taskId : string) (updates : TaskPatch)
| MDelete (taskId : string)
| MMove (taskId newColumnId : string) (newPosition : Z)
| MReorder (updates : list PositionUpdate).

Definition perform (now : Instant) (m : Mutation) : Async Board unit :=
  match m with
  | MCreate title columnId priority => handleCreateTask now title columnId priority
  | MUpdate taskId updates => handleUpdateTask now taskId updates
  | MDelete taskId => handleDeleteTask taskId
  | MMove taskId newColumnId newPosition =>
      handleMoveTask now taskId newColumnId newPosition
  | MReorder updates => handleReorderTasks now updates
  end.

(** The list the optimistic apply of a mutation makes of the working list
    [w]: the argument each handler gives [setOptimisticTasks] before its
    remote call. *)
Definition optimisticApply (now : Instant) (m : Mutation) (w : list Task)
  : option (list Task) :=
  match m with
  | MCreate title columnId priority =>
      appendTask (tempTaskAt now title columnId priority
                             (newTaskPosition w columnId)) (Some w)
  | MUpdate taskId updates =>
      Some (map (fun task => if String.eqb (id task) taskId
                             then patchTask now updates task else task) w)
  | MDelete taskId =>
      Some (filter (fun task => negb (String.eqb (id task) taskId)) w)
  | MMove taskId newColumnId newPosition =>
      applyUpdates now (moveUpdates w taskId newColumnId newPosition) (Some w)
  | MReorder updates => applyUpdates now updates (Some w)
  end.

(** The remote write of a mutation on the working list [w]. *)
Definition remoteWrite (m : Mutation) (w : list Task) : GatewayCall :=
  match m with
  | MCreate title columnId priority =>
      CreateTask title columnId priority (newTaskPosition w columnId)
  | MUpdate taskId updates => UpdateTask taskId updates
  | MDelete taskId => DeleteTask taskId
  | MMove taskId newColumnId newPosition =>
      UpdateTaskPositions (moveUpdates w taskId newColumnId newPosition)
  | MReorder updates => UpdateTaskPositions updates
  end.

(** The message a handler shows when the thrown value is no [Error]. *)
Definition fallbackMessage (m : Mutation) : string :=
  match m with
  | MCreate _ _ _ => "Failed to create task"
  | MUpdate _ _ => "Failed to update task"
  | MDelete _ => "Failed to delete task"
  | MMove _ _ _ => "Failed to move task"
  | MReorder _ => "Failed to reorder tasks"
  end.

(** A mutation that passes the guards of its handler on the working list
    [w]: only [moveTask] has one, the moved task must be in the list. *)
Definition accepted (m : Mutation) (w : list Task) : bool :=
  match m with
  | MMove taskId _ _ =>
      match find (fun t => String.eqb (id t) taskId) w with
      | Some _ => true
      | None => false
      end
  | _ => true
  end.

(** The column operations of the orchestrator. *)
Inductive ColumnOp :=
| CCreate (title : string)
| CRename (columnId title : string)
| CDelete (columnId : string).

Definition performColumn (op : ColumnOp) : Async Board unit :=
  match op with
  | CCreate title => handleCreateColumn title
  | CRename columnId title => handleUpdateColumn columnId title
  | CDelete columnId => handleDeleteColumn columnId
  end.

(** First render and its effects: for each query the mount effect and the
    subscription effect with its initial fetch, then the effect of
    [useBoard] that copies [tasks] (the initial [[]]) into
    [optimisticTasks]. *)
Definition mount (suffixColumns suffixTasks : string) : Async Board unit :=
  mountEffect columns ;;
  subscribeEffect columns suffixColumns ;;
  mountEffect tasks ;;
  subscribeEffect tasks suffixTasks ;;
  Get (fun b =>
    match optimisticTasks b with
    | None => modify (setOptimisticTasks (fun _ => Some (data (tasksQ b))))
    | Some _ => ret tt
    end).

Definition unmount : Async Board unit :=
  cleanupEffect columns ;;
  cleanupEffect tasks.

(** What can happen to a mounted board view. *)
Inductive Activity :=
| AStatus (t : Table) (status : string)
| AChange (t : Table) (payload : EventType)
| ABoardChange (t : Table) (payload : EventType)
| AMutation (now : Instant) (m : Mutation)
| AColumn (op : ColumnOp)
| ADragEnd (now : Instant) (active : UniqueIdentifier)
           (over : option UniqueIdentifier).

Definition react (a : Activity) : Async Board unit :=
  match a with
  | AStatus t status => onStatus t status
  | AChange t payload => onChange t payload
  | ABoardChange columns payload => onColumnsChanges payload
  | ABoardChange tasks payload => onTasksChanges payload
  | AMutation now m => perform now m
  | AColumn op => performColumn op
  | ADragEnd now active over => handleDragEnd now active over
  end.

(** The states of a mounted board view: the state after [mount] and those
    any activity leads to from there, whatever the store answers. *)
Inductive mounted : Board -> Prop :=
| mounted_first (sb : Supabase) (s1 s2 : string) :
    mounted (final (run sb (mount s1 s2) initialBoard))
| mounted_next (sb : Supabase) (a : Activity) (b : Board) :
    mounted b -> mounted (final (run sb (react a) b)).

(** The queries are live: their hooks are mounted and their subscription
    effects have not been cleaned up. *)
Definition live (b : Board) : Prop :=
  forall t, isMounted (getQ t b) = true /\ isSubscribed (getQ t b) = true.

(** The working list has been populated. *)
Definition populated (b : Board) : Prop := optimisticTasks b <> None.

(** What every state of a mounted view satisfies (see [mounted_steady]). *)
Definition steady (b : Board) : Prop := live b /\ populated b.

(** Orders on tasks: by position, and strictly by position. *)
Definition byPosition (a b : Task) : Prop := position a <= position b.
Definition beforePosition (a b : Task) : Prop := position a < position b.

(** Every state update of program [p] keeps the property [P] of the
    state. *)
Fixpoint keeps {S A} (P : S -> Prop) (p : Async S A) : Prop :=
  match p with
  | Ret _ => True
  | Get k => forall s, P s -> keeps P (k s)
  | Modify f k => (forall s, P s -> P (f s)) /\ keeps P k
  | Await c k => forall r, keeps P (k r)
  end.

(** ** The realtime channels of a collection *)

(** The channels a board view opens on a table: the channel of the query
    hook ([`${table}_changes_...`]) and the channel of [useBoard]
    (['columns-changes'], ['tasks-changes']).  The effects of the query
    hooks run before those of [useBoard], so the channel of the query hook
    is the first of the two. *)
Inductive Channel :=
| QueryChannel (t : Table)
| BoardChannel (t : Table).

Definition channelTable (c : Channel) : Table :=
  match c with
  | QueryChannel t => t
  | BoardChannel t => t
  end.

Definition channelsOf (t : Table) : list Channel :=
  [QueryChannel t; BoardChannel t].

(** The callback given to [subscribe]: the query hook passes [onStatus],
    [useBoard] calls [.subscribe()] with none. *)
Definition statusCallback (c : Channel)
  : option (string -> Async Board unit) :=
  match c with
  | QueryChannel t => Some (onStatus t)
  | BoardChannel _ => None
  end.

(** The [postgres_changes] handler registered on the channel. *)
Definition changeHandler (c : Channel) (payload : EventType)
  : Async Board unit :=
  match c with
  | QueryChannel t => onChange t payload
  | BoardChannel columns => onColumnsChanges payload
  | BoardChannel tasks => onTasksChanges payload
  end.

(** What the handler of channel [c] is among the activities of a view. *)
Definition received (c : Channel) (payload : EventType) : Activity :=
  match c with
  | QueryChannel t => AChange t payload
  | BoardChannel t => ABoardChange t payload
  end.

(** The channel reports [status]: its callback, if it has one, is called
    with it. *)
Definition onChannelStatus (c : Channel) (status : string)
  : Async Board unit :=
  match statusCallback c with
  | Some callback => callback status
  | None => ret tt
  end.

(** One change of a table reaches the channels [cs] that listen to it: the
    handler of each is called with the event.  The handlers start their
    fetch without awaiting it ([fetchData(true);], [refetchTasks();]), so
    what one of them throws reaches no other.  In the browser the fetches
    of the handlers overlap; here each handler runs to its end before the
    next starts, which gives the same calls and, the store answering all
    of them alike, the same final state. *)
Fixpoint deliver (cs : list Channel) (payload : EventType)
  : Async Board unit :=
  match cs with
  | [] => ret tt
  | c :: rest =>
      try_catch (changeHandler c payload) (fun _ => ret tt) ;;
      deliver rest payload
  end.

(** ** Sample data *)

Definition aTask (i col : string) (pos : Z) : Task :=
  {| id := i; title := ("Task " ++ i)%string; priority := medium;
     column_id := col; position := pos; user_id := "u1";
     created_at := "2025-04-12T12:36:00.000Z";
     updated_at := "2025-04-12T12:36:00.000Z" |}.

Definition aColumn (i : string) (pos : Z) : Column :=
  {| c_id := i; c_title := i; c_position := pos; c_user_id := "u1";
     c_created_at := "2025-04-12T12:36:00.000Z";
     c_updated_at := "2025-04-12T12:36:00.000Z" |}.

Definition noon : Instant :=
  {| ms := 1744461360000%N; iso := "2025-04-12T12:36:00.000Z" |}.

(** The tasks of the scenarios: A, B, C in column "todo", X, Y in "done". *)
Definition taskA : Task := aTask "A" "todo" 0.
Definition taskB : Task := aTask "B" "todo" 1.
Definition taskC : Task := aTask "C" "todo" 2.
Definition taskX : Task := aTask "X" "done" 0.
Definition taskY : Task := aTask "Y" "done" 1.

(** A mounted board whose confirmed snapshot and working list are [ts]. *)
Definition boardOf (cs : list Column) (ts : list Task) : Board :=
  {| columnsQ := mkQuery cs false None 1%nat true (Some "columns_changes_k3") true;
     tasksQ := mkQuery ts false None 1%nat true (Some "tasks_changes_x7") true;
     optimisticTasks := Some ts;
     error := None;
     activeTask := None |}.

(** A store that holds the rows [ts] and accepts every request. *)
Definition storeWith (cs : list Column) (ts : list Task) : Supabase :=
  {| auth_getUser := Some "u1";
     columns_select := inr cs;
     tasks_select := inr ts;
     tasks_select_in := fun ids =>
       inr (Some (map (fun t => mkBrief (id t) (title t) (priority t))
                      (filter (fun t => existsb (String.eqb (id t)) ids) ts)));
     columns_insert := fun title position uid =>
       inr (mkColumn "c-new" title position uid "" "");
     columns_update := fun i title => inr (mkColumn i title 0 "u1" "" "");
     columns_delete := fun _ => None;
     columns_upsert := fun _ => None;
     tasks_insert := fun title columnId priority position uid =>
       inr (mkTask "t-new" title priority columnId position uid "" "");
     tasks_update := fun i _ => inr (aTask i "" 0);
     tasks_delete := fun _ => None;
     tasks_upsert := fun _ => None |}.

(** A store that holds the rows [ts], answers the reads and refuses every
    write. *)
Definition readOnly (cs : list Column) (ts : list Task) : Supabase :=
  let denied := ErrorObj "new row violates row-level security policy" in
  {| auth_getUser := Some "u1";
     columns_select := inr cs;
     tasks_select := inr ts;
     tasks_select_in := fun ids =>
       inr (Some (map (fun t => mkBrief (id t) (title t) (priority t))
                      (filter (fun t => existsb (String.eqb (id t)) ids) ts)));
     columns_insert := fun _ _ _ => inl denied;
     columns_update := fun _ _ => inl denied;
     columns_delete := fun _ => Some denied;
     columns_upsert := fun _ => Some denied;
     tasks_insert := fun _ _ _ _ _ => inl denied;
     tasks_update := fun _ _ => inl denied;
     tasks_delete := fun _ => Some denied;
     tasks_upsert := fun _ => Some denied |}.

(** A store out of reach: every request fails. *)
Definition offline : Supabase :=
  let down := NonError "network" in
  {| auth_getUser := Some "u1";
     columns_select := inl down;
     tasks_select := inl down;
     tasks_select_in := fun _ => inl down;
     columns_insert := fun _ _ _ => inl down;
     columns_update := fun _ _ => inl down;
     columns_delete := fun _ => Some down;
     columns_upsert := fun _ => Some down;
     tasks_insert := fun _ _ _ _ _ => inl down;
     tasks_update := fun _ _ => inl down;
     tasks_delete := fun _ => Some down;
     tasks_upsert := fun _ => Some down |}.

(** ** More of what the hook returns, and of the column operations *)

(** [loading: columnsLoading || tasksLoading] *)
Definition exposedLoading (b : Board) : bool :=
  loading (columnsQ b) || loading (tasksQ b).

(** The remote call of a column operation in state [b]. *)
Definition columnWrite (op : ColumnOp) (b : Board) : GatewayCall :=
  match op with
  | CCreate title =>
      CreateColumn title (newColumnPosition (Some (data (columnsQ b))))
  | CRename columnId title => UpdateColumn columnId title
  | CDelete columnId => DeleteColumn columnId
  end.

(** The refetches that follow it when it succeeds. *)
Definition columnRefetches (op : ColumnOp) : list GatewayCall :=
  match op with
  | CCreate _ | CRename _ _ => [Fetch columns]
  | CDelete _ => [Fetch columns; Fetch tasks]
  end.

(** The message shown when the thrown value is no [Error]. *)
Definition columnFallback (op : ColumnOp) : string :=
  match op with
  | CCreate _ => "Failed to create column"
  | CRename _ _ => "Failed to update column"
  | CDelete _ => "Failed to delete column"
  end.

(** The board has recorded a failure: its [error] cell is not null. *)
Definition failedOnce (b : Board) : Prop := error b <> None.

(** A history of a board view: activities, each with the answers the
    store gave during it. *)
Definition runAll (steps : list (Supabase * Activity)) (b : Board) : Board :=
  fold_left (fun b0 step => final (run (fst step) (react (snd step)) b0)) steps b.

(** ** The forms of the dashboard ([App.tsx]) *)

(** [TaskFormData] *)
Record TaskFormData := mkForm {
  f_title : string;
  f_priority : Priority
}.

(** State of [Dashboard]: the state of the hook it uses and of the drag
    (in [board]), and its own form cells. *)
Record Dashboard := mkDashboard {
  board : Board;
  editingTask : option Task;
  isAddingTask : option string;
  editingColumn : option Column;
  newColumnTitle : string;
  newTaskData : TaskFormData
}.

Definition setBoard (b : Board) (d : Dashboard) : Dashboard :=
  mkDashboard b (editingTask d) (isAddingTask d) (editingColumn d)
              (newColumnTitle d) (newTaskData d).

Definition setEditingTask (t : option Task) (d : Dashboard) : Dashboard :=
  mkDashboard (board d) t (isAddingTask d) (editingColumn d)
              (newColumnTitle d) (newTaskData d).

Definition setIsAddingTask (c : option string) (d : Dashboard) : Dashboard :=
  mkDashboard (board d) (editingTask d) c (editingColumn d)
              (newColumnTitle d) (newTaskData d).

Definition setEditingColumn (c : option Column) (d : Dashboard) : Dashboard :=
  mkDashboard (board d) (editingTask d) (isAddingTask d) c
              (newColumnTitle d) (newTaskData d).

Definition setNewColumnTitle (s : string) (d : Dashboard) : Dashboard :=
  mkDashboard (board d) (editingTask d) (isAddingTask d) (editingColumn d)
              s (newTaskData d).

Definition setNewTaskData (f : TaskFormData) (d : Dashboard) : Dashboard :=
  mkDashboard (board d) (editingTask d) (isAddingTask d) (editingColumn d)
              (newColumnTitle d) f.

(** A program of the hook, run inside the dashboard. *)
Fixpoint liftBoard {A} (p : Async Board A) : Async Dashboard A :=
  match p with
  | Ret o => Ret o
  | Get k => Get (fun d => liftBoard (k (board d)))
  | Modify f k => Modify (fun d => setBoard (f (board d)) d) (liftBoard k)
  | Await c k => Await c (fun r => liftBoard (k r))
  end.

(** A string is truthy unless it is empty. *)
Definition truthy (s : string) : bool := negb (String.eqb s "").

(** The form without input: [{ title: '', priority: 'medium' }]. *)
Definition emptyForm : TaskFormData := mkForm "" medium.

(** The handlers of [Dashboard].  [trim] is [String.prototype.trim]; the
    hook's operations are the handlers of [useBoard]; every [catch] block
    only logs. *)
Module App.

Definition handleDragStart (active : UniqueIdentifier) : Async Dashboard unit :=
  Get (fun d =>
    match find (fun task => idIs active (id task)) (exposedTasks (board d)) with
    | Some activeTask =>
        modify (fun d0 => setBoard (setActiveTask (Some activeTask) (board d0)) d0)
    | None => ret tt
    end).

Definition handleAddColumn : Async Dashboard unit :=
  try_catch (liftBoard (handleCreateColumn "New Column")) (fun error => ret tt).

Definition handleEditColumn (column : Column) : Async Dashboard unit :=
  modify (setEditingColumn (Some column)) ;;
  modify (setNewColumnTitle (c_title column)).

Definition handleUpdateColumn (trim : string -> string) : Async Dashboard unit :=
  Get (fun d =>
    match editingColumn d with
    | None => ret tt
    | Some column =>
        if negb (truthy (trim (newColumnTitle d))) then ret tt
        else
          try_catch
            (liftBoard (handleUpdateColumn (c_id column) (trim (newColumnTitle d))) ;;
             modify (setEditingColumn None))
            (fun error => ret tt)
    end).

Definition handleDeleteColumn (columnId : string) : Async Dashboard unit :=
  try_catch (liftBoard (handleDeleteColumn columnId)) (fun error => ret tt).

Definition handleAddTask (columnId : string) : Async Dashboard unit :=
  modify (setIsAddingTask (Some columnId)) ;;
  modify (setNewTaskData emptyForm).

Definition handleSaveNewTask (trim : string -> string) (now : Instant)
  : Async Dashboard unit :=
  Get (fun d =>
    match isAddingTask d with
    | None => ret tt
    | Some columnId =>
        if negb (truthy columnId) || negb (truthy (trim (f_title (newTaskData d))))
        then ret tt
        else
          try_catch
            (liftBoard (handleCreateTask now (trim (f_title (newTaskData d)))
                                         columnId (f_priority (newTaskData d))) ;;
             modify (setIsAddingTask None) ;;
             modify (setNewTaskData emptyForm))
            (fun error => ret tt)
    end).

Definition handleEditTask (task : Task) : Async Dashboard unit :=
  modify (setEditingTask (Some task)) ;;
  modify (setNewTaskData (mkForm (title task) (priority task))).

Definition handleUpdateTask (trim : string -> string) (now : Instant)
  : Async Dashboard unit :=
  Get (fun d =>
    match editingTask d with
    | None => ret tt
    | Some task =>
        if negb (truthy (trim (f_title (newTaskData d)))) then ret tt
        else
          try_catch
            (liftBoard
               (handleUpdateTask now (id task)
                  (mkPatch (Some (trim (f_title (newTaskData d))))
                           (Some (f_priority (newTaskData d))) None None)) ;;
             modify (setEditingTask None))
            (fun error => ret tt)
    end).

Definition handleDeleteTask (taskId : string) : Async Dashboard unit :=
  try_catch (liftBoard (handleDeleteTask taskId)) (fun error => ret tt).

End App.

(** A dashboard with its forms closed. *)
Definition dashboardOf (b : Board) : Dashboard :=
  mkDashboard b None None None "" emptyForm.

(** A [trim] for the samples: it removes the spaces at both ends. *)
Definition isSpace (c : Ascii.ascii) : bool :=
  Ascii.eqb c (Ascii.Ascii false false false false false true false false).

Fixpoint trimLeft (s : string) : string :=
  match s with
  | String c r => if isSpace c then trimLeft r else s
  | EmptyString => s
  end.

Fixpoint reverse (s acc : string) : string :=
  match s with
  | EmptyString => acc
  | String c r => reverse r (String c acc)
  end.

Definition trimSpaces (s : string) : string :=
  reverse (trimLeft (reverse (trimLeft s) "")) "".

(** * Properties *)

(** ** Executions of composed programs *)

Lemma run_bind {S A B} sb (p : Async S A) (f : A -> Async S B) s :
  run sb (bind p f) s =
  match outcome (run sb p s) with
  | Returned a =>
      let r2 := run sb (f a) (final (run sb p s)) in
      mkRun (outcome r2) (final r2) (calls (run sb p s) ++ calls r2)
  | Threw e => mkRun (Threw e) (final (run sb p s)) (calls (run sb p s))
  end.
Proof.
  revert s. induction p as [o | k IH | g k IH | c k IH]; intros s; simpl.
  - destruct o; simpl; [destruct (run sb (f a) s)|]; reflexivity.
  - apply IH.
  - apply IH.
  - rewrite IH. destruct (outcome (run sb (k (fst (gateway sb c))) s)); reflexivity.
Qed.

Lemma run_try_catch {S A} sb (p : Async S A) h s :
  run sb (try_catch p h) s =
  match outcome (run sb p s) with
  | Returned a => run sb p s
  | Threw e =>
      let r2 := run sb (h e) (final (run sb p s)) in
      mkRun (outcome r2) (final r2) (calls (run sb p s) ++ calls r2)
  end.
Proof.
  revert s. induction p as [o | k IH | g k IH | c k IH]; intros s; simpl.
  - destruct o; simpl; [|destruct (run sb (h e) s)]; reflexivity.
  - apply IH.
  - apply IH.
  - rewrite IH. destruct (run sb (k (fst (gateway sb c))) s) as [[a|e] f cs];
      reflexivity.
Qed.

Lemma run_try_finally {S A} sb (p : Async S A) fin s :
  run sb (try_finally p fin) s =
  let r := run sb p s in
  let r2 := run sb fin (final r) in
  match outcome r2 with
  | Returned _ => mkRun (outcome r) (final r2) (calls r ++ calls r2)
  | Threw e => mkRun (Threw e) (final r2) (calls r ++ calls r2)
  end.
Proof.
  revert s. induction p as [o | k IH | g k IH | c k IH]; intros s; simpl.
  - rewrite run_bind. destruct (run sb fin s) as [[u|e] f cs]; simpl;
      rewrite ?app_nil_r; reflexivity.
  - apply IH.
  - apply IH.
  - rewrite IH. simpl.
    destruct (run sb fin (final (run sb (k (fst (gateway sb c))) s)))
      as [[u|e] f cs]; reflexivity.
Qed.

(** ** Batch completeness of the position write *)

Lemma Map_get_unique {V} (pairs : list (string * V)) k v :
  NoDup (map fst pairs) -> In (k, v) pairs -> Map_get pairs k = Some v.
Proof.
  intros Hnd Hin. unfold Map_get.
  destruct (find (fun p => String.eqb (fst p) k) (rev pairs)) as [[k' v']|] eqn:Hf.
  - apply find_some in Hf. destruct Hf as [Hin' Hk]. simpl in Hk.
    apply String.eqb_eq in Hk. subst k'. apply in_rev in Hin'. simpl.
    f_equal. clear - Hnd Hin Hin'.
    induction pairs as [|[k0 v0] r IH]; simpl in *; [contradiction|].
    inversion Hnd as [|? ? Hnot Hnd']; subst.
    destruct Hin as [E|Hin]; destruct Hin' as [E'|Hin'].
    + congruence.
    + inversion E; subst. exfalso. apply Hnot.
      apply (in_map fst) in Hin'. exact Hin'.
    + inversion E'; subst. exfalso. apply Hnot.
      apply (in_map fst) in Hin. exact Hin.
    + auto.
  - assert (Hr : In (k, v) (rev pairs)) by (apply -> in_rev; exact Hin).
    pose proof (find_none _ _ Hf (k, v) Hr) as Hk. simpl in Hk.
    rewrite String.eqb_refl in Hk. discriminate.
Qed.

Lemma Map_get_absent {V} (pairs : list (string * V)) k :
  ~ In k (map fst pairs) -> Map_get pairs k = None.
Proof.
  intros Hno. unfold Map_get.
  destruct (find (fun p => String.eqb (fst p) k) (rev pairs)) as [[k' v']|] eqn:Hf;
    [|reflexivity].
  apply find_some in Hf. destruct Hf as [Hin Hk]. simpl in Hk.
  apply String.eqb_eq in Hk. subst k'. apply in_rev in Hin.
  exfalso. apply Hno. apply (in_map fst) in Hin. exact Hin.
Qed.

Lemma upsertRecords_each uid rows updates :
  NoDup (map b_id rows) ->
  Forall2
    (fun u r =>
       r_id r = u_id u /\ r_position r = u_position u /\
       r_column_id r = u_column_id u /\
       (forall row, In row rows -> b_id row = u_id u ->
          r_title r = Some (b_title row) /\
          r_priority r = Some (b_priority row)) /\
       (~ In (u_id u) (map b_id rows) ->
          r_title r = None /\ r_priority r = None))
    updates (Gateway.upsertRecords uid (Some rows) updates).
Proof.
  intros Hnd. unfold Gateway.upsertRecords.
  induction updates as [|u us IH]; simpl; constructor; [|exact IH].
  split; [reflexivity|]. split; [reflexivity|]. split; [reflexivity|].
  split; simpl.
  - intros row Hin Hid. split; apply Map_get_unique.
    + rewrite map_map. simpl. exact Hnd.
    + rewrite <- Hid. apply (in_map (fun task => (b_id task, b_title task))).
      exact Hin.
    + rewrite map_map. simpl. exact Hnd.
    + rewrite <- Hid. apply (in_map (fun task => (b_id task, b_priority task))).
      exact Hin.
  - intros Hno. split; apply Map_get_absent; rewrite map_map; simpl; exact Hno.
Qed.

(** C5, as amended.  With a signed-in user and a successful lookup, the
    gateway sends the lookup first and then one upsert; the record of each
    update carries the id, position and column of the update, with the
    title and priority of the row the lookup returned for that id, and
    with neither when the lookup returned no row for it. *)
Theorem updateTaskPositions_records sb uid rows updates :
  auth_getUser sb = Some uid ->
  tasks_select_in sb (map u_id updates) = inr (Some rows) ->
  NoDup (map b_id rows) ->
  exists records,
    snd (Gateway.updateTaskPositions sb updates) =
      [AuthGetUser; SelectTasksIn (map u_id updates); UpsertTasks records] /\
    Forall2
      (fun u r =>
         r_id r = u_id u /\ r_position r = u_position u /\
         r_column_id r = u_column_id u /\
         (forall row, In row rows -> b_id row = u_id u ->
            r_title r = Some (b_title row) /\
            r_priority r = Some (b_priority row)) /\
         (~ In (u_id u) (map b_id rows) ->
            r_title r = None /\ r_priority r = None))
      updates records.
Proof.
  intros Hu Hs Hnd.
  exists (Gateway.upsertRecords uid (Some rows) updates). split.
  - unfold Gateway.updateTaskPositions. rewrite Hu, Hs.
    destruct (tasks_upsert sb _); reflexivity.
  - apply upsertRecords_each. exact Hnd.
Qed.

Lemma updateTaskPositions_records_witness :
  let sb := storeWith [] [taskA; taskB] in
  let updates := [mkUpdate "B" 0 "todo"; mkUpdate "A" 1 "todo"] in
  let rows := [mkBrief "A" "Task A" medium; mkBrief "B" "Task B" medium] in
  auth_getUser sb = Some "u1" /\
  tasks_select_in sb (map u_id updates) = inr (Some rows) /\
  NoDup (map b_id rows) /\
  exists records,
    snd (Gateway.updateTaskPositions sb updates) =
      [AuthGetUser; SelectTasksIn (map u_id updates); UpsertTasks records] /\
    Forall2
      (fun u r =>
         r_id r = u_id u /\ r_position r = u_position u /\
         r_column_id r = u_column_id u /\
         (forall row, In row rows -> b_id row = u_id u ->
            r_title r = Some (b_title row) /\
            r_priority r = Some (b_priority row)) /\
         (~ In (u_id u) (map b_id rows) ->
            r_title r = None /\ r_priority r = None))
      updates records.
Proof.
  assert (Hnd : NoDup ["A"; "B"]).
  { constructor.
    - simpl. intros [E|[]]. discriminate E.
    - constructor; [intros [] | constructor]. }
  split; [reflexivity | split; [reflexivity | split; [exact Hnd|]]].
  exact (updateTaskPositions_records (storeWith [] [taskA; taskB]) "u1"
           [mkBrief "A" "Task A" medium; mkBrief "B" "Task B" medium]
           [mkUpdate "B" 0 "todo"; mkUpdate "A" 1 "todo"]
           eq_refl eq_refl Hnd).
Defined.

(** C5 fails as stated: a task created optimistically is in the working
    list under its temporary id before the store knows it; a batch that
    names it gets no row from the lookup, and its record goes out without
    title and priority. *)
Lemma updateTaskPositions_omits_title :
  snd (Gateway.updateTaskPositions (storeWith [] [taskA])
         [mkUpdate "A" 0 "todo"; mkUpdate "temp-1744461360000" 1 "todo"]) =
  [AuthGetUser;
   SelectTasksIn ["A"; "temp-1744461360000"];
   UpsertTasks
     [mkUpsert "A" 0 "todo" "u1" (Some "Task A") (Some medium);
      mkUpsert "temp-1744461360000" 1 "todo" "u1" None None]].
Proof. reflexivity. Qed.

(** ** Reconciliation of a provisional task *)

(** C7.  [commit] on a working list returns a list (it cannot throw) of
    the same length; entry by entry, a task bearing the provisional id
    becomes the server task and any other task stays; hence, when no task
    bears the provisional id, the list is unchanged and the server task is
    not inserted. *)
Theorem commit_stable (tempId : string) (createdTask : Task) (w : list Task) :
  exists w',
    commit tempId createdTask (Some w) = Some w' /\
    List.length w' = List.length w /\
    (forall i t, nth_error w i = Some t ->
       nth_error w' i =
         Some (if String.eqb (id t) tempId then createdTask else t)) /\
    ((forall t, In t w -> id t <> tempId) -> w' = w).
Proof.
  eexists. split; [reflexivity|]. split; [apply length_map|]. split.
  - intros i t H. rewrite nth_error_map, H. reflexivity.
  - intros Habs. induction w as [|t r IH]; simpl; [reflexivity|].
    destruct (String.eqb (id t) tempId) eqn:E.
    + apply String.eqb_eq in E. exfalso. apply (Habs t); [left; reflexivity|exact E].
    + f_equal. apply IH. intros t' Ht'. apply Habs. right. exact Ht'.
Qed.

Lemma commit_stable_witness :
  commit "temp-1744461360000" taskC (Some [taskA; taskB]) = Some [taskA; taskB].
Proof.
  destruct (commit_stable "temp-1744461360000" taskC [taskA; taskB])
    as (w' & Hc & _ & _ & Hsame).
  rewrite Hc. f_equal. apply Hsame.
  intros t [E|[E|[]]]; rewrite <- E; discriminate.
Defined.

(** ** Positions given at creation *)

Lemma Math_max_finite (l : list Z) :
  l <> [] ->
  exists m, Math_max l = Some m /\ In m l /\ forall x, In x l -> x <= m.
Proof.
  induction l as [|x r IH]; intros Hne; [contradiction|].
  destruct r as [|y r'].
  - exists x. simpl. repeat split; [now left|].
    intros z [E|[]]. lia.
  - destruct IH as (m & Hm & Hin & Hmax); [discriminate|].
    change (Math_max (x :: y :: r')) with
      (Some (match Math_max (y :: r') with None => x | Some m0 => Z.max x m0 end)).
    rewrite Hm. exists (Z.max x m). split; [reflexivity|]. split.
    + destruct (Z.max_spec x m) as [[_ E]|[_ E]]; rewrite E.
      * right. exact Hin.
      * left. reflexivity.
    + intros z [E|Hz].
      * subst. lia.
      * specialize (Hmax z Hz). lia.
Qed.

(** The maximum of a list of integers, as a relation. *)
Lemma Math_max_is_max (l : list Z) (m : Z) :
  In m l -> (forall x, In x l -> x <= m) -> Math_max l = Some m.
Proof.
  intros Hin Hmax.
  destruct (Math_max_finite l) as (m' & Hm' & Hin' & Hmax').
  - intros E. subst. contradiction.
  - rewrite Hm'. f_equal. specialize (Hmax m' Hin'). specialize (Hmax' m Hin). lia.
Qed.

Lemma newColumnPosition_sentinel (cs : list Column) (m : Z) :
  In m (map c_position cs ++ [-1]) ->
  (forall x, In x (map c_position cs ++ [-1]) -> x <= m) ->
  newColumnPosition (Some cs) = m + 1.
Proof.
  intros Hin Hmax. unfold newColumnPosition.
  rewrite (Math_max_is_max _ _ Hin Hmax). reflexivity.
Qed.

(** C8, as amended.  [createColumn] asks the store for position
    [newColumnPosition]: 0 when there is no column; (maximum existing
    position) + 1 when that maximum is at least -1, as it is for positions
    that are not negative; 0 when every position is below -1.
    [createTask] uses [newTaskPosition] for the temporary task and for the
    store: 0 when the destination column has no task in the working list,
    (maximum position of its tasks) + 1 otherwise. *)
Theorem creation_positions :
  (forall title b,
     suspend (handleCreateColumn title) b =
       (b, Some (CreateColumn title
                   (newColumnPosition (Some (data (columnsQ b))))))) /\
  newColumnPosition None = 0 /\
  newColumnPosition (Some []) = 0 /\
  (forall c, c_position c = 0 -> newColumnPosition (Some [c]) = 1) /\
  (forall cs m,
     In m (map c_position cs) ->
     (forall c, In c cs -> c_position c <= m) ->
     -1 <= m ->
     newColumnPosition (Some cs) = m + 1) /\
  (forall cs,
     (forall c, In c cs -> c_position c < -1) ->
     newColumnPosition (Some cs) = 0) /\
  (forall now title columnId priority b w,
     optimisticTasks b = Some w ->
     suspend (handleCreateTask now title columnId priority) b =
       (setOptimisticTasks
          (appendTask (tempTaskAt now title columnId priority
                                  (newTaskPosition w columnId))) b,
        Some (CreateTask title columnId priority (newTaskPosition w columnId)))) /\
  (forall w columnId,
     (forall t, In t w -> column_id t <> columnId) ->
     newTaskPosition w columnId = 0) /\
  (forall w columnId t,
     In t w -> column_id t = columnId ->
     (forall t', In t' w -> column_id t' = columnId -> position t' <= position t) ->
     newTaskPosition w columnId = position t + 1).
Proof.
  split; [reflexivity|]. split; [reflexivity|]. split; [reflexivity|].
  split; [intros c Hc; unfold newColumnPosition; simpl; rewrite Hc; reflexivity|].
  split; [|split; [|split; [|split]]].
  - intros cs m Hin Hmax Hm. apply newColumnPosition_sentinel.
    + apply in_or_app. left. exact Hin.
    + intros x Hx. apply in_app_or in Hx. destruct Hx as [Hx|[Hx|[]]].
      * apply in_map_iff in Hx. destruct Hx as (c & <- & Hc). apply Hmax, Hc.
      * lia.
  - intros cs Hlow. apply (newColumnPosition_sentinel cs (-1)).
    + apply in_or_app. right. left. reflexivity.
    + intros x Hx. apply in_app_or in Hx. destruct Hx as [Hx|[Hx|[]]].
      * apply in_map_iff in Hx. destruct Hx as (c & <- & Hc).
        specialize (Hlow c Hc). lia.
      * lia.
  - intros now title columnId priority b w Hw.
    unfold handleCreateTask. simpl. rewrite Hw. reflexivity.
  - intros w columnId Hnone. unfold newTaskPosition.
    replace (filter (fun t => String.eqb (column_id t) columnId) w) with (@nil Task);
      [reflexivity|].
    symmetry. induction w as [|t r IH]; simpl; [reflexivity|].
    destruct (String.eqb (column_id t) columnId) eqn:E.
    + apply String.eqb_eq in E. exfalso. apply (Hnone t); [now left|exact E].
    + apply IH. intros t' Ht'. apply Hnone. now right.
  - intros w columnId t Hin Hcol Hmax. unfold newTaskPosition.
    set (columnTasks := filter (fun t0 => String.eqb (column_id t0) columnId) w).
    assert (Ht : In t columnTasks).
    { apply filter_In. split; [exact Hin|]. apply String.eqb_eq. exact Hcol. }
    destruct columnTasks as [|t0 r] eqn:Ect; [contradiction|].
    replace (0 <? List.length (t0 :: r))%nat with true by reflexivity.
    rewrite (Math_max_is_max (map position (t0 :: r)) (position t)).
    + reflexivity.
    + apply in_map. exact Ht.
    + intros x Hx. apply in_map_iff in Hx. destruct Hx as (t' & <- & Ht').
      assert (Hf : In t' (filter (fun t0 => String.eqb (column_id t0) columnId) w)).
      { fold columnTasks. rewrite Ect. exact Ht'. }
      apply filter_In in Hf. destruct Hf as [Hw Hc].
      apply Hmax; [exact Hw|]. apply String.eqb_eq. exact Hc.
Qed.

Lemma creation_positions_witness :
  newColumnPosition (Some []) = 0 /\
  newColumnPosition (Some [aColumn "todo" 0]) = 1 /\
  newColumnPosition (Some [aColumn "todo" 0; aColumn "done" 3]) = 3 + 1 /\
  newTaskPosition [taskA; taskB; taskX] "done" = 0 + 1 /\
  newTaskPosition [taskA; taskB; taskX] "todo" = 1 + 1.
Proof.
  destruct creation_positions
    as (_ & _ & Hfirst & Hsecond & Hmax & _ & _ & _ & Htask).
  split; [exact Hfirst|]. split; [apply Hsecond; reflexivity|]. split.
  - apply (Hmax [aColumn "todo" 0; aColumn "done" 3] 3).
    + simpl. right. left. reflexivity.
    + intros c [E|[E|[]]]; rewrite <- E; simpl; lia.
    + lia.
  - split.
    + apply (Htask [taskA; taskB; taskX] "done" taskX).
      * simpl. right. right. left. reflexivity.
      * reflexivity.
      * intros t' [E|[E|[E|[]]]] Hc; rewrite <- E in *; simpl in *;
          try discriminate Hc; lia.
    + apply (Htask [taskA; taskB; taskX] "todo" taskB).
      * simpl. right. left. reflexivity.
      * reflexivity.
      * intros t' [E|[E|[E|[]]]] Hc; rewrite <- E in *; simpl in *;
          try discriminate Hc; lia.
Defined.

(** C8 fails as stated: with one column at position -5 the maximum
    existing position is -5, and the new column gets 0, not -4. *)
Lemma newColumnPosition_below_sentinel :
  let cs := [aColumn "backlog" (-5)] in
  In (-5) (map c_position cs) /\
  (forall c, In c cs -> c_position c <= -5) /\
  newColumnPosition (Some cs) = 0 /\
  newColumnPosition (Some cs) <> -5 + 1.
Proof.
  simpl. split; [left; reflexivity|]. split.
  - intros c [E|[]]. rewrite <- E. simpl. lia.
  - split; [reflexivity|]. unfold newColumnPosition. simpl. lia.
Qed.

(** ** The batch of a move *)

Lemma handleMoveTask_sends sb now b w taskToMove taskId C P :
  optimisticTasks b = Some w ->
  find (fun t => String.eqb (id t) taskId) w = Some taskToMove ->
  hd_error (calls (run sb (handleMoveTask now taskId C P) b)) =
    Some (UpdateTaskPositions (moveUpdates w taskId C P)).
Proof.
  intros Hw Hfind. unfold handleMoveTask. simpl. rewrite Hw.
  rewrite run_try_catch. rewrite Hfind. simpl.
  destruct (fst (Gateway.updateTaskPositions sb (moveUpdates w taskId C P)));
    reflexivity.
Qed.

(** C3.  When the moved task is in the working list, [moveTask] applies
    and sends in one call the batch [moveUpdates]: for every other task of
    the destination column, its position plus one when that position is
    at least P and its position otherwise; for the moved task, position
    P; every record names the destination column, and there is no other
    record. *)
Theorem moveTask_batch sb now b w taskToMove taskId C P :
  optimisticTasks b = Some w ->
  find (fun t => String.eqb (id t) taskId) w = Some taskToMove ->
  let batch := moveUpdates w taskId C P in
  suspend (handleMoveTask now taskId C P) b =
    (setOptimisticTasks (applyUpdates now batch) b,
     Some (UpdateTaskPositions batch)) /\
  hd_error (calls (run sb (handleMoveTask now taskId C P) b)) =
    Some (UpdateTaskPositions batch) /\
  (forall t, In t w -> column_id t = C -> id t <> taskId ->
     (P <= position t -> In (mkUpdate (id t) (position t + 1) C) batch) /\
     (position t < P -> In (mkUpdate (id t) (position t) C) batch)) /\
  In (mkUpdate taskId P C) batch /\
  (forall u, In u batch ->
     u_column_id u = C /\
     (u = mkUpdate taskId P C \/
      exists t, In t w /\ column_id t = C /\ id t <> taskId /\
                u_id u = id t /\
                u_position u =
                  (if P <=? position t then position t + 1 else position t))).
Proof.
  intros Hw Hfind batch. split; [|split; [|split; [|split]]].
  - unfold handleMoveTask. simpl. rewrite Hw. simpl. rewrite Hfind. reflexivity.
  - apply (handleMoveTask_sends sb now b w taskToMove); assumption.
  - intros t Hin Hcol Hid.
    assert (Hf : In t (filter (fun t0 => String.eqb (column_id t0) C
                                         && negb (String.eqb (id t0) taskId)) w)).
    { apply filter_In. split; [exact Hin|].
      apply andb_true_iff. split; [apply String.eqb_eq; exact Hcol|].
      apply negb_true_iff. apply String.eqb_neq. exact Hid. }
    split; intros Hp; unfold batch, moveUpdates; apply in_or_app; left;
      apply in_map_iff; exists t; (split; [|exact Hf]).
    + replace (position t >=? P) with true; [reflexivity|].
      symmetry. apply Z.geb_le. exact Hp.
    + replace (position t >=? P) with false; [reflexivity|].
      symmetry. rewrite Z.geb_leb. apply Z.leb_gt. exact Hp.
  - unfold batch, moveUpdates. apply in_or_app. right. left. reflexivity.
  - intros u Hu. unfold batch, moveUpdates in Hu. apply in_app_or in Hu.
    destruct Hu as [Hu|[Hu|[]]].
    + apply in_map_iff in Hu. destruct Hu as (t & <- & Ht).
      apply filter_In in Ht. destruct Ht as [Hin Hc].
      apply andb_true_iff in Hc. destruct Hc as [Hc Hn].
      apply String.eqb_eq in Hc. apply negb_true_iff, String.eqb_neq in Hn.
      split; [reflexivity|]. right. exists t. simpl.
      repeat split; try assumption. rewrite Z.geb_leb. reflexivity.
    + subst u. split; [reflexivity|]. left. reflexivity.
Qed.

(** Scenario B: A moves from "todo" into "done", holding X at 0 and Y at 1,
    at index 1. *)
Lemma moveTask_batch_witness :
  let b := boardOf [] [taskA; taskX; taskY] in
  let batch := [mkUpdate "X" 0 "done"; mkUpdate "Y" 2 "done";
                mkUpdate "A" 1 "done"] in
  optimisticTasks b = Some [taskA; taskX; taskY] /\
  find (fun t => String.eqb (id t) "A") [taskA; taskX; taskY] = Some taskA /\
  suspend (handleMoveTask noon "A" "done" 1) b =
    (setOptimisticTasks (applyUpdates noon batch) b,
     Some (UpdateTaskPositions batch)) /\
  hd_error (calls (run (storeWith [] [taskA; taskX; taskY])
                       (handleMoveTask noon "A" "done" 1) b)) =
    Some (UpdateTaskPositions batch).
Proof.
  intros b batch.
  pose proof (moveTask_batch (storeWith [] [taskA; taskX; taskY]) noon b
                [taskA; taskX; taskY] taskA "A" "done" 1 eq_refl eq_refl)
    as (Hs & Hc & _).
  split; [reflexivity|]. split; [reflexivity|]. split; [exact Hs | exact Hc].
Defined.

(** ** Guards of the task handlers *)

(** C10.  While the working list is null, and for [moveTask] also when the
    task id is not in the working list, a task mutation returns at once:
    no gateway call, the state as it was, nothing thrown. *)
Theorem mutation_without_cache sb now m b :
  optimisticTasks b = None \/
  (exists w, optimisticTasks b = Some w /\ accepted m w = false) ->
  run sb (perform now m) b = mkRun (Returned tt) b [].
Proof.
  intros [Hnone | (w & Hw & Hacc)].
  - destruct m; simpl; rewrite Hnone; reflexivity.
  - destruct m; simpl in Hacc; try discriminate Hacc.
    simpl. rewrite Hw. rewrite run_try_catch.
    destruct (find (fun t => String.eqb (id t) taskId) w); [discriminate Hacc|].
    reflexivity.
Qed.

Lemma mutation_without_cache_witness :
  (optimisticTasks initialBoard = None /\
   run offline (perform noon (MCreate "Write report" "todo" high)) initialBoard =
     mkRun (Returned tt) initialBoard []) /\
  (optimisticTasks (boardOf [] [taskA]) = Some [taskA] /\
   accepted (MMove "Z" "done" 0) [taskA] = false /\
   run offline (perform noon (MMove "Z" "done" 0)) (boardOf [] [taskA]) =
     mkRun (Returned tt) (boardOf [] [taskA]) []).
Proof.
  split.
  - split; [reflexivity|].
    apply (mutation_without_cache offline noon
             (MCreate "Write report" "todo" high) initialBoard).
    left. reflexivity.
  - split; [reflexivity|]. split; [reflexivity|].
    apply (mutation_without_cache offline noon (MMove "Z" "done" 0)
             (boardOf [] [taskA])).
    right. exists [taskA]. split; reflexivity.
Defined.

(** ** Moving a task to where it is *)

(** C2 fails as stated: A is in "todo" at position 0, before B at 1;
    [moveTask] of A to "todo" at 0 sends a batch and shifts B in the
    working list. *)
Lemma moveTask_same_place_writes :
  let b := boardOf [] [taskA; taskB] in
  let r := run (storeWith [] [taskA; taskB])
               (handleMoveTask noon "A" "todo" 0) b in
  column_id taskA = "todo" /\ position taskA = 0 /\
  calls r = [UpdateTaskPositions [mkUpdate "B" 2 "todo"; mkUpdate "A" 0 "todo"]] /\
  option_map (map position) (optimisticTasks (final r)) = Some [0; 2] /\
  optimisticTasks (final r) <> optimisticTasks b.
Proof.
  simpl. repeat split. discriminate.
Qed.

(** C2, as amended.  [moveTask] has no such detection: whenever the task
    is in the working list it applies to the working list and sends a
    batch that holds the task, also when column and position are those
    the task has.  The case is
    detected by the drag handler: dropping a task on the column it is in
    (the drop target is no task id) calls nothing, whatever the position
    of the task; only [activeTask] is reset, and the lists are as they
    were. *)
Theorem same_place_move sb now b :
  (forall w taskToMove taskId,
     optimisticTasks b = Some w ->
     find (fun t => String.eqb (id t) taskId) w = Some taskToMove ->
     let batch := moveUpdates w taskId (column_id taskToMove)
                              (position taskToMove) in
     hd_error (calls (run sb (handleMoveTask now taskId (column_id taskToMove)
                                             (position taskToMove)) b))
       = Some (UpdateTaskPositions batch) /\
     In (mkUpdate taskId (position taskToMove) (column_id taskToMove)) batch /\
     suspend (handleMoveTask now taskId (column_id taskToMove)
                             (position taskToMove)) b =
       (setOptimisticTasks (applyUpdates now batch) b,
        Some (UpdateTaskPositions batch))) /\
  (forall activeId columnId activeTask,
     find (fun task => String.eqb (id task) activeId) (exposedTasks b)
       = Some activeTask ->
     existsb (fun task => String.eqb (id task) columnId) (exposedTasks b) = false ->
     column_id activeTask = columnId ->
     let r := run sb (handleDragEnd now (IdStr activeId)
                                    (Some (IdStr columnId))) b in
     r = mkRun (Returned tt) (setActiveTask None b) [] /\
     optimisticTasks (final r) = optimisticTasks b /\
     tasksQ (final r) = tasksQ b).
Proof.
  split.
  - intros w taskToMove taskId Hw Hfind batch. split; [|split].
    + apply (handleMoveTask_sends sb now b w taskToMove); assumption.
    + unfold batch, moveUpdates. apply in_or_app. right. left. reflexivity.
    + unfold handleMoveTask. simpl. rewrite Hw. simpl. rewrite Hfind.
      reflexivity.
  - intros activeId columnId activeTask Hfind Hcol Hsame r.
    assert (Hr : r = mkRun (Returned tt) (setActiveTask None b) []).
    { unfold r, handleDragEnd. simpl. rewrite Hfind.
      rewrite run_try_finally, run_try_catch. rewrite Hcol. simpl.
      rewrite Hsame, String.eqb_refl. reflexivity. }
    rewrite Hr. repeat split.
Qed.

Lemma same_place_move_witness :
  let b := boardOf [aColumn "todo" 0] [taskA; taskB] in
  let r := run offline (handleDragEnd noon (IdStr "B") (Some (IdStr "todo"))) b in
  find (fun task => String.eqb (id task) "B") (exposedTasks b) = Some taskB /\
  existsb (fun task => String.eqb (id task) "todo") (exposedTasks b) = false /\
  column_id taskB = "todo" /\
  r = mkRun (Returned tt) (setActiveTask None b) [] /\
  optimisticTasks (final r) = optimisticTasks b /\
  tasksQ (final r) = tasksQ b.
Proof.
  intros b r.
  split; [reflexivity|]. split; [reflexivity|]. split; [reflexivity|].
  exact (proj2 (same_place_move offline noon b) "B" "todo" taskB
           eq_refl eq_refl eq_refl).
Defined.

(** ** Reordering inside a column *)

Lemma mapi_from_ids (col : string) (l : list Task) (i : nat) :
  map u_id (mapi_from (positionIsIndex col) i l) = map id l.
Proof.
  revert i. induction l as [|t r IH]; intros i; simpl; [reflexivity|].
  rewrite IH. reflexivity.
Qed.

Lemma updateFirst_ids (p : PositionUpdate -> bool) (col : string)
  (l : list PositionUpdate) :
  map u_id (updateFirst p (fun u => {| u_id := u_id u;
                                       u_position := u_position u;
                                       u_column_id := col |}) l) = map u_id l.
Proof.
  induction l as [|u r IH]; simpl; [reflexivity|].
  destruct (p u); simpl; [reflexivity|]. rewrite IH. reflexivity.
Qed.

(** Whatever task is dropped on whatever task, the batch of the drag
    handler lists the tasks of the target column in the order they are
    displayed in already. *)
Lemma dropUpdates_keeps_order (tasks : list Task) (activeTask overTask : Task) :
  map u_id (dropUpdates tasks activeTask overTask) =
  map id (getTasksByColumn tasks (column_id overTask)).
Proof.
  unfold dropUpdates, getTasksByColumn, mapi.
  destruct (negb (String.eqb (column_id activeTask) (column_id overTask))).
  - rewrite updateFirst_ids. apply mapi_from_ids.
  - apply mapi_from_ids.
Qed.

(** C1 at Scenario A.  Column "todo" shows A, B, C; C is dropped on A, to
    obtain C, A, B.  The drag handler sends the batch A:0, B:1, C:2, and
    the column still shows A, B, C. *)
Theorem dragEnd_scenarioA :
  let b := boardOf [] [taskA; taskB; taskC] in
  let r := run (storeWith [] [taskA; taskB; taskC])
               (handleDragEnd noon (IdStr "C") (Some (IdStr "A"))) b in
  map id (getTasksByColumn (exposedTasks b) "todo") = ["A"; "B"; "C"] /\
  calls r = [UpdateTaskPositions [mkUpdate "A" 0 "todo"; mkUpdate "B" 1 "todo";
                                  mkUpdate "C" 2 "todo"]] /\
  map id (getTasksByColumn (exposedTasks (final r)) "todo") = ["A"; "B"; "C"].
Proof. repeat split. Qed.

(** The hook itself applies and sends the batch it is given: handed the
    intended batch of Scenario A, it shows C, A, B. *)
Lemma reorderTasks_scenarioA :
  let b := boardOf [] [taskA; taskB; taskC] in
  let batch := [mkUpdate "C" 0 "todo"; mkUpdate "A" 1 "todo";
                mkUpdate "B" 2 "todo"] in
  let r := run (storeWith [] [taskA; taskB; taskC])
               (handleReorderTasks noon batch) b in
  calls r = [UpdateTaskPositions batch] /\
  map id (getTasksByColumn (exposedTasks (final r)) "todo") = ["C"; "A"; "B"].
Proof. repeat split. Qed.

(** ** The reorder of the hook realises the order it is given *)

Lemma insertByPosition_perm x l : Permutation (insertByPosition x l) (x :: l).
Proof.
  induction l as [|y r IH]; simpl; [reflexivity|].
  destruct (position x <=? position y); [reflexivity|].
  rewrite IH. apply perm_swap.
Qed.

Lemma sortByPosition_perm l : Permutation (sortByPosition l) l.
Proof.
  induction l as [|x r IH]; simpl; [reflexivity|].
  rewrite insertByPosition_perm. constructor. exact IH.
Qed.

Lemma insertByPosition_sorted x l :
  StronglySorted byPosition l -> StronglySorted byPosition (insertByPosition x l).
Proof.
  induction 1 as [|y r Hr IH Hy]; simpl.
  - constructor; constructor.
  - destruct (position x <=? position y) eqn:E.
    + apply Z.leb_le in E. constructor; [constructor; assumption|].
      constructor; [exact E|].
      apply Forall_forall. intros z Hz.
      rewrite Forall_forall in Hy. specialize (Hy z Hz).
      unfold byPosition in *. lia.
    + apply Z.leb_gt in E. constructor; [exact IH|].
      apply Forall_forall. intros z Hz.
      apply (Permutation_in _ (insertByPosition_perm x r)) in Hz.
      destruct Hz as [<-|Hz].
      * unfold byPosition. lia.
      * rewrite Forall_forall in Hy. apply Hy, Hz.
Qed.

Lemma sortByPosition_sorted l : StronglySorted byPosition (sortByPosition l).
Proof.
  induction l as [|x r IH]; simpl; [constructor|].
  apply insertByPosition_sorted. exact IH.
Qed.

(** A list sorted by position and a permutation of it strictly sorted by
    position are the same list. *)
Lemma sorted_unique (s1 s2 : list Task) :
  StronglySorted byPosition s1 -> StronglySorted beforePosition s2 ->
  Permutation s1 s2 -> s1 = s2.
Proof.
  intros H1. revert s2. induction H1 as [|x r1 Hr1 IH Hx]; intros s2 H2 Hp.
  - apply Permutation_nil in Hp. symmetry. exact Hp.
  - destruct s2 as [|y r2]; [apply Permutation_sym, Permutation_nil in Hp; discriminate|].
    inversion H2 as [|? ? Hr2 Hy]; subst.
    assert (Exy : x = y).
    { assert (Hxin : In x (y :: r2)) by (apply (Permutation_in _ Hp); left; reflexivity).
      assert (Hyin : In y (x :: r1))
        by (apply (Permutation_in _ (Permutation_sym Hp)); left; reflexivity).
      destruct Hxin as [E|Hxin]; [symmetry; exact E|].
      destruct Hyin as [E|Hyin]; [exact E|].
      rewrite Forall_forall in Hx, Hy.
      specialize (Hx y Hyin). specialize (Hy x Hxin).
      unfold byPosition, beforePosition in *. lia. }
    subst y. f_equal. apply IH; [exact Hr2|].
    apply Permutation_cons_inv in Hp. exact Hp.
Qed.

Section Reorder.
Variable now : Instant.
Variable col : string.

Lemma find_mapi_from_absent (order : list Task) (k : nat) (i : string) :
  ~ In i (map id order) ->
  find (fun u => String.eqb (u_id u) i) (mapi_from (positionIsIndex col) k order) = None.
Proof.
  revert k. induction order as [|t r IH]; intros k Hno; simpl; [reflexivity|].
  destruct (String.eqb (id t) i) eqn:E.
  - apply String.eqb_eq in E. exfalso. apply Hno. left. exact E.
  - apply IH. intros Hin. apply Hno. right. exact Hin.
Qed.

Lemma find_mapi_from_nth (order : list Task) (k n : nat) (t : Task) :
  NoDup (map id order) -> nth_error order n = Some t ->
  find (fun u => String.eqb (u_id u) (id t)) (mapi_from (positionIsIndex col) k order)
    = Some ((positionIsIndex col) t (k + n)).
Proof.
  revert k n. induction order as [|x r IH]; intros k n Hnd Hn.
  - destruct n; discriminate Hn.
  - inversion Hnd as [|? ? Hx Hr]; subst. destruct n as [|n]; simpl in *.
    + inversion Hn; subst. rewrite String.eqb_refl, Nat.add_0_r. reflexivity.
    + destruct (String.eqb (id x) (id t)) eqn:E.
      * apply String.eqb_eq in E. exfalso. apply Hx. rewrite E.
        apply in_map. apply (nth_error_In _ _ Hn).
      * rewrite (IH (S k) n Hr Hn). f_equal. unfold positionIsIndex. f_equal. lia.
Qed.

Lemma applyTo_id updates task : id (applyTo now updates task) = id task.
Proof. unfold applyTo. destruct (find _ updates); reflexivity. Qed.

Lemma positions_after (pre suf : list Task) :
  NoDup (map id (pre ++ suf)) ->
  map position (map (applyTo now (mapi (positionIsIndex col) (pre ++ suf))) suf) =
  map Z.of_nat (seq (List.length pre) (List.length suf)).
Proof.
  revert pre. induction suf as [|t r IH]; intros pre Hnd; [reflexivity|].
  simpl. f_equal.
  - unfold applyTo, mapi.
    rewrite (find_mapi_from_nth (pre ++ t :: r) 0 (List.length pre) t Hnd).
    + reflexivity.
    + rewrite nth_error_app2, Nat.sub_diag by lia. reflexivity.
  - specialize (IH (pre ++ [t])). rewrite <- app_assoc in IH. simpl in IH.
    rewrite IH by exact Hnd. rewrite length_app. simpl.
    replace (List.length pre + 1)%nat with (S (List.length pre)) by lia.
    reflexivity.
Qed.

Lemma increasing_sorted (l : list Task) (k : nat) :
  map position l = map Z.of_nat (seq k (List.length l)) ->
  StronglySorted beforePosition l.
Proof.
  revert k. induction l as [|x r IH]; intros k H; [constructor|].
  simpl in H. inversion H as [[Hx Hr]]. constructor; [apply (IH (S k)); exact Hr|].
  apply Forall_forall. intros z Hz. unfold beforePosition. rewrite Hx.
  apply (in_map position) in Hz. rewrite Hr in Hz.
  apply in_map_iff in Hz. destruct Hz as (n & <- & Hn).
  apply in_seq in Hn. lia.
Qed.

Lemma same_id_same_task (w : list Task) (a b : Task) :
  NoDup (map id w) -> In a w -> In b w -> id a = id b -> a = b.
Proof.
  induction w as [|x r IH]; intros Hnd Ha Hb E; [contradiction|].
  inversion Hnd as [|? ? Hx Hr]; subst.
  destruct Ha as [<-|Ha]; destruct Hb as [<-|Hb].
  - reflexivity.
  - exfalso. apply Hx. rewrite E. apply in_map. exact Hb.
  - exfalso. apply Hx. rewrite <- E. apply in_map. exact Ha.
  - apply IH; assumption.
Qed.

Lemma NoDup_map_filter (p : Task -> bool) (w : list Task) :
  NoDup (map id w) -> NoDup (map id (filter p w)).
Proof.
  induction w as [|x r IH]; intros Hnd; simpl; [constructor|].
  inversion Hnd as [|? ? Hx Hr]; subst.
  destruct (p x); simpl; [|apply IH; exact Hr].
  constructor; [|apply IH; exact Hr].
  intros Hin. apply Hx. apply in_map_iff in Hin.
  destruct Hin as (y & E & Hy). apply filter_In in Hy.
  rewrite <- E. apply in_map. apply Hy.
Qed.

(** Given the tasks of a column in the intended order, the batch
    position = index makes the column display that order. *)
Lemma reorder_realises_order (w order : list Task) :
  NoDup (map id w) ->
  Permutation order (filter (fun t => String.eqb (column_id t) col) w) ->
  forall w',
    applyUpdates now (mapi (positionIsIndex col) order) (Some w) = Some w' ->
    map id (getTasksByColumn w' col) = map id order.
Proof.
  intros Hnd Hperm w' Hw'. injection Hw' as <-.
  set (updates := mapi (positionIsIndex col) order).
  assert (Hndo : NoDup (map id order)).
  { apply (Permutation_NoDup (l := map id (filter (fun t => String.eqb (column_id t) col) w))).
    - apply Permutation_map, Permutation_sym, Hperm.
    - apply NoDup_map_filter, Hnd. }
  assert (Hcol : forall t, In t w ->
            String.eqb (column_id (applyTo now updates t)) col
            = String.eqb (column_id t) col).
  { intros t Ht. unfold applyTo.
    destruct (in_dec string_dec (id t) (map id order)) as [Hin|Hout].
    - apply in_map_iff in Hin. destruct Hin as (t' & E & Ht').
      assert (Hf : In t' (filter (fun t => String.eqb (column_id t) col) w))
        by (apply (Permutation_in _ Hperm); exact Ht').
      apply filter_In in Hf. destruct Hf as [Hw Hc].
      assert (t' = t) by (apply (same_id_same_task w); assumption). subst t'.
      destruct (In_nth_error _ _ Ht') as [n Hn].
      unfold updates, mapi.
      rewrite (find_mapi_from_nth order 0 n t Hndo Hn). simpl.
      rewrite String.eqb_refl. symmetry. exact Hc.
    - unfold updates, mapi. rewrite (find_mapi_from_absent order 0 (id t) Hout).
      reflexivity. }
  assert (Hfilter : filter (fun t => String.eqb (column_id t) col)
                      (map (applyTo now updates) w)
                    = map (applyTo now updates)
                        (filter (fun t => String.eqb (column_id t) col) w)).
  { clear - Hcol. induction w as [|x r IH]; simpl; [reflexivity|].
    rewrite (Hcol x (or_introl eq_refl)).
    destruct (String.eqb (column_id x) col); simpl;
      rewrite IH; try reflexivity; intros t Ht; apply Hcol; right; exact Ht. }
  unfold getTasksByColumn. rewrite Hfilter.
  rewrite (sorted_unique
             (sortByPosition (map (applyTo now updates)
                (filter (fun t => String.eqb (column_id t) col) w)))
             (map (applyTo now updates) order)).
  - rewrite map_map. apply map_ext. intros t. apply applyTo_id.
  - apply sortByPosition_sorted.
  - apply (increasing_sorted _ 0). rewrite length_map.
    exact (positions_after [] order Hndo).
  - rewrite sortByPosition_perm. apply Permutation_map, Permutation_sym, Hperm.
Qed.
End Reorder.

(** ** Invariants of a mounted board view *)

Lemma run_keeps {S A} (P : S -> Prop) sb (p : Async S A) s :
  keeps P p -> P s -> P (final (run sb p s)).
Proof.
  revert s. induction p as [o | k IH | g k IH | c k IH]; intros s Hk Hs; simpl in *.
  - exact Hs.
  - apply IH; [apply Hk; exact Hs | exact Hs].
  - destruct Hk as [Hg Hk]. apply IH; [exact Hk | apply Hg; exact Hs].
  - apply IH; [apply Hk | exact Hs].
Qed.

Lemma keeps_bind {S A B} (P : S -> Prop) (p : Async S A) (f : A -> Async S B) :
  keeps P p -> (forall a, keeps P (f a)) -> keeps P (bind p f).
Proof.
  intros Hp Hf. induction p as [o | k IH | g k IH | c k IH]; simpl in *.
  - destruct o; [apply Hf | exact I].
  - intros s Hs. apply IH. apply Hp. exact Hs.
  - destruct Hp as [Hg Hp]. split; [exact Hg | apply IH; exact Hp].
  - intros r. apply IH. apply Hp.
Qed.

Lemma keeps_try_catch {S A} (P : S -> Prop) (p : Async S A) h :
  keeps P p -> (forall e, keeps P (h e)) -> keeps P (try_catch p h).
Proof.
  intros Hp Hh. induction p as [o | k IH | g k IH | c k IH]; simpl in *.
  - destruct o; [exact I | apply Hh].
  - intros s Hs. apply IH. apply Hp. exact Hs.
  - destruct Hp as [Hg Hp]. split; [exact Hg | apply IH; exact Hp].
  - intros r. apply IH. apply Hp.
Qed.

Lemma keeps_try_finally {S A} (P : S -> Prop) (p : Async S A) fin :
  keeps P p -> keeps P fin -> keeps P (try_finally p fin).
Proof.
  intros Hp Hf. induction p as [o | k IH | g k IH | c k IH]; simpl in *.
  - apply keeps_bind; [exact Hf | intros _; exact I].
  - intros s Hs. apply IH. apply Hp. exact Hs.
  - destruct Hp as [Hg Hp]. split; [exact Hg | apply IH; exact Hp].
  - intros r. apply IH. apply Hp.
Qed.

Lemma keeps_modify {S} (P : S -> Prop) (f : S -> S) :
  (forall s, P s -> P (f s)) -> keeps P (modify f).
Proof. intros H. split; [exact H | exact I]. Qed.

Lemma steady_updQ t (f : Query (Row t) -> Query (Row t)) :
  (forall q, isMounted (f q) = isMounted q /\ isSubscribed (f q) = isSubscribed q) ->
  forall b, steady b -> steady (updQ t f b).
Proof.
  intros Hf b [Hl Hp]. split.
  - intros t'. destruct (Hl t') as [Hm Hs]. destruct (Hl t) as [Hm' Hs'].
    destruct t, t'; simpl in *; try (split; assumption);
      destruct (Hf (columnsQ b)) as [E1 E2] || destruct (Hf (tasksQ b)) as [E1 E2];
      rewrite E1, E2; split; assumption.
  - destruct t; exact Hp.
Qed.

Lemma steady_setOptimisticTasks f :
  (forall o, o <> None -> f o <> None) ->
  forall b, steady b -> steady (setOptimisticTasks f b).
Proof.
  intros Hf b [Hl Hp]. split.
  - intros t. destruct (Hl t) as [Hm Hs]. destruct t; split; assumption.
  - apply Hf. exact Hp.
Qed.

Lemma steady_setError e b : steady b -> steady (setError e b).
Proof.
  intros [Hl Hp]. split; [|exact Hp].
  intros t. destruct (Hl t) as [Hm Hs]. destruct t; split; assumption.
Qed.

Lemma steady_setActiveTask a b : steady b -> steady (setActiveTask a b).
Proof.
  intros [Hl Hp]. split; [|exact Hp].
  intros t. destruct (Hl t) as [Hm Hs]. destruct t; split; assumption.
Qed.

Lemma steady_setData t result b : steady b -> steady (setData t result b).
Proof.
  intros Hb. destruct t; simpl.
  - apply (steady_updQ columns); [intros q; split; reflexivity | exact Hb].
  - apply steady_setOptimisticTasks; [discriminate|].
    apply (steady_updQ tasks); [intros q; split; reflexivity | exact Hb].
Qed.

Lemma keeps_whenMounted (P : Board -> Prop) t f :
  (forall b, P b -> P (f b)) -> keeps P (whenMounted t f).
Proof.
  intros Hf b Hb. destruct (isMounted (getQ t b)).
  - apply keeps_modify. exact Hf.
  - exact I.
Qed.

Lemma keeps_fetchData t forceRefresh : keeps steady (fetchData t forceRefresh).
Proof.
  intros b Hb. destruct (negb (isMounted (getQ t b))); [exact I|].
  apply keeps_try_finally; [apply keeps_try_catch|].
  - apply keeps_bind.
    + apply keeps_modify. apply steady_updQ. intros q; split; reflexivity.
    + intros _. apply keeps_bind; [intros r; exact I|].
      intros result. apply keeps_whenMounted. intros b1 Hb1.
      apply steady_updQ; [intros q; split; reflexivity|].
      destruct (forceRefresh || jsonDiffers t result (data (getQ t b)));
        [apply steady_setData|]; exact Hb1.
  - intros e. apply keeps_whenMounted. apply steady_updQ.
    intros q; split; reflexivity.
  - apply keeps_whenMounted. apply steady_updQ. intros q; split; reflexivity.
Qed.

Lemma keeps_revertAndFail {A} fallback e :
  keeps steady (revertAndFail (A := A) fallback e).
Proof.
  apply keeps_bind; [apply keeps_fetchData|]. intros _.
  apply keeps_bind; [|intros _; exact I].
  apply keeps_modify. apply steady_setError.
Qed.

Lemma keeps_failWith {A} fallback e : keeps steady (failWith (A := A) fallback e).
Proof.
  apply keeps_bind; [|intros _; exact I].
  apply keeps_modify. apply steady_setError.
Qed.

Lemma option_map_not_none {A B} (f : A -> B) (o : option A) :
  o <> None -> option_map f o <> None.
Proof. destruct o; [discriminate | intros H; exfalso; apply H; reflexivity]. Qed.

Lemma keeps_perform now m : keeps steady (perform now m).
Proof.
  destruct m; intros b Hb; destruct (optimisticTasks b); try exact I;
    (apply keeps_try_catch; [|intros e; apply keeps_revertAndFail]).
  - apply keeps_bind.
    + apply keeps_modify. apply steady_setOptimisticTasks.
      intros [o|]; discriminate.
    + intros _. apply keeps_bind; [intros r; exact I|]. intros createdTask.
      apply keeps_modify. apply steady_setOptimisticTasks.
      intros [o|]; discriminate.
  - apply keeps_bind.
    + apply keeps_modify. apply steady_setOptimisticTasks.
      intros o. apply option_map_not_none.
    + intros _. apply keeps_bind; [intros r; exact I | intros _; exact I].
  - apply keeps_bind; [|intros _ r; exact I].
    apply keeps_modify. apply steady_setOptimisticTasks.
    intros o. apply option_map_not_none.
  - destruct (find _ l); [|exact I].
    apply keeps_bind; [|intros _ r; exact I].
    apply keeps_modify. apply steady_setOptimisticTasks.
    intros o. apply option_map_not_none.
  - apply keeps_bind; [|intros _ r; exact I].
    apply keeps_modify. apply steady_setOptimisticTasks.
    intros o. apply option_map_not_none.
Qed.

Lemma keeps_performColumn op : keeps steady (performColumn op).
Proof.
  destruct op.
  - intros b Hb.
    apply keeps_try_catch; [|intros e; apply keeps_failWith].
    apply keeps_bind; [intros r; exact I | intros _; apply keeps_fetchData].
  - apply keeps_try_catch; [|intros e; apply keeps_failWith].
    apply keeps_bind; [intros r; exact I | intros _; apply keeps_fetchData].
  - apply keeps_try_catch; [|intros e; apply keeps_failWith].
    apply keeps_bind; [intros r; exact I|]. intros _.
    apply keeps_bind; [apply keeps_fetchData | intros _; apply keeps_fetchData].
Qed.

Lemma keeps_handleDragEnd now active over :
  keeps steady (handleDragEnd now active over).
Proof.
  intros b Hb. cbv zeta. destruct over as [overId|];
    [|apply keeps_modify; intros s; apply steady_setActiveTask].
  destruct (find _ (exposedTasks b)) as [activeTask|];
    [|apply keeps_modify; intros s; apply steady_setActiveTask].
  apply keeps_try_finally;
    [|apply keeps_modify; intros s; apply steady_setActiveTask].
  apply keeps_try_catch; [|intros e; exact I].
  destruct overId as [overId|n]; [|exact I].
  destruct (negb (existsb _ (exposedTasks b))).
  - destruct (negb _); [apply (keeps_perform now (MMove _ _ _)) | exact I].
  - destruct (find _ (exposedTasks b)) as [overTask|];
      [|apply keeps_modify; intros s; apply steady_setActiveTask].
    destruct (findIndex _ _);
      [|apply keeps_modify; intros s; apply steady_setActiveTask].
    apply (keeps_perform now (MReorder _)).
Qed.

Lemma keeps_react a : keeps steady (react a).
Proof.
  destruct a as [t status | t payload | t payload | now m | op | now active over].
  - intros b Hb. destruct (_ && _); [apply keeps_fetchData | exact I].
  - intros b Hb. destruct (isMounted _); [apply keeps_fetchData | exact I].
  - destruct t; [apply keeps_fetchData|]. destruct payload; apply keeps_fetchData.
  - apply keeps_perform.
  - apply keeps_performColumn.
  - apply keeps_handleDragEnd.
Qed.

Lemma mount_steady sb s1 s2 : steady (final (run sb (mount s1 s2) initialBoard)).
Proof.
  unfold mount. simpl. unfold Gateway.fetchColumns.
  destruct (columns_select sb) as [e1|cs]; simpl; unfold Gateway.fetchTasks;
    destruct (tasks_select sb) as [e2|ts]; simpl;
    (split; [intros [|]; split; reflexivity | discriminate]).
Qed.

(** In every state of a mounted view both queries are live and the
    working list is populated. *)
Lemma mounted_steady b : mounted b -> steady b.
Proof.
  induction 1 as [sb s1 s2 | sb a b Hb IH].
  - apply mount_steady.
  - apply run_keeps; [apply keeps_react | exact IH].
Qed.

(** The sample boards are states of a mounted view. *)
Lemma boardOf_mounted cs ts : mounted (boardOf cs ts).
Proof. exact (mounted_first (storeWith cs ts) "k3" "x7"). Qed.

(** ** Realtime resync *)

(** An execution of [fetchData(true)] on a live query: exactly one list
    fetch, and on success the cached snapshot is the fetched list. *)
Lemma run_fetchData_live sb t b :
  isMounted (getQ t b) = true ->
  calls (run sb (fetchData t true) b) = [Fetch t] /\
  outcome (run sb (fetchData t true) b) = Returned tt /\
  forall rows, fst (gateway sb (Fetch t)) = Returned rows ->
    data (getQ t (final (run sb (fetchData t true) b))) = rows.
Proof.
  intros Hm. destruct b as [cq tq ot er act].
  destruct t; simpl in Hm.
  - destruct cq as [d l qe rc im ch sub]. simpl in Hm. subst im.
    unfold fetchData. simpl. unfold Gateway.fetchColumns.
    destruct (columns_select sb) as [e|rows']; simpl;
      (split; [reflexivity | split; [reflexivity|]]); intros rows Hr;
      [discriminate Hr | inversion Hr; reflexivity].
  - destruct tq as [d l qe rc im ch sub]. simpl in Hm. subst im.
    unfold fetchData. simpl. unfold Gateway.fetchTasks.
    destruct (tasks_select sb) as [e|rows']; simpl;
      (split; [reflexivity | split; [reflexivity|]]); intros rows Hr;
      [discriminate Hr | inversion Hr; reflexivity].
Qed.

(** An execution of [fetchData(true)] on a live query that the store
    answers: the snapshot is the fetched list, the refresh counter is one
    more, the error is cleared and loading is over. *)
Lemma run_fetchData_refreshes sb t b rows :
  isMounted (getQ t b) = true ->
  fst (gateway sb (Fetch t)) = Returned rows ->
  let b' := final (run sb (fetchData t true) b) in
  data (getQ t b') = rows /\
  refreshCount (getQ t b') = S (refreshCount (getQ t b)) /\
  q_error (getQ t b') = None /\
  loading (getQ t b') = false.
Proof.
  intros Hm Hr. destruct b as [cq tq ot er act].
  destruct t; simpl in Hm.
  - destruct cq as [d l qe rc im ch sub]. simpl in Hm. subst im.
    revert Hr. unfold fetchData. simpl. unfold Gateway.fetchColumns.
    destruct (columns_select sb) as [e|rows']; simpl; intros Hr;
      [discriminate Hr | inversion Hr; repeat split].
  - destruct tq as [d l qe rc im ch sub]. simpl in Hm. subst im.
    revert Hr. unfold fetchData. simpl. unfold Gateway.fetchTasks.
    destruct (tasks_select sb) as [e|rows']; simpl; intros Hr;
      [discriminate Hr | inversion Hr; repeat split].
Qed.

(** In a mounted view the change handler of a channel is one forced fetch
    of the table of the channel. *)
Lemma run_changeHandler sb c payload b :
  mounted b ->
  run sb (changeHandler c payload) b =
  run sb (fetchData (channelTable c) true) b.
Proof.
  intros Hb. apply mounted_steady in Hb. destruct Hb as [Hl _].
  destruct c as [t|t].
  - destruct (Hl t) as [Hm _]. unfold changeHandler, onChange. cbn [run].
    rewrite Hm. reflexivity.
  - destruct t; [reflexivity|]. destruct payload; reflexivity.
Qed.

Lemma changeHandler_received c payload :
  changeHandler c payload = react (received c payload).
Proof. destruct c as [t|t]; [reflexivity|]. destruct t; reflexivity. Qed.

(** A change delivered to a first channel and to others: the fetch of the
    first, then the delivery to the others from the state it leaves, a
    state of the mounted view. *)
Lemma run_deliver_cons sb c rest payload b :
  mounted b ->
  let r1 := run sb (fetchData (channelTable c) true) b in
  let r2 := run sb (deliver rest payload) (final r1) in
  mounted (final r1) /\
  run sb (deliver (c :: rest) payload) b =
    mkRun (outcome r2) (final r2) (Fetch (channelTable c) :: calls r2).
Proof.
  intros Hb r1 r2.
  assert (Hm : isMounted (getQ (channelTable c) b) = true).
  { apply mounted_steady in Hb. destruct Hb as [Hl _]. apply Hl. }
  destruct (run_fetchData_live sb (channelTable c) b Hm) as (Hcalls & Hout & _).
  split.
  - unfold r1. rewrite <- (run_changeHandler sb c payload b Hb).
    rewrite changeHandler_received. apply mounted_next. exact Hb.
  - cbn [deliver]. rewrite run_bind, run_try_catch.
    rewrite (run_changeHandler sb c payload b Hb).
    rewrite Hout. cbn [outcome]. rewrite Hout. cbv zeta. rewrite Hcalls.
    reflexivity.
Qed.

(** One fetch per channel that receives the change. *)
Lemma deliver_calls sb payload cs : forall b,
  mounted b ->
  calls (run sb (deliver cs payload) b) =
  map (fun c => Fetch (channelTable c)) cs.
Proof.
  induction cs as [|c rest IH]; intros b Hb; [reflexivity|].
  destruct (run_deliver_cons sb c rest payload b Hb) as [Hb1 Hrun].
  rewrite Hrun. cbn [calls map]. f_equal. apply IH. exact Hb1.
Qed.

(** When the store answers the fetch of table [t], a change delivered to
    channels of [t] raises the refresh counter once per channel, and the
    snapshot is the fetched list as soon as one channel receives it. *)
Lemma deliver_refreshes sb t payload rows cs : forall b,
  mounted b ->
  fst (gateway sb (Fetch t)) = Returned rows ->
  Forall (fun c => channelTable c = t) cs ->
  let b' := final (run sb (deliver cs payload) b) in
  refreshCount (getQ t b') = (refreshCount (getQ t b) + List.length cs)%nat /\
  (cs <> [] -> data (getQ t b') = rows).
Proof.
  induction cs as [|c rest IH]; intros b Hb Hr Hcs b'.
  - unfold b'. cbn. split; [lia | intros H; contradiction H; reflexivity].
  - inversion Hcs as [|c0 rest0 Hc Hrest]; subst c0 rest0.
    destruct (run_deliver_cons sb c rest payload b Hb) as [Hb1 Hrun].
    unfold b'. rewrite Hrun. cbn [final]. rewrite Hc in *.
    assert (Hm : isMounted (getQ t b) = true).
    { apply mounted_steady in Hb. destruct Hb as [Hl _]. apply Hl. }
    destruct (run_fetchData_refreshes sb t b rows Hm Hr) as (Hd & Hn & _).
    destruct (IH _ Hb1 Hr Hrest) as [IHn IHd].
    split.
    + rewrite IHn, Hn. cbn [List.length]. lia.
    + intros _. destruct rest as [|c' rest'].
      * cbn. exact Hd.
      * apply IHd. discriminate.
Qed.

(** C9 fails as stated: in a mounted view, one INSERT on the tasks table
    reaches the channel of the query hook and the channel of the board
    hook, and each handler refetches: two list fetches and two
    replacements of the snapshot for one event, not one.  The channel of
    the board hook has no status callback, so its entering SUBSCRIBED is
    followed by no refresh. *)
Lemma change_event_refreshes_twice :
  let sb := storeWith [] [taskA; taskB] in
  let b := boardOf [] [taskA] in
  let r := run sb (deliver (channelsOf tasks) INSERT) b in
  mounted b /\
  calls r = [Fetch tasks; Fetch tasks] /\
  calls r <> [Fetch tasks] /\
  refreshCount (tasksQ b) = 1%nat /\
  refreshCount (tasksQ (final r)) = 3%nat /\
  run sb (onChannelStatus (BoardChannel tasks) "SUBSCRIBED") b =
    mkRun (Returned tt) b [].
Proof.
  intros sb b r. split; [apply boardOf_mounted|].
  split; [reflexivity|]. split; [discriminate|].
  split; [reflexivity|]. split; reflexivity.
Qed.

(** C9, as amended.  A mounted view has two channels per collection.  On
    the channel of the query hook, entering SUBSCRIBED is followed by
    exactly one list fetch; the channel of the board hook has no status
    callback and does nothing when it enters a status.  A change event is
    handled by each channel that receives it with exactly one list fetch,
    whatever the event: one fetch per receiving channel, two when both
    channels of the collection receive it; the payload carries no
    originating client and none is looked at.  When the store answers the
    fetch, each of these fetches replaces the cached snapshot by the
    fetched list and raises the refresh counter by one. *)
Theorem refresh_per_channel sb b t :
  mounted b ->
  calls (run sb (onChannelStatus (QueryChannel t) "SUBSCRIBED") b) = [Fetch t] /\
  (forall status,
     run sb (onChannelStatus (BoardChannel t) status) b =
       mkRun (Returned tt) b []) /\
  (forall c payload, In c (channelsOf t) ->
     calls (run sb (changeHandler c payload) b) = [Fetch t]) /\
  (forall cs payload, Forall (fun c => channelTable c = t) cs ->
     calls (run sb (deliver cs payload) b) = repeat (Fetch t) (List.length cs)) /\
  (forall payload,
     calls (run sb (deliver (channelsOf t) payload) b) = [Fetch t; Fetch t]) /\
  (forall rows, fst (gateway sb (Fetch t)) = Returned rows ->
     (let b' := final (run sb (onChannelStatus (QueryChannel t) "SUBSCRIBED") b) in
      data (getQ t b') = rows /\
      refreshCount (getQ t b') = S (refreshCount (getQ t b))) /\
     (forall c payload, In c (channelsOf t) ->
        let b' := final (run sb (changeHandler c payload) b) in
        data (getQ t b') = rows /\
        refreshCount (getQ t b') = S (refreshCount (getQ t b))) /\
     (forall cs payload, Forall (fun c => channelTable c = t) cs ->
        let b' := final (run sb (deliver cs payload) b) in
        refreshCount (getQ t b') =
          (refreshCount (getQ t b) + List.length cs)%nat /\
        (cs <> [] -> data (getQ t b') = rows)) /\
     (forall payload,
        let b' := final (run sb (deliver (channelsOf t) payload) b) in
        data (getQ t b') = rows /\
        refreshCount (getQ t b') = S (S (refreshCount (getQ t b))))).
Proof.
  intros Hb. pose proof (mounted_steady b Hb) as [Hl _].
  destruct (Hl t) as [Hm Hs].
  destruct (run_fetchData_live sb t b Hm) as (Hcalls & _ & _).
  assert (Hstatus : run sb (onChannelStatus (QueryChannel t) "SUBSCRIBED") b =
                    run sb (fetchData t true) b).
  { unfold onChannelStatus, statusCallback, onStatus. cbn [run].
    rewrite Hm, Hs, String.eqb_refl. reflexivity. }
  assert (Hchange : forall c payload, In c (channelsOf t) ->
             run sb (changeHandler c payload) b = run sb (fetchData t true) b).
  { intros c payload Hc. rewrite (run_changeHandler sb c payload b Hb).
    destruct Hc as [<-|[<-|[]]]; reflexivity. }
  assert (Hall : Forall (fun c => channelTable c = t) (channelsOf t)).
  { repeat constructor. }
  assert (Hdeliver : forall cs payload, Forall (fun c => channelTable c = t) cs ->
             calls (run sb (deliver cs payload) b) =
             repeat (Fetch t) (List.length cs)).
  { intros cs payload Hcs. rewrite (deliver_calls sb payload cs b Hb).
    induction Hcs as [|c rest Hc _ IH]; [reflexivity|].
    cbn [map List.length repeat]. rewrite Hc, IH. reflexivity. }
  rewrite Hstatus. split; [exact Hcalls|].
  split; [intros status; reflexivity|].
  split; [intros c payload Hc; rewrite (Hchange c payload Hc); exact Hcalls|].
  split; [exact Hdeliver|].
  split; [intros payload; exact (Hdeliver (channelsOf t) payload Hall)|].
  intros rows Hr.
  destruct (run_fetchData_refreshes sb t b rows Hm Hr) as (Hd & Hn & _).
  split; [split; assumption|].
  split; [intros c payload Hc; rewrite (Hchange c payload Hc); split; assumption|].
  split; [intros cs payload Hcs;
          exact (deliver_refreshes sb t payload rows cs b Hb Hr Hcs)|].
  intros payload.
  destruct (deliver_refreshes sb t payload rows (channelsOf t) b Hb Hr Hall)
    as [Hn2 Hd2].
  split; [apply Hd2; discriminate|].
  rewrite Hn2. cbn [channelsOf List.length]. lia.
Qed.

Lemma refresh_per_channel_witness :
  let sb := storeWith [] [taskA; taskB] in
  let b := boardOf [] [taskA] in
  mounted b /\
  calls (run sb (onChannelStatus (QueryChannel tasks) "SUBSCRIBED") b) =
    [Fetch tasks] /\
  run sb (onChannelStatus (BoardChannel tasks) "SUBSCRIBED") b =
    mkRun (Returned tt) b [] /\
  calls (run sb (changeHandler (QueryChannel tasks) INSERT) b) = [Fetch tasks] /\
  calls (run sb (changeHandler (BoardChannel tasks) DELETE) b) = [Fetch tasks] /\
  calls (run sb (deliver (channelsOf tasks) UPDATE) b) =
    [Fetch tasks; Fetch tasks] /\
  data (tasksQ (final (run sb (deliver (channelsOf tasks) UPDATE) b))) =
    [taskA; taskB] /\
  refreshCount (tasksQ (final (run sb (deliver (channelsOf tasks) UPDATE) b))) =
    3%nat.
Proof.
  intros sb b.
  pose proof (refresh_per_channel sb b tasks (boardOf_mounted [] [taskA]))
    as (Hs & Hn & Hc & _ & Hboth & Hd).
  destruct (Hd [taskA; taskB] eq_refl) as (_ & _ & _ & Hd2).
  split; [apply boardOf_mounted|]. split; [exact Hs|].
  split; [exact (Hn "SUBSCRIBED")|].
  split; [apply Hc; left; reflexivity|].
  split; [apply Hc; right; left; reflexivity|].
  split; [exact (Hboth UPDATE)|].
  exact (Hd2 UPDATE).
Defined.

(** ** Failure of a remote write *)

Lemma run_refetch_tasks sb b :
  let r := run sb (refetch tasks) b in
  outcome r = Returned tt /\
  error (final r) = error b /\
  (isMounted (tasksQ b) = true -> calls r = [Fetch tasks]) /\
  (forall snapshot,
     isMounted (tasksQ b) = true -> tasks_select sb = inr snapshot ->
     optimisticTasks (final r) = Some snapshot /\
     data (tasksQ (final r)) = snapshot) /\
  (forall err,
     tasks_select sb = inl err ->
     optimisticTasks (final r) = optimisticTasks b /\
     data (tasksQ (final r)) = data (tasksQ b)).
Proof.
  destruct b as [cq tq ot er act]. destruct tq as [d l qe rc im ch sub].
  unfold refetch, fetchData. destruct im; simpl.
  - unfold Gateway.fetchTasks.
    destruct (tasks_select sb) as [e|rows]; simpl; repeat split;
      intros; try discriminate; try congruence.
  - repeat split; intros; try discriminate.
Qed.

(** The shape all task handlers have once their guards are passed: the
    optimistic update, the remote call, and the [catch] block that
    refetches.  When the call fails the handler refetches, records the
    message and throws the error of the call. *)
Lemma run_failed_write sb F c (K : Outcome (ReplyOf c) -> Async Board unit)
  fallback b e :
  K (Threw e) = Ret (Threw e) ->
  fst (gateway sb c) = Threw e ->
  run sb (try_catch (Modify (setOptimisticTasks F) (Await c K))
                    (revertAndFail fallback)) b =
  let r0 := run sb (refetch tasks) (setOptimisticTasks F b) in
  mkRun (Threw e) (setError (Some (messageOr e fallback)) (final r0))
        (c :: calls r0).
Proof.
  intros HK Hfail. rewrite run_try_catch. cbn [run]. rewrite Hfail, HK.
  cbn [run outcome final calls]. unfold revertAndFail. rewrite run_bind.
  destruct (run_refetch_tasks sb (setOptimisticTasks F b)) as (Hout & _).
  rewrite Hout. simpl. rewrite app_nil_r. reflexivity.
Qed.

Lemma perform_failed sb now m b w e :
  optimisticTasks b = Some w ->
  accepted m w = true ->
  fst (gateway sb (remoteWrite m w)) = Threw e ->
  run sb (perform now m) b =
  let r0 := run sb (refetch tasks)
                (setOptimisticTasks (fun _ => optimisticApply now m w) b) in
  mkRun (Threw e) (setError (Some (messageOr e (fallbackMessage m))) (final r0))
        (remoteWrite m w :: calls r0).
Proof.
  intros Hw Hacc Hfail.
  assert (Hset : forall F, F (Some w) = optimisticApply now m w ->
            setOptimisticTasks F b =
            setOptimisticTasks (fun _ => optimisticApply now m w) b).
  { intros F HF. unfold setOptimisticTasks. rewrite Hw, HF. reflexivity. }
  destruct m as [ttl columnId prio | taskId updates | taskId
              | taskId newColumnId newPosition | updates];
    cbn [perform remoteWrite fallbackMessage] in *.
  - unfold handleCreateTask. cbn [run]. rewrite Hw.
    rewrite <- (Hset (appendTask (tempTaskAt now ttl columnId prio
                                    (newTaskPosition w columnId))) eq_refl).
    apply (run_failed_write sb _ _ _ _ b e eq_refl Hfail).
  - unfold handleUpdateTask. cbn [run]. rewrite Hw.
    rewrite <- (Hset (option_map (map (fun task =>
                        if String.eqb (id task) taskId
                        then patchTask now updates task else task))) eq_refl).
    apply (run_failed_write sb _ _ _ _ b e eq_refl Hfail).
  - unfold handleDeleteTask. cbn [run]. rewrite Hw.
    rewrite <- (Hset (option_map (filter (fun task =>
                        negb (String.eqb (id task) taskId)))) eq_refl).
    apply (run_failed_write sb _ _ _ _ b e eq_refl Hfail).
  - unfold handleMoveTask. cbn [run]. rewrite Hw.
    unfold accepted in Hacc.
    destruct (find (fun t => String.eqb (id t) taskId) w); [|discriminate Hacc].
    rewrite <- (Hset (applyUpdates now (moveUpdates w taskId newColumnId newPosition))
                     eq_refl).
    apply (run_failed_write sb _ _ _ _ b e eq_refl Hfail).
  - unfold handleReorderTasks. cbn [run]. rewrite Hw.
    rewrite <- (Hset (applyUpdates now updates) eq_refl).
    apply (run_failed_write sb _ _ _ _ b e eq_refl Hfail).
Qed.

(** C4, as amended.  When the remote write of a task mutation fails, the
    handler throws the error of the write after recording its message,
    and before that it refetches the task list; when the view is mounted
    and that refetch succeeds, the working list and the confirmed
    snapshot are both the fetched list. *)
Theorem failed_write_resyncs sb now m b w e :
  optimisticTasks b = Some w ->
  accepted m w = true ->
  fst (gateway sb (remoteWrite m w)) = Threw e ->
  let r := run sb (perform now m) b in
  outcome r = Threw e /\
  error (final r) = Some (messageOr e (fallbackMessage m)) /\
  (isMounted (tasksQ b) = true -> calls r = [remoteWrite m w; Fetch tasks]) /\
  (forall snapshot,
     isMounted (tasksQ b) = true -> tasks_select sb = inr snapshot ->
     optimisticTasks (final r) = Some snapshot /\
     data (tasksQ (final r)) = snapshot).
Proof.
  intros Hw Hacc Hfail r. unfold r.
  rewrite (perform_failed sb now m b w e Hw Hacc Hfail). cbv zeta.
  destruct (run_refetch_tasks sb
              (setOptimisticTasks (fun _ => optimisticApply now m w) b))
    as (_ & _ & Hcalls & Hok & _).
  cbn [outcome final calls]. split; [reflexivity|]. split; [reflexivity|]. split.
  - intros Hm. rewrite (Hcalls Hm). reflexivity.
  - intros snapshot Hm Hsel. exact (Hok snapshot Hm Hsel).
Qed.

(** Scenario D: the store refuses the insert and answers the refetch with
    the one task it holds; the temporary task is gone. *)
Lemma failed_write_resyncs_witness :
  let sb := readOnly [] [taskA] in
  let m := MCreate "Write report" "todo" high in
  let b := boardOf [] [taskA] in
  let e := ErrorObj "new row violates row-level security policy" in
  let r := run sb (perform noon m) b in
  optimisticTasks b = Some [taskA] /\
  accepted m [taskA] = true /\
  fst (gateway sb (remoteWrite m [taskA])) = Threw e /\
  isMounted (tasksQ b) = true /\
  tasks_select sb = inr [taskA] /\
  outcome r = Threw e /\
  error (final r) = Some "new row violates row-level security policy" /\
  calls r = [CreateTask "Write report" "todo" high 1; Fetch tasks] /\
  optimisticTasks (final r) = Some [taskA] /\
  data (tasksQ (final r)) = [taskA].
Proof.
  intros sb m b e r.
  pose proof (failed_write_resyncs sb noon m b [taskA] e
                eq_refl eq_refl eq_refl) as (Ho & He & Hc & Hs).
  destruct (Hs [taskA] eq_refl eq_refl) as [Hw Hd].
  split; [reflexivity|]. split; [reflexivity|]. split; [reflexivity|].
  split; [reflexivity|]. split; [reflexivity|].
  split; [exact Ho|]. split; [exact He|]. split; [exact (Hc eq_refl)|].
  split; [exact Hw | exact Hd].
Defined.

(** C4 fails as stated: with the store out of reach the insert fails and
    so does the refetch; the error is thrown, the confirmed snapshot is
    what it was, and the working list keeps the temporary task. *)
Lemma failed_refetch_keeps_temporary_task :
  let m := MCreate "Write report" "todo" high in
  let b := boardOf [] [taskA] in
  let r := run offline (perform noon m) b in
  mounted b /\
  optimisticTasks b = Some (data (tasksQ b)) /\
  fst (gateway offline (remoteWrite m [taskA])) = Threw (NonError "network") /\
  outcome r = Threw (NonError "network") /\
  data (tasksQ (final r)) = [taskA] /\
  optimisticTasks (final r) =
    Some [taskA; tempTaskAt noon "Write report" "todo" high 1] /\
  optimisticTasks (final r) <> Some (data (tasksQ b)).
Proof.
  simpl. split; [apply boardOf_mounted|]. repeat split. discriminate.
Qed.

(** ** What the presentation layer reads *)

Lemma suspend_perform now m b w :
  optimisticTasks b = Some w ->
  accepted m w = true ->
  suspend (perform now m) b =
    (setOptimisticTasks (fun _ => optimisticApply now m w) b,
     Some (remoteWrite m w)).
Proof.
  intros Hw Hacc.
  destruct m as [ttl columnId prio | taskId updates | taskId
                | taskId newColumnId newPosition | updates];
    simpl; rewrite Hw; simpl.
  - unfold setOptimisticTasks. rewrite Hw. reflexivity.
  - unfold setOptimisticTasks. rewrite Hw. reflexivity.
  - unfold setOptimisticTasks. rewrite Hw. reflexivity.
  - simpl in Hacc.
    destruct (find (fun t => String.eqb (id t) taskId) w); [|discriminate Hacc].
    simpl. unfold setOptimisticTasks. rewrite Hw. reflexivity.
  - unfold setOptimisticTasks. rewrite Hw. reflexivity.
Qed.

(** C6, as amended.  In every state of a mounted view the task list
    exposed is the working list; while the remote write of a task
    mutation is in flight it is the list with the mutation applied, the
    confirmed snapshot being untouched.  While the remote call of a column
    operation is in flight the state is what it was: the column list
    exposed is the confirmed snapshot, with nothing applied. *)
Theorem exposed_lists now b :
  mounted b ->
  exists w,
    optimisticTasks b = Some w /\
    exposedTasks b = w /\
    (forall m, accepted m w = true ->
       exists b',
         suspend (perform now m) b = (b', Some (remoteWrite m w)) /\
         isWrite (remoteWrite m w) = true /\
         Some (exposedTasks b') = optimisticApply now m w /\
         data (tasksQ b') = data (tasksQ b)) /\
    (forall op,
       exists c,
         suspend (performColumn op) b = (b, Some c) /\ isWrite c = true /\
         exposedColumns b = data (columnsQ b)).
Proof.
  intros Hb. apply mounted_steady in Hb. destruct Hb as [_ Hp].
  unfold populated in Hp.
  destruct (optimisticTasks b) as [w|] eqn:Hw; [|contradiction].
  exists w. split; [reflexivity|]. split; [unfold exposedTasks; rewrite Hw; reflexivity|].
  split.
  - intros m Hacc. eexists. split; [apply suspend_perform; assumption|].
    split; [destruct m; reflexivity|]. split; [|reflexivity].
    destruct m; reflexivity.
  - intros op. destruct op; eexists; (split; [reflexivity | split; reflexivity]).
Qed.

Lemma exposed_lists_witness :
  let b := boardOf [aColumn "todo" 0] [taskA; taskB] in
  mounted b /\
  exposedTasks b = [taskA; taskB] /\
  exposedTasks (fst (suspend (perform noon (MDelete "A")) b)) = [taskB] /\
  snd (suspend (perform noon (MDelete "A")) b) = Some (DeleteTask "A").
Proof.
  intros b.
  destruct (exposed_lists noon b (boardOf_mounted _ _))
    as (w & Hw & He & Hm & _).
  injection Hw as <-.
  destruct (Hm (MDelete "A") eq_refl) as (b' & Hs & _ & Hx & _).
  split; [apply boardOf_mounted|]. split; [exact He|].
  rewrite Hs. simpl fst. simpl snd. split; [|reflexivity].
  injection Hx as Hx. exact Hx.
Defined.

(** C6 fails as stated for columns: with the creation of a column in
    flight, the column list exposed is the confirmed snapshot, and the new
    column is not in it. *)
Lemma column_in_flight_not_exposed :
  let b := boardOf [aColumn "todo" 0] [] in
  let s := suspend (handleCreateColumn "New Column") b in
  mounted b /\
  snd s = Some (CreateColumn "New Column" 1) /\
  exposedColumns (fst s) = data (columnsQ b) /\
  ~ In "New Column" (map c_title (exposedColumns (fst s))).
Proof.
  simpl. split; [apply boardOf_mounted|]. repeat split.
  intros [E|[]]. discriminate E.
Qed.

(** On success [createTask] reconciles by id: the temporary task is
    replaced in place by the task the store returned. *)
Lemma createTask_commits sb now ttl columnId prio b w createdTask :
  optimisticTasks b = Some w ->
  fst (gateway sb (CreateTask ttl columnId prio (newTaskPosition w columnId)))
    = Returned createdTask ->
  let tempTask := tempTaskAt now ttl columnId prio (newTaskPosition w columnId) in
  run sb (handleCreateTask now ttl columnId prio) b =
    mkRun (Returned tt)
          (setOptimisticTasks
             (fun _ => commit (tempIdAt now) createdTask (Some (w ++ [tempTask]))) b)
          [CreateTask ttl columnId prio (newTaskPosition w columnId)].
Proof.
  intros Hw Hok tempTask. unfold handleCreateTask. cbn [run]. rewrite Hw.
  rewrite run_try_catch. cbn [run bind modify await ret]. rewrite Hok.
  cbn [run bind modify ret outcome final calls].
  unfold setOptimisticTasks. cbn. rewrite Hw. reflexivity.
Qed.

(** * Further properties of the code *)

(** ** The query hook *)

(** X1.  After the cleanups of a query hook have run, nothing the hook
    can still be called with touches the state or the store: a fetch,
    forced or not, the subscribe callback, a change event on either
    channel of the collection; and the channel reference is null. *)
Theorem after_unmount_inert sb sb' b t :
  let b' := final (run sb unmount b) in
  channelRef (getQ t b') = None /\
  (forall force, run sb' (fetchData t force) b' = mkRun (Returned tt) b' []) /\
  (forall status, run sb' (onStatus t status) b' = mkRun (Returned tt) b' []) /\
  (forall payload, run sb' (onChange t payload) b' = mkRun (Returned tt) b' []) /\
  (forall payload,
     run sb' (react (ABoardChange t payload)) b' = mkRun (Returned tt) b' []).
Proof.
  destruct b as [cq tq ot er act]. destruct t; simpl.
  - split; [reflexivity|]. split; [reflexivity|].
    split; [intros status; rewrite andb_false_r; reflexivity|].
    split; reflexivity.
  - split; [reflexivity|]. split; [reflexivity|].
    split; [intros status; rewrite andb_false_r; reflexivity|].
    split; [reflexivity|]. intros payload. destruct payload; reflexivity.
Qed.

(** X2.  A fetch that fails on a mounted query fails closed: nothing is
    thrown, the snapshot, the refresh count and the working list are as
    they were, the error kept is an [Error] instance, and the loading flag
    is down. *)
Theorem failed_fetch_keeps_snapshot sb t b e force :
  isMounted (getQ t b) = true ->
  fst (gateway sb (Fetch t)) = Threw e ->
  let r := run sb (fetchData t force) b in
  outcome r = Returned tt /\
  calls r = [Fetch t] /\
  data (getQ t (final r)) = data (getQ t b) /\
  refreshCount (getQ t (final r)) = refreshCount (getQ t b) /\
  q_error (getQ t (final r)) = Some (asError e) /\
  (exists m, asError e = ErrorObj m) /\
  loading (getQ t (final r)) = false /\
  optimisticTasks (final r) = optimisticTasks b /\
  error (final r) = error b.
Proof.
  intros Hm Hfail. destruct b as [cq tq ot er act]. destruct t; simpl in Hm, Hfail.
  - destruct cq as [d l qe rc im ch sub]. simpl in Hm. subst im.
    unfold fetchData. simpl. rewrite Hfail. simpl.
    repeat split. destruct e; eexists; reflexivity.
  - destruct tq as [d l qe rc im ch sub]. simpl in Hm. subst im.
    unfold fetchData. simpl. rewrite Hfail. simpl.
    repeat split. destruct e; eexists; reflexivity.
Qed.

Lemma failed_fetch_keeps_snapshot_witness :
  let b := boardOf [aColumn "todo" 0] [taskA; taskB] in
  let r := run offline (fetchData tasks true) b in
  isMounted (getQ tasks b) = true /\
  fst (gateway offline (Fetch tasks)) = Threw (NonError "network") /\
  outcome r = Returned tt /\
  data (tasksQ (final r)) = [taskA; taskB] /\
  q_error (tasksQ (final r)) = Some (ErrorObj "An error occurred") /\
  optimisticTasks (final r) = Some [taskA; taskB].
Proof.
  intros b r.
  pose proof (failed_fetch_keeps_snapshot offline tasks b (NonError "network")
                true eq_refl eq_refl)
    as (Ho & _ & Hd & _ & He & _ & _ & Hw & _).
  split; [reflexivity|]. split; [reflexivity|]. split; [exact Ho|].
  split; [exact Hd|]. split; [exact He | exact Hw].
Defined.

(** X3.  A fetch on a mounted query raises the loading flag before it
    calls the store, so the hook reports loading while the call is in
    flight, and lowers it when the call is over, however it ended. *)
Theorem loading_brackets_fetch sb t b force :
  isMounted (getQ t b) = true ->
  suspend (fetchData t force) b = (updQ t (setLoading true) b, Some (Fetch t)) /\
  exposedLoading (fst (suspend (fetchData t force) b)) = true /\
  loading (getQ t (final (run sb (fetchData t force) b))) = false.
Proof.
  intros Hm. destruct b as [cq tq ot er act]. destruct t; simpl in Hm.
  - destruct cq as [d l qe rc im ch sub]. simpl in Hm. subst im.
    split; [reflexivity|]. split; [reflexivity|].
    unfold fetchData. simpl. unfold Gateway.fetchColumns.
    destruct (columns_select sb) as [e|rows]; simpl; [reflexivity|].
    destruct (force || _); reflexivity.
  - destruct tq as [d l qe rc im ch sub]. simpl in Hm. subst im.
    split; [reflexivity|]. split; [simpl; apply orb_true_r|].
    unfold fetchData. simpl. unfold Gateway.fetchTasks.
    destruct (tasks_select sb) as [e|rows]; simpl; [reflexivity|].
    destruct (force || _); reflexivity.
Qed.

Lemma loading_brackets_fetch_witness :
  let b := boardOf [] [taskA] in
  isMounted (getQ tasks b) = true /\
  exposedLoading b = false /\
  exposedLoading (fst (suspend (fetchData tasks true) b)) = true /\
  loading (tasksQ (final (run offline (fetchData tasks true) b))) = false.
Proof.
  intros b.
  destruct (loading_brackets_fetch offline tasks b true eq_refl) as (_ & Hup & Hdown).
  split; [reflexivity|]. split; [reflexivity|]. split; [exact Hup | exact Hdown].
Defined.

Lemma Priority_eqb_refl p : Priority_eqb p p = true.
Proof. destruct p; reflexivity. Qed.

Lemma Row_eqb_refl t (x : Row t) : Row_eqb t x x = true.
Proof.
  destruct t; simpl; unfold Column_eqb, Task_eqb;
    rewrite ?String.eqb_refl, ?Z.eqb_refl, ?Priority_eqb_refl; reflexivity.
Qed.

Lemma list_eqb_refl {T} (eqb : T -> T -> bool) (l : list T) :
  (forall x, eqb x x = true) -> list_eqb eqb l l = true.
Proof.
  intros Hr. induction l as [|x r IH]; simpl; [reflexivity|].
  rewrite Hr, IH. reflexivity.
Qed.

(** X4.  A fetch that is not forced and returns the rows already cached
    replaces nothing: the snapshot, the refresh count and the working list
    stay, only the error is cleared.  A forced fetch returning the same
    rows counts as a refresh: the refresh count goes up by one. *)
Theorem unforced_fetch_of_same_rows sb t b :
  isMounted (getQ t b) = true ->
  fst (gateway sb (Fetch t)) = Returned (data (getQ t b)) ->
  let r := run sb (fetchData t false) b in
  let r' := run sb (fetchData t true) b in
  data (getQ t (final r)) = data (getQ t b) /\
  refreshCount (getQ t (final r)) = refreshCount (getQ t b) /\
  optimisticTasks (final r) = optimisticTasks b /\
  q_error (getQ t (final r)) = None /\
  data (getQ t (final r')) = data (getQ t b) /\
  refreshCount (getQ t (final r')) = S (refreshCount (getQ t b)).
Proof.
  intros Hm Hok. destruct b as [cq tq ot er act]. destruct t; simpl in Hm, Hok.
  - destruct cq as [d l qe rc im ch sub]. simpl in Hm, Hok. subst im.
    unfold fetchData. simpl. rewrite Hok. simpl. unfold jsonDiffers.
    rewrite (list_eqb_refl (T := Row columns) (Row_eqb columns) d (Row_eqb_refl columns)). simpl. repeat split.
  - destruct tq as [d l qe rc im ch sub]. simpl in Hm, Hok. subst im.
    unfold fetchData. simpl. rewrite Hok. simpl. unfold jsonDiffers.
    rewrite (list_eqb_refl (T := Row tasks) (Row_eqb tasks) d (Row_eqb_refl tasks)). simpl. repeat split.
Qed.

Lemma unforced_fetch_of_same_rows_witness :
  let b := setOptimisticTasks (fun _ => Some [taskB]) (boardOf [] [taskA; taskB]) in
  let sb := storeWith [] [taskA; taskB] in
  isMounted (getQ tasks b) = true /\
  fst (gateway sb (Fetch tasks)) = Returned (data (getQ tasks b)) /\
  refreshCount (tasksQ (final (run sb (fetchData tasks false) b))) = 1%nat /\
  optimisticTasks (final (run sb (fetchData tasks false) b)) = Some [taskB] /\
  refreshCount (tasksQ (final (run sb (fetchData tasks true) b))) = 2%nat.
Proof.
  intros b sb.
  destruct (unforced_fetch_of_same_rows sb tasks b eq_refl eq_refl)
    as (_ & Hrc & Hw & _ & _ & Hrc').
  split; [reflexivity|]. split; [reflexivity|].
  split; [exact Hrc|]. split; [exact Hw | exact Hrc'].
Defined.

(** X5.  Mounting the view fetches each collection once, columns first,
    and throws nothing.  Afterwards, whatever the store answered, both
    queries are mounted and subscribed on a channel named after their
    table, neither is loading, and the working list is the confirmed task
    snapshot: the fetched rows, or the empty list with the error kept
    when the fetch failed. *)
Theorem mount_establishes sb s1 s2 :
  let r := run sb (mount s1 s2) initialBoard in
  outcome r = Returned tt /\
  calls r = [Fetch columns; Fetch tasks] /\
  live (final r) /\
  channelRef (columnsQ (final r)) = Some ("columns_changes_" ++ s1)%string /\
  channelRef (tasksQ (final r)) = Some ("tasks_changes_" ++ s2)%string /\
  exposedLoading (final r) = false /\
  optimisticTasks (final r) = Some (data (tasksQ (final r))) /\
  data (columnsQ (final r)) =
    match columns_select sb with inr cs => cs | inl _ => [] end /\
  data (tasksQ (final r)) =
    match tasks_select sb with inr ts => ts | inl _ => [] end /\
  q_error (tasksQ (final r)) =
    match tasks_select sb with inr _ => None | inl e => Some (asError e) end.
Proof.
  unfold mount. simpl. unfold Gateway.fetchColumns.
  destruct (columns_select sb) as [e1|cs]; simpl; unfold Gateway.fetchTasks;
    destruct (tasks_select sb) as [e2|ts]; simpl;
    (split; [reflexivity|]); (split; [reflexivity|]);
    (split; [intros [|]; split; reflexivity|]); repeat split.
Qed.

(** ** The batch write of the gateway *)

(** X6.  [updateTaskPositions] goes through three steps and stops at the
    first that fails: without a session it throws "Not authenticated"
    having asked for the user only; when the lookup fails it throws the
    error of the lookup and sends no upsert; it returns normally exactly
    when the session, the lookup and the upsert all succeeded.  An upsert
    it sends has one record per update, in the order of the updates, each
    stamped with the id of the signed-in user. *)
Theorem updateTaskPositions_steps sb updates :
  let res := Gateway.updateTaskPositions sb updates in
  let ids := map u_id updates in
  (auth_getUser sb = None ->
     res = (Threw (ErrorObj "Not authenticated"), [AuthGetUser])) /\
  (forall uid e,
     auth_getUser sb = Some uid -> tasks_select_in sb ids = inl e ->
     res = (Threw e, [AuthGetUser; SelectTasksIn ids])) /\
  (fst res = Returned tt <->
     exists uid rows,
       auth_getUser sb = Some uid /\ tasks_select_in sb ids = inr rows /\
       tasks_upsert sb (Gateway.upsertRecords uid rows updates) = None) /\
  (forall records,
     In (UpsertTasks records) (snd res) ->
     exists uid,
       auth_getUser sb = Some uid /\
       (exists rows, tasks_select_in sb ids = inr rows) /\
       map r_id records = ids /\
       map r_position records = map u_position updates /\
       map r_column_id records = map u_column_id updates /\
       Forall (fun r => r_user_id r = uid) records).
Proof.
  unfold Gateway.updateTaskPositions. cbv zeta.
  split; [intros Hu; rewrite Hu; reflexivity|].
  split; [intros uid e Hu Hs; rewrite Hu, Hs; reflexivity|].
  split.
  - split.
    + destruct (auth_getUser sb) as [uid|]; [|discriminate].
      destruct (tasks_select_in sb (map u_id updates)) as [e|rows]; [discriminate|].
      intros H. exists uid, rows. split; [reflexivity|]. split; [reflexivity|].
      destruct (tasks_upsert sb _); [discriminate H | reflexivity].
    + intros (uid & rows & Hu & Hs & Hup). rewrite Hu, Hs, Hup. reflexivity.
  - intros records Hin.
    destruct (auth_getUser sb) as [uid|]; [|destruct Hin as [E|[]]; discriminate E].
    destruct (tasks_select_in sb (map u_id updates)) as [e|rows].
    + destruct Hin as [E|[E|[]]]; discriminate E.
    + assert (Hrec : records = Gateway.upsertRecords uid rows updates).
      { destruct (tasks_upsert sb _); simpl in Hin;
          destruct Hin as [E|[E|[E|[]]]]; try discriminate E;
          inversion E; reflexivity. }
      subst records. exists uid. split; [reflexivity|].
      split; [exists rows; reflexivity|].
      unfold Gateway.upsertRecords. rewrite !map_map. simpl.
      repeat split. apply Forall_forall. intros r Hr.
      apply in_map_iff in Hr. destruct Hr as (u & <- & _). reflexivity.
Qed.

(** ** Column operations of the hook *)

(** X7.  A column operation whose remote call fails changes nothing but
    the error cell: it makes that one call and no refetch, records the
    message of the error (or its fallback) and throws the error. *)
Theorem failed_column_operation sb op b e :
  fst (gateway sb (columnWrite op b)) = Threw e ->
  run sb (performColumn op) b =
    mkRun (Threw e) (setError (Some (messageOr e (columnFallback op))) b)
          [columnWrite op b].
Proof.
  intros Hfail. destruct op as [title | columnId title | columnId];
    cbn [columnWrite] in Hfail; unfold performColumn, handleCreateColumn, handleUpdateColumn,
      handleDeleteColumn; cbn [run]; rewrite run_try_catch; cbn [run bind await];
    rewrite Hfail; reflexivity.
Qed.

Lemma failed_column_operation_witness :
  let b := boardOf [aColumn "todo" 0] [taskA] in
  let e := ErrorObj "new row violates row-level security policy" in
  fst (gateway (readOnly [aColumn "todo" 0] [taskA])
         (columnWrite (CRename "todo" "To do") b)) = Threw e /\
  run (readOnly [aColumn "todo" 0] [taskA]) (performColumn (CRename "todo" "To do")) b =
    mkRun (Threw e)
          (setError (Some "new row violates row-level security policy") b)
          [UpdateColumn "todo" "To do"].
Proof.
  intros b e. split; [reflexivity|].
  exact (failed_column_operation (readOnly [aColumn "todo" 0] [taskA])
           (CRename "todo" "To do") b e eq_refl).
Defined.

(** X8.  A column operation whose remote call succeeds returns normally
    whatever the refetches that follow do: it refetches the columns, and
    after a delete the tasks too, in that order; a refetch that succeeds
    replaces the snapshot (and, for tasks, the working list), one that
    fails leaves it; without a refetch of the tasks their snapshot and
    working list stay; the error cell of the board is not touched. *)
Theorem column_operation_refetches sb op b
  (x : ReplyOf (columnWrite op b)) :
  live b ->
  fst (gateway sb (columnWrite op b)) = Returned x ->
  let r := run sb (performColumn op) b in
  outcome r = Returned tt /\
  calls r = columnWrite op b :: columnRefetches op /\
  error (final r) = error b /\
  data (columnsQ (final r)) =
    match columns_select sb with inr cs => cs | inl _ => data (columnsQ b) end /\
  optimisticTasks (final r) =
    match op, tasks_select sb with
    | CDelete _, inr ts => Some ts
    | _, _ => optimisticTasks b
    end /\
  data (tasksQ (final r)) =
    match op, tasks_select sb with
    | CDelete _, inr ts => ts
    | _, _ => data (tasksQ b)
    end.
Proof.
  intros Hl Hok. destruct (Hl columns) as [Hmc _]. destruct (Hl tasks) as [Hmt _].
  destruct b as [cq tq ot er act].
  destruct cq as [d l qe rc im ch sub]. destruct tq as [d' l' qe' rc' im' ch' sub'].
  simpl in Hmc, Hmt. subst im im'.
  destruct op as [title | columnId title | columnId];
    cbn [columnWrite] in x, Hok;
    unfold performColumn, handleCreateColumn, handleUpdateColumn,
      handleDeleteColumn; cbn [run]; rewrite run_try_catch; cbn [run bind await];
    rewrite Hok; simpl; unfold Gateway.fetchColumns;
    destruct (columns_select sb) as [e1|cs]; simpl;
    try (unfold Gateway.fetchTasks; destruct (tasks_select sb) as [e2|ts]; simpl);
    repeat split.
Qed.

Lemma column_operation_refetches_witness :
  let sb := storeWith [aColumn "todo" 0] [taskA] in
  let b := boardOf [aColumn "todo" 0; aColumn "done" 1] [taskA; taskX] in
  let r := run sb (performColumn (CDelete "done")) b in
  live b /\
  fst (gateway sb (columnWrite (CDelete "done") b)) = Returned tt /\
  outcome r = Returned tt /\
  calls r = [DeleteColumn "done"; Fetch columns; Fetch tasks] /\
  data (columnsQ (final r)) = [aColumn "todo" 0] /\
  optimisticTasks (final r) = Some [taskA] /\
  data (tasksQ (final r)) = [taskA].
Proof.
  intros sb b r.
  assert (Hl : live b) by (intros [|]; split; reflexivity).
  destruct (column_operation_refetches sb (CDelete "done") b tt Hl eq_refl)
    as (Ho & Hc & _ & Hd & Hw & Hs).
  split; [exact Hl|]. split; [reflexivity|]. split; [exact Ho|].
  split; [exact Hc|]. split; [exact Hd|]. split; [exact Hw | exact Hs].
Defined.

(** ** Task operations of the hook that succeed *)

Lemma map_unless_id (tempId : string) (createdTask : Task) (w : list Task) :
  (forall t, In t w -> id t <> tempId) ->
  map (fun t => if String.eqb (id t) tempId then createdTask else t) w = w.
Proof.
  intros Hfresh. induction w as [|t r IH]; simpl; [reflexivity|].
  destruct (String.eqb (id t) tempId) eqn:E.
  - apply String.eqb_eq in E. exfalso. apply (Hfresh t); [now left | exact E].
  - f_equal. apply IH. intros t' Ht'. apply Hfresh. now right.
Qed.

(** X9.  When the store accepts the insert and the temporary id is not
    already in the working list, [createTask] makes that one call, no
    refetch, and leaves the working list as it was followed by the task
    the store returned. *)
Theorem created_task_takes_temp_place sb now ttl columnId prio b w createdTask :
  optimisticTasks b = Some w ->
  (forall t, In t w -> id t <> tempIdAt now) ->
  fst (gateway sb (CreateTask ttl columnId prio (newTaskPosition w columnId)))
    = Returned createdTask ->
  run sb (handleCreateTask now ttl columnId prio) b =
    mkRun (Returned tt)
          (setOptimisticTasks (fun _ => Some (w ++ [createdTask])) b)
          [CreateTask ttl columnId prio (newTaskPosition w columnId)].
Proof.
  intros Hw Hfresh Hok.
  rewrite (createTask_commits sb now ttl columnId prio b w createdTask Hw Hok).
  cbv zeta. unfold commit. rewrite map_app, (map_unless_id _ _ w Hfresh).
  cbn [map id tempTaskAt]. rewrite String.eqb_refl. reflexivity.
Qed.

Lemma created_task_takes_temp_place_witness :
  let sb := storeWith [] [taskA] in
  let b := boardOf [] [taskA] in
  optimisticTasks b = Some [taskA] /\
  (forall t, In t [taskA] -> id t <> tempIdAt noon) /\
  fst (gateway sb (CreateTask "Write report" "todo" high
                     (newTaskPosition [taskA] "todo")))
    = Returned (mkTask "t-new" "Write report" high "todo" 1 "u1" "" "") /\
  run sb (handleCreateTask noon "Write report" "todo" high) b =
    mkRun (Returned tt)
          (setOptimisticTasks
             (fun _ => Some [taskA; mkTask "t-new" "Write report" high "todo" 1
                                           "u1" "" ""]) b)
          [CreateTask "Write report" "todo" high 1].
Proof.
  intros sb b.
  assert (Hfresh : forall t, In t [taskA] -> id t <> tempIdAt noon).
  { intros t [E|[]]. rewrite <- E. discriminate. }
  split; [reflexivity|]. split; [exact Hfresh|]. split; [reflexivity|].
  exact (created_task_takes_temp_place sb noon "Write report" "todo" high b
           [taskA] _ eq_refl Hfresh eq_refl).
Defined.

Lemma newTaskPosition_above (w : list Task) (columnId : string) (t : Task) :
  In t w -> column_id t = columnId -> position t < newTaskPosition w columnId.
Proof.
  intros Hin Hcol. unfold newTaskPosition.
  set (columnTasks := filter (fun t0 => String.eqb (column_id t0) columnId) w).
  assert (Ht : In t columnTasks).
  { apply filter_In. split; [exact Hin|]. apply String.eqb_eq. exact Hcol. }
  destruct columnTasks as [|t0 r] eqn:E; [contradiction|].
  replace (0 <? List.length (t0 :: r))%nat with true by reflexivity.
  destruct (Math_max_finite (map position (t0 :: r))) as (m & Hm & _ & Hmax);
    [discriminate|].
  rewrite Hm. simpl intOf. specialize (Hmax (position t) (in_map position _ _ Ht)).
  lia.
Qed.

Lemma insertByPosition_last (a x : Task) (s : list Task) :
  position a <= position x ->
  insertByPosition a (s ++ [x]) = insertByPosition a s ++ [x].
Proof.
  intros Hax. induction s as [|y r IH]; simpl.
  - replace (position a <=? position x) with true; [reflexivity|].
    symmetry. apply Z.leb_le. exact Hax.
  - destruct (position a <=? position y); [reflexivity|]. rewrite IH. reflexivity.
Qed.

Lemma sortByPosition_last (x : Task) (l : list Task) :
  (forall a, In a l -> position a <= position x) ->
  sortByPosition (l ++ [x]) = sortByPosition l ++ [x].
Proof.
  intros Hx. induction l as [|a r IH]; simpl; [reflexivity|].
  rewrite IH by (intros a' Ha'; apply Hx; now right).
  apply insertByPosition_last. apply Hx. now left.
Qed.

(** X10.  While its insert is in flight, the temporary task is shown last
    in its column, after every task the column held, and no other column
    shows anything new. *)
Theorem temporary_task_shown_last now ttl columnId prio b w :
  optimisticTasks b = Some w ->
  let shown := exposedTasks (fst (suspend (handleCreateTask now ttl columnId prio) b)) in
  let tempTask := tempTaskAt now ttl columnId prio (newTaskPosition w columnId) in
  getTasksByColumn shown columnId = getTasksByColumn w columnId ++ [tempTask] /\
  (forall other, other <> columnId ->
     getTasksByColumn shown other = getTasksByColumn w other).
Proof.
  intros Hw shown tempTask.
  assert (Hshown : shown = w ++ [tempTask]).
  { unfold shown, handleCreateTask. simpl. rewrite Hw. simpl.
    unfold exposedTasks. simpl. rewrite Hw. reflexivity. }
  rewrite Hshown. unfold getTasksByColumn. split.
  - rewrite filter_app. simpl. rewrite String.eqb_refl.
    apply sortByPosition_last. intros a Ha. apply filter_In in Ha.
    destruct Ha as [Hin Hc]. apply String.eqb_eq in Hc.
    pose proof (newTaskPosition_above w columnId a Hin Hc) as Hlt.
    simpl. lia.
  - intros other Hne. rewrite filter_app. simpl.
    replace (String.eqb columnId other) with false.
    + rewrite app_nil_r. reflexivity.
    + symmetry. apply String.eqb_neq. intros E. apply Hne. symmetry. exact E.
Qed.

Lemma temporary_task_shown_last_witness :
  let b := boardOf [] [taskB; taskX; taskA] in
  let shown := exposedTasks (fst (suspend (handleCreateTask noon "Write report"
                                             "todo" high) b)) in
  optimisticTasks b = Some [taskB; taskX; taskA] /\
  map id (getTasksByColumn shown "todo") = ["A"; "B"; "temp-1744461360000"] /\
  map id (getTasksByColumn shown "done") = ["X"].
Proof.
  intros b shown.
  destruct (temporary_task_shown_last noon "Write report" "todo" high b
              [taskB; taskX; taskA] eq_refl) as [Hcol Hother].
  split; [reflexivity|]. split.
  - unfold shown. rewrite Hcol. reflexivity.
  - unfold shown. rewrite (Hother "done"); [reflexivity | discriminate].
Defined.

(** A list in which no task bears the id passes the filter of
    [deleteTask] whole. *)
Lemma filter_without_id (taskId : string) (w : list Task) :
  ~ In taskId (map id w) ->
  filter (fun task => negb (String.eqb (id task) taskId)) w = w.
Proof.
  intros Hno. induction w as [|t r IH]; simpl; [reflexivity|].
  destruct (String.eqb (id t) taskId) eqn:E.
  - apply String.eqb_eq in E. exfalso. apply Hno. left. exact E.
  - simpl. f_equal. apply IH. intros Hin. apply Hno. right. exact Hin.
Qed.

(** X11.  When the store accepts the delete, [deleteTask] makes that one
    call and no refetch, and the working list is the old one without the
    tasks bearing the id, the others in their order: it is the old list
    filtered on the id.  So a list holding the task once, between
    [before] and [after], becomes [before] followed by [after]; and any
    selection of tasks that bear another id reads the same, in order and
    number, before and after.  An id that is not in the list leaves it as
    it was, the call being made all the same. *)
Theorem deleted_task_is_gone sb taskId b w :
  optimisticTasks b = Some w ->
  fst (gateway sb (DeleteTask taskId)) = Returned tt ->
  exists w',
    run sb (handleDeleteTask taskId) b =
      mkRun (Returned tt) (setOptimisticTasks (fun _ => Some w') b)
            [DeleteTask taskId] /\
    ~ In taskId (map id w') /\
    (forall t, In t w' <-> In t w /\ id t <> taskId) /\
    (~ In taskId (map id w) -> w' = w) /\
    w' = filter (fun task => negb (String.eqb (id task) taskId)) w /\
    (forall before t after,
       w = before ++ t :: after -> id t = taskId ->
       ~ In taskId (map id before) -> ~ In taskId (map id after) ->
       w' = before ++ after) /\
    (forall keep, (forall t, keep t = true -> id t <> taskId) ->
       filter keep w' = filter keep w).
Proof.
  intros Hw Hok.
  exists (filter (fun task => negb (String.eqb (id task) taskId)) w).
  split; [|split; [|split; [|split; [|split; [|split]]]]].
  - unfold handleDeleteTask. cbn [run]. rewrite Hw. rewrite run_try_catch.
    cbn [run bind modify await ret]. rewrite Hok.
    cbn [run outcome final calls]. unfold setOptimisticTasks. cbn. rewrite Hw.
    reflexivity.
  - intros Hin. apply in_map_iff in Hin. destruct Hin as (t & E & Ht).
    apply filter_In in Ht. destruct Ht as [_ Hn].
    apply negb_true_iff, String.eqb_neq in Hn. contradiction.
  - intros t. rewrite filter_In, negb_true_iff, String.eqb_neq. reflexivity.
  - apply filter_without_id.
  - reflexivity.
  - intros before t after -> Ht Hb Ha. rewrite filter_app. cbn [filter].
    rewrite Ht, String.eqb_refl. cbn [negb].
    rewrite (filter_without_id taskId before Hb),
            (filter_without_id taskId after Ha). reflexivity.
  - intros keep Hkeep. clear Hw. induction w as [|t r IH]; [reflexivity|].
    cbn [filter]. destruct (String.eqb (id t) taskId) eqn:E; cbn [negb filter].
    + destruct (keep t) eqn:K; [|exact IH].
      apply String.eqb_eq in E. exfalso. exact (Hkeep t K E).
    + rewrite IH. reflexivity.
Qed.

Lemma deleted_task_is_gone_witness :
  let sb := storeWith [] [taskB; taskC] in
  let b := boardOf [] [taskB; taskA; taskC] in
  optimisticTasks b = Some [taskB; taskA; taskC] /\
  fst (gateway sb (DeleteTask "A")) = Returned tt /\
  exists w',
    run sb (handleDeleteTask "A") b =
      mkRun (Returned tt) (setOptimisticTasks (fun _ => Some w') b)
            [DeleteTask "A"] /\
    ~ In "A" (map id w') /\
    w' = [taskB; taskC].
Proof.
  intros sb b. split; [reflexivity|]. split; [reflexivity|].
  destruct (deleted_task_is_gone sb "A" b [taskB; taskA; taskC] eq_refl eq_refl)
    as (w' & Hrun & Hgone & _ & _ & _ & Hcut & _).
  exists w'. split; [exact Hrun|]. split; [exact Hgone|].
  apply (Hcut [taskB] taskA [taskC] eq_refl eq_refl).
  - intros [E|[]]. discriminate E.
  - intros [E|[]]. discriminate E.
Defined.

(** X12.  When the store accepts the update, [updateTask] makes that one
    call and no refetch; the working list keeps its length, ids and order;
    a task bearing another id is untouched; a task bearing the id has the
    fields of the patch, its other fields, and the clock of the client as
    [updated_at].  The row the store returned is not used. *)
Theorem updated_task_in_place sb now taskId updates b w
  (x : ReplyOf (UpdateTask taskId updates)) :
  optimisticTasks b = Some w ->
  fst (gateway sb (UpdateTask taskId updates)) = Returned x ->
  exists w',
    run sb (handleUpdateTask now taskId updates) b =
      mkRun (Returned tt) (setOptimisticTasks (fun _ => Some w') b)
            [UpdateTask taskId updates] /\
    map id w' = map id w /\
    (forall i t, nth_error w i = Some t ->
       exists t',
         nth_error w' i = Some t' /\
         (id t <> taskId -> t' = t) /\
         (id t = taskId ->
            title t' = orElse (p_title updates) (title t) /\
            priority t' = orElse (p_priority updates) (priority t) /\
            column_id t' = orElse (p_column_id updates) (column_id t) /\
            position t' = orElse (p_position updates) (position t) /\
            user_id t' = user_id t /\ created_at t' = created_at t /\
            updated_at t' = iso now)).
Proof.
  intros Hw Hok.
  exists (map (fun task => if String.eqb (id task) taskId
                           then patchTask now updates task else task) w).
  split; [|split].
  - unfold handleUpdateTask. cbn [run]. rewrite Hw. rewrite run_try_catch.
    cbn [run bind modify await ret]. rewrite Hok.
    cbn [run bind outcome final calls ret]. unfold setOptimisticTasks. cbn.
    rewrite Hw. reflexivity.
  - rewrite map_map. apply map_ext. intros t.
    destruct (String.eqb (id t) taskId); reflexivity.
  - intros i t Hi. eexists. split; [rewrite nth_error_map, Hi; reflexivity|].
    destruct (String.eqb (id t) taskId) eqn:E.
    + apply String.eqb_eq in E. split; [intros Hne; contradiction|].
      intros _. repeat split.
    + apply String.eqb_neq in E. split; [reflexivity | intros He; contradiction].
Qed.

Lemma updated_task_in_place_witness :
  let sb := storeWith [] [taskA; taskB] in
  let b := boardOf [] [taskA; taskB] in
  let patch := mkPatch (Some "Call Bob") (Some high) None None in
  optimisticTasks b = Some [taskA; taskB] /\
  fst (gateway sb (UpdateTask "B" patch)) = Returned (aTask "B" "" 0) /\
  exists w',
    run sb (handleUpdateTask noon "B" patch) b =
      mkRun (Returned tt) (setOptimisticTasks (fun _ => Some w') b)
            [UpdateTask "B" patch] /\
    map id w' = ["A"; "B"].
Proof.
  intros sb b patch. split; [reflexivity|]. split; [reflexivity|].
  destruct (updated_task_in_place sb noon "B" patch b [taskA; taskB] _
              eq_refl eq_refl) as (w' & Hrun & Hids & _).
  exists w'. split; [exact Hrun | exact Hids].
Defined.

(** ** Display order of a column *)

Lemma insertByPosition_stable (x : Task) (l : list Task) (p : Z) :
  filter (fun t => position t =? p) (insertByPosition x l) =
  filter (fun t => position t =? p) (x :: l).
Proof.
  induction l as [|y r IH]; [reflexivity|]. simpl insertByPosition.
  destruct (position x <=? position y) eqn:E; [reflexivity|].
  apply Z.leb_gt in E.
  cbn [filter]. rewrite IH. cbn [filter].
  destruct (position x =? p) eqn:Ex; destruct (position y =? p) eqn:Ey;
    try reflexivity.
  apply Z.eqb_eq in Ex, Ey. lia.
Qed.

(** X13.  [getTasksByColumn] shows exactly the tasks of the column, each
    as often as the list holds it, in ascending order of position; tasks
    with equal positions stay in the order the list has them in. *)
Theorem column_display_order (ts : list Task) (columnId : string) :
  let inColumn := filter (fun t => String.eqb (column_id t) columnId) ts in
  let shown := getTasksByColumn ts columnId in
  StronglySorted byPosition shown /\
  Permutation shown inColumn /\
  (forall t, In t shown <-> In t ts /\ column_id t = columnId) /\
  (forall p, filter (fun t => position t =? p) shown =
             filter (fun t => position t =? p) inColumn).
Proof.
  cbv zeta. unfold getTasksByColumn.
  split; [apply sortByPosition_sorted|]. split; [apply sortByPosition_perm|].
  split.
  - intros t. split.
    + intros H. apply (Permutation_in _ (sortByPosition_perm _)) in H.
      apply filter_In in H. destruct H as [Hin Hc].
      apply String.eqb_eq in Hc. split; assumption.
    + intros [Hin Hc].
      apply (Permutation_in _ (Permutation_sym (sortByPosition_perm _))).
      apply filter_In. split; [exact Hin | apply String.eqb_eq; exact Hc].
  - intros p.
    induction (filter (fun t => String.eqb (column_id t) columnId) ts)
      as [|x r IH]; [reflexivity|].
    simpl sortByPosition. rewrite insertByPosition_stable. simpl.
    rewrite IH. reflexivity.
Qed.

(** X14.  Handed the tasks of a column in an intended order as the batch
    position = index, [reorderTasks] sends that batch, and while the call
    is in flight the column shows the intended order (ids are unique in
    the working list). *)
Theorem reorderTasks_shows_order now b w order columnId :
  optimisticTasks b = Some w ->
  NoDup (map id w) ->
  Permutation order (filter (fun t => String.eqb (column_id t) columnId) w) ->
  let batch := mapi (positionIsIndex columnId) order in
  let s := suspend (handleReorderTasks now batch) b in
  snd s = Some (UpdateTaskPositions batch) /\
  map id (getTasksByColumn (exposedTasks (fst s)) columnId) = map id order.
Proof.
  intros Hw Hnd Hperm batch s.
  assert (Hs : s = (setOptimisticTasks (fun _ => applyUpdates now batch (Some w)) b,
                    Some (UpdateTaskPositions batch))).
  { exact (suspend_perform now (MReorder batch) b w Hw eq_refl). }
  rewrite Hs. split; [reflexivity|].
  apply (reorder_realises_order now columnId w order Hnd Hperm). reflexivity.
Qed.

Lemma reorderTasks_shows_order_witness :
  let w := [taskA; taskB; taskX; taskC] in
  let b := boardOf [] w in
  let batch := mapi (positionIsIndex "todo") [taskC; taskA; taskB] in
  let s := suspend (handleReorderTasks noon batch) b in
  optimisticTasks b = Some w /\
  NoDup (map id w) /\
  Permutation [taskC; taskA; taskB]
    (filter (fun t => String.eqb (column_id t) "todo") w) /\
  snd s = Some (UpdateTaskPositions batch) /\
  map id (getTasksByColumn (exposedTasks (fst s)) "todo") = ["C"; "A"; "B"].
Proof.
  intros w b batch s.
  assert (Hnd : NoDup (map id w)).
  { simpl. repeat constructor; simpl; intuition discriminate. }
  assert (Hperm : Permutation [taskC; taskA; taskB]
                    (filter (fun t => String.eqb (column_id t) "todo") w)).
  { exact (Permutation_cons_append [taskA; taskB] taskC). }
  destruct (reorderTasks_shows_order noon b w [taskC; taskA; taskB] "todo"
              eq_refl Hnd Hperm) as [Hcall Hshown].
  split; [reflexivity|]. split; [exact Hnd|]. split; [exact Hperm|].
  split; [exact Hcall | exact Hshown].
Defined.

Lemma updateFirst_noop {A} (p : A -> bool) (f : A -> A) (l : list A) :
  (forall x, In x l -> f x = x) -> updateFirst p f l = l.
Proof.
  intros Hf. induction l as [|x r IH]; simpl; [reflexivity|].
  destruct (p x).
  - rewrite (Hf x (or_introl eq_refl)). reflexivity.
  - f_equal. apply IH. intros y Hy. apply Hf. now right.
Qed.

Lemma mapi_from_positions (col : string) (l : list Task) (k : nat) :
  map u_position (mapi_from (positionIsIndex col) k l) =
  map Z.of_nat (seq k (List.length l)).
Proof.
  revert k. induction l as [|t r IH]; intros k; simpl; [reflexivity|].
  rewrite IH. reflexivity.
Qed.

Lemma mapi_from_column (col : string) (l : list Task) (k : nat) :
  forall u, In u (mapi_from (positionIsIndex col) k l) -> u_column_id u = col.
Proof.
  revert k. induction l as [|t r IH]; intros k u Hu; simpl in Hu; [contradiction|].
  destruct Hu as [<-|Hu]; [reflexivity | exact (IH (S k) u Hu)].
Qed.

Lemma dropUpdates_is_renumbering (ts : list Task) (activeTask overTask : Task) :
  dropUpdates ts activeTask overTask =
  mapi (positionIsIndex (column_id overTask))
       (getTasksByColumn ts (column_id overTask)).
Proof.
  unfold dropUpdates, getTasksByColumn.
  destruct (negb (String.eqb (column_id activeTask) (column_id overTask)));
    [|reflexivity].
  apply updateFirst_noop. intros u Hu.
  rewrite <- (mapi_from_column _ _ _ u Hu). destruct u; reflexivity.
Qed.

(** X15.  The batch the drag handler builds when a task is dropped on a
    task lists the tasks of the column of the target in the order they
    are shown in, numbered 0, 1, 2, ..., all in that column; the dragged
    task plays no part in it.  Applied to a list with unique ids, it
    leaves the order shown in that column as it was. *)
Theorem drop_on_task_renumbers now (ts : list Task) (activeTask overTask : Task) :
  let columnId := column_id overTask in
  let batch := dropUpdates ts activeTask overTask in
  map u_id batch = map id (getTasksByColumn ts columnId) /\
  map u_position batch = map Z.of_nat (seq 0 (List.length batch)) /\
  (forall u, In u batch -> u_column_id u = columnId) /\
  (forall other, dropUpdates ts other overTask = batch) /\
  (NoDup (map id ts) ->
   forall ts', applyUpdates now batch (Some ts) = Some ts' ->
     map id (getTasksByColumn ts' columnId) =
     map id (getTasksByColumn ts columnId)).
Proof.
  cbv zeta. rewrite dropUpdates_is_renumbering. unfold mapi.
  split; [apply mapi_from_ids|]. split.
  - rewrite mapi_from_positions. f_equal. f_equal.
    rewrite <- (length_map u_id), mapi_from_ids, length_map. reflexivity.
  - split; [apply mapi_from_column|]. split.
    + intros other. apply dropUpdates_is_renumbering.
    + intros Hnd ts' Hts'.
      apply (reorder_realises_order now (column_id overTask) ts
               (getTasksByColumn ts (column_id overTask)) Hnd).
      * unfold getTasksByColumn. apply sortByPosition_perm.
      * exact Hts'.
Qed.

(** ** The working list after a move *)

Lemma find_in_app {A} (p : A -> bool) (l1 l2 : list A) :
  find p (l1 ++ l2) =
  match find p l1 with Some x => Some x | None => find p l2 end.
Proof.
  induction l1 as [|x r IH]; simpl; [reflexivity|].
  destruct (p x); [reflexivity | exact IH].
Qed.

Lemma find_in_map {A B} (p : B -> bool) (g : A -> B) (l : list A) :
  find p (map g l) = option_map g (find (fun x => p (g x)) l).
Proof.
  induction l as [|x r IH]; simpl; [reflexivity|].
  destruct (p (g x)); [reflexivity | exact IH].
Qed.

Lemma find_by_unique_id (l : list Task) (t : Task) :
  NoDup (map id l) -> In t l ->
  find (fun x => String.eqb (id x) (id t)) l = Some t.
Proof.
  intros Hnd Hin.
  destruct (find (fun x => String.eqb (id x) (id t)) l) as [t'|] eqn:Hf.
  - apply find_some in Hf. destruct Hf as [Hin' E]. apply String.eqb_eq in E.
    f_equal. apply (same_id_same_task l); assumption.
  - pose proof (find_none _ _ Hf t Hin) as E. simpl in E.
    rewrite String.eqb_refl in E. discriminate E.
Qed.

(** What the batch of a move makes of each task of a working list with
    unique ids. *)
Lemma applyTo_moveUpdates now (w : list Task) (taskId C : string) (P : Z)
  (t : Task) :
  NoDup (map id w) -> In t w ->
  let t' := applyTo now (moveUpdates w taskId C P) t in
  id t' = id t /\
  (id t = taskId -> column_id t' = C /\ position t' = P) /\
  (id t <> taskId -> column_id t <> C -> t' = t) /\
  (id t <> taskId -> column_id t = C ->
     column_id t' = C /\
     position t' = (if P <=? position t then position t + 1 else position t)).
Proof.
  intros Hnd Hin. cbv zeta. split; [apply applyTo_id|].
  unfold applyTo, moveUpdates. rewrite find_in_app, find_in_map. simpl.
  set (columnTasks := filter (fun t0 => String.eqb (column_id t0) C
                                        && negb (String.eqb (id t0) taskId)) w).
  assert (Hndc : NoDup (map id columnTasks)) by (apply NoDup_map_filter, Hnd).
  destruct (String.eqb (column_id t) C && negb (String.eqb (id t) taskId)) eqn:Hq.
  - assert (Htc : In t columnTasks) by (apply filter_In; split; assumption).
    rewrite (find_by_unique_id columnTasks t Hndc Htc). simpl.
    apply andb_true_iff in Hq. destruct Hq as [Hc Hn].
    apply String.eqb_eq in Hc. apply negb_true_iff, String.eqb_neq in Hn.
    split; [intros E; contradiction|]. split; [intros _ Hne; contradiction|].
    intros _ _. split; [reflexivity|]. rewrite Z.geb_leb. reflexivity.
  - assert (Hnone : find (fun x => String.eqb (id x) (id t)) columnTasks = None).
    { destruct (find (fun x => String.eqb (id x) (id t)) columnTasks)
        as [t''|] eqn:Hf; [|reflexivity].
      apply find_some in Hf. destruct Hf as [Hin'' E]. apply String.eqb_eq in E.
      apply filter_In in Hin''. destruct Hin'' as [Hw'' Hq''].
      assert (t'' = t) by (apply (same_id_same_task w); assumption). subst t''.
      rewrite Hq in Hq''. discriminate Hq''. }
    rewrite Hnone. simpl.
    destruct (String.eqb taskId (id t)) eqn:E.
    + apply String.eqb_eq in E. simpl.
      split; [intros _; split; reflexivity|].
      split; intros Hne; exfalso; apply Hne; symmetry; exact E.
    + apply String.eqb_neq in E.
      split; [intros E'; exfalso; apply E; symmetry; exact E'|].
      split; [intros _ _; reflexivity|]. intros Hne Hc. exfalso.
      apply andb_false_iff in Hq. destruct Hq as [Hq|Hq].
      * apply String.eqb_neq in Hq. contradiction.
      * apply negb_false_iff, String.eqb_eq in Hq. contradiction.
Qed.

Lemma shown_during_move now b w taskToMove taskId C P :
  optimisticTasks b = Some w ->
  find (fun t => String.eqb (id t) taskId) w = Some taskToMove ->
  exposedTasks (fst (suspend (handleMoveTask now taskId C P) b)) =
  map (applyTo now (moveUpdates w taskId C P)) w.
Proof.
  intros Hw Hfind.
  change (handleMoveTask now taskId C P) with (perform now (MMove taskId C P)).
  rewrite (suspend_perform now (MMove taskId C P) b w Hw).
  - reflexivity.
  - simpl. rewrite Hfind. reflexivity.
Qed.

(** X16.  While a move is in flight, the working list (its ids unique)
    keeps its ids and order; the moved task is in column C at position P;
    a task of another column is exactly as it was; a task of C has moved
    up by one when it was at P or after, and is where it was otherwise. *)
Theorem move_frame now b w taskToMove taskId C P :
  optimisticTasks b = Some w ->
  find (fun t => String.eqb (id t) taskId) w = Some taskToMove ->
  NoDup (map id w) ->
  let shown := exposedTasks (fst (suspend (handleMoveTask now taskId C P) b)) in
  map id shown = map id w /\
  (forall i t, nth_error w i = Some t ->
     exists t',
       nth_error shown i = Some t' /\
       (id t = taskId -> column_id t' = C /\ position t' = P) /\
       (id t <> taskId -> column_id t <> C -> t' = t) /\
       (id t <> taskId -> column_id t = C ->
          column_id t' = C /\
          position t' = (if P <=? position t then position t + 1 else position t))).
Proof.
  intros Hw Hfind Hnd shown. unfold shown.
  rewrite (shown_during_move now b w taskToMove taskId C P Hw Hfind). split.
  - rewrite map_map. apply map_ext. intros t. apply applyTo_id.
  - intros i t Hi. eexists. split; [rewrite nth_error_map, Hi; reflexivity|].
    apply (applyTo_moveUpdates now w taskId C P t Hnd (nth_error_In _ _ Hi)).
Qed.

Lemma move_frame_witness :
  let w := [taskA; taskX; taskY; taskB] in
  let b := boardOf [] w in
  let shown := exposedTasks (fst (suspend (handleMoveTask noon "A" "done" 1) b)) in
  optimisticTasks b = Some w /\
  find (fun t => String.eqb (id t) "A") w = Some taskA /\
  NoDup (map id w) /\
  map id shown = ["A"; "X"; "Y"; "B"] /\
  nth_error shown 3 = Some taskB.
Proof.
  intros w b shown.
  assert (Hnd : NoDup (map id w)).
  { simpl. repeat constructor; simpl; intuition discriminate. }
  destruct (move_frame noon b w taskA "A" "done" 1 eq_refl eq_refl Hnd)
    as [Hids Heach].
  split; [reflexivity|]. split; [reflexivity|]. split; [exact Hnd|].
  split; [exact Hids|].
  destruct (Heach 3%nat taskB eq_refl) as (t' & Ht' & _ & Hsame & _).
  fold shown in Ht'. rewrite Ht'. f_equal. apply Hsame; discriminate.
Defined.

(** X17.  While a move is in flight (ids unique), the moved task is the
    only task of column C at position P, and the other tasks of C keep
    their order: one that was before another is still before it, and
    tasks that shared a position still share one. *)
Theorem move_keeps_column_order now b w taskToMove taskId C P :
  optimisticTasks b = Some w ->
  find (fun t => String.eqb (id t) taskId) w = Some taskToMove ->
  NoDup (map id w) ->
  let shown := exposedTasks (fst (suspend (handleMoveTask now taskId C P) b)) in
  (forall t', In t' shown -> column_id t' = C -> position t' = P ->
     id t' = taskId) /\
  (forall i j t1 t2 t1' t2',
     nth_error w i = Some t1 -> nth_error w j = Some t2 ->
     nth_error shown i = Some t1' -> nth_error shown j = Some t2' ->
     id t1 <> taskId -> id t2 <> taskId ->
     column_id t1 = C -> column_id t2 = C ->
     (position t1 < position t2 -> position t1' < position t2') /\
     (position t1 = position t2 -> position t1' = position t2')).
Proof.
  intros Hw Hfind Hnd shown. unfold shown.
  rewrite (shown_during_move now b w taskToMove taskId C P Hw Hfind). split.
  - intros t' Hin Hc Hp. apply in_map_iff in Hin. destruct Hin as (t & <- & Hin).
    destruct (applyTo_moveUpdates now w taskId C P t Hnd Hin)
      as (Hid & _ & Hout & Hcol).
    rewrite Hid. destruct (string_dec (id t) taskId) as [E|Hne]; [exact E|].
    exfalso. destruct (string_dec (column_id t) C) as [Ec|Hnc].
    + destruct (Hcol Hne Ec) as [_ Hpos]. rewrite Hpos in Hp.
      destruct (P <=? position t) eqn:E; [apply Z.leb_le in E|apply Z.leb_gt in E];
        lia.
    + rewrite (Hout Hne Hnc) in Hc. contradiction.
  - intros i j t1 t2 t1' t2' Hi Hj Hi' Hj' Hn1 Hn2 Hc1 Hc2.
    rewrite nth_error_map, Hi in Hi'. rewrite nth_error_map, Hj in Hj'.
    simpl in Hi', Hj'. injection Hi' as <-. injection Hj' as <-.
    destruct (applyTo_moveUpdates now w taskId C P t1 Hnd (nth_error_In _ _ Hi))
      as (_ & _ & _ & H1).
    destruct (applyTo_moveUpdates now w taskId C P t2 Hnd (nth_error_In _ _ Hj))
      as (_ & _ & _ & H2).
    destruct (H1 Hn1 Hc1) as [_ E1]. destruct (H2 Hn2 Hc2) as [_ E2].
    rewrite E1, E2.
    destruct (P <=? position t1) eqn:L1; destruct (P <=? position t2) eqn:L2;
      try apply Z.leb_le in L1; try apply Z.leb_gt in L1;
      try apply Z.leb_le in L2; try apply Z.leb_gt in L2; split; lia.
Qed.

Lemma move_keeps_column_order_witness :
  let w := [taskA; taskX; taskY; taskB] in
  let b := boardOf [] w in
  let shown := exposedTasks (fst (suspend (handleMoveTask noon "A" "done" 1) b)) in
  optimisticTasks b = Some w /\
  find (fun t => String.eqb (id t) "A") w = Some taskA /\
  NoDup (map id w) /\
  map id (getTasksByColumn shown "done") = ["X"; "A"; "Y"] /\
  (forall t', In t' shown -> column_id t' = "done" -> position t' = 1 ->
     id t' = "A").
Proof.
  intros w b shown.
  assert (Hnd : NoDup (map id w)).
  { simpl. repeat constructor; simpl; intuition discriminate. }
  destruct (move_keeps_column_order noon b w taskA "A" "done" 1
              eq_refl eq_refl Hnd) as [Honly _].
  split; [reflexivity|]. split; [reflexivity|]. split; [exact Hnd|].
  split; [reflexivity | exact Honly].
Defined.

(** ** The drag handler *)

Lemma run_swallowed {S} sb (p : Async S unit) (s : S) :
  let r := run sb (try_catch p (fun _ => ret tt)) s in
  outcome r = Returned tt /\
  final r = final (run sb p s) /\
  calls r = calls (run sb p s).
Proof.
  cbv zeta. rewrite run_try_catch.
  destruct (run sb p s) as [[[]|e] f cs]; simpl; rewrite ?app_nil_r;
    repeat split.
Qed.

Lemma run_dragEnd_body sb (p : Async Board unit) (b : Board) :
  run sb (try_finally (try_catch p (fun _ => ret tt))
                      (modify (setActiveTask None))) b =
  mkRun (Returned tt) (setActiveTask None (final (run sb p b)))
        (calls (run sb p b)).
Proof.
  rewrite run_try_finally. cbv zeta.
  destruct (run_swallowed sb p b) as (Ho & Hf & Hc).
  simpl. rewrite Ho, Hf, Hc, app_nil_r. reflexivity.
Qed.

(** X18.  [handleDragEnd] never throws, whatever is dragged where and
    whatever the store answers, and it always ends with no active task. *)
Theorem dragEnd_never_throws sb now active over b :
  let r := run sb (handleDragEnd now active over) b in
  outcome r = Returned tt /\ activeTask (final r) = None.
Proof.
  cbv zeta. unfold handleDragEnd. cbn [run]. cbv zeta.
  destruct over as [overId|]; [|split; reflexivity].
  destruct (find (fun task => idIs active (id task)) (exposedTasks b));
    [|split; reflexivity].
  rewrite run_dragEnd_body. split; reflexivity.
Qed.

(** X19.  A drag that ends over nothing, that drags an id no task bears,
    or that ends over a numeric id, makes no gateway call and leaves the
    state as it was but for the active task, reset to null. *)
Theorem dragEnd_without_target sb now active over b :
  over = None \/
  find (fun task => idIs active (id task)) (exposedTasks b) = None \/
  (exists n, over = Some (IdNum n)) ->
  run sb (handleDragEnd now active over) b =
    mkRun (Returned tt) (setActiveTask None b) [].
Proof.
  intros H. unfold handleDragEnd. cbn [run]. cbv zeta.
  destruct H as [H | [H | [n H]]]; subst.
  - reflexivity.
  - destruct over; [rewrite H|]; reflexivity.
  - destruct (find (fun task => idIs active (id task)) (exposedTasks b));
      [|reflexivity].
    rewrite run_dragEnd_body. reflexivity.
Qed.

Lemma dragEnd_without_target_witness :
  let b := boardOf [aColumn "todo" 0] [taskA; taskB] in
  find (fun task => idIs (IdStr "Z") (id task)) (exposedTasks b) = None /\
  run offline (handleDragEnd noon (IdStr "Z") (Some (IdStr "A"))) b =
    mkRun (Returned tt) (setActiveTask None b) [] /\
  run offline (handleDragEnd noon (IdStr "A") None) b =
    mkRun (Returned tt) (setActiveTask None b) [].
Proof.
  intros b. split; [reflexivity|]. split.
  - apply (dragEnd_without_target offline noon (IdStr "Z") (Some (IdStr "A")) b).
    right. left. reflexivity.
  - apply (dragEnd_without_target offline noon (IdStr "A") None b).
    left. reflexivity.
Defined.

Lemma hd_error_app {A} (l l' : list A) (x : A) :
  hd_error l = Some x -> hd_error (l ++ l') = Some x.
Proof. destruct l; [discriminate | intros H; exact H]. Qed.

(** X20.  Dropping a task on a column it is not in moves it to the end
    of that column: the first gateway call is the batch of a move to that
    column at the index equal to the number of tasks the column holds;
    the batch gives the dragged task that position, and when every task
    of the column has a position below that number no other position
    changes.  Nothing is thrown. *)
Theorem drop_on_other_column sb now b w activeId columnId activeTask :
  optimisticTasks b = Some w ->
  find (fun t => String.eqb (id t) activeId) w = Some activeTask ->
  existsb (fun t => String.eqb (id t) columnId) w = false ->
  column_id activeTask <> columnId ->
  let n := Z.of_nat (List.length
                       (filter (fun t => String.eqb (column_id t) columnId) w)) in
  let batch := moveUpdates w activeId columnId n in
  let r := run sb (handleDragEnd now (IdStr activeId) (Some (IdStr columnId))) b in
  outcome r = Returned tt /\
  hd_error (calls r) = Some (UpdateTaskPositions batch) /\
  In (mkUpdate activeId n columnId) batch /\
  ((forall t, In t w -> column_id t = columnId -> position t < n) ->
   forall u, In u batch -> u_id u <> activeId ->
     exists t, In t w /\ column_id t = columnId /\
               u = mkUpdate (id t) (position t) columnId).
Proof.
  intros Hw Hfind Hcol Hother n batch r.
  assert (Hexp : exposedTasks b = w) by (unfold exposedTasks; rewrite Hw; reflexivity).
  assert (Hid : id activeTask = activeId).
  { apply find_some in Hfind. destruct Hfind as [_ E]. apply String.eqb_eq in E.
    exact E. }
  assert (Hr : r = mkRun (Returned tt)
                     (setActiveTask None
                        (final (run sb (handleMoveTask now activeId columnId n) b)))
                     (calls (run sb (handleMoveTask now activeId columnId n) b))).
  { unfold r, handleDragEnd. cbn [run]. cbv zeta. rewrite Hexp. cbn [idIs].
    rewrite Hfind. rewrite run_dragEnd_body. rewrite Hcol. cbn [negb].
    replace (String.eqb (column_id activeTask) columnId) with false
      by (symmetry; apply String.eqb_neq; exact Hother).
    cbn [negb]. rewrite Hid. reflexivity. }
  rewrite Hr. cbn [outcome calls]. split; [reflexivity|]. split.
  - apply (handleMoveTask_sends sb now b w activeTask); assumption.
  - split.
    + unfold batch, moveUpdates. apply in_or_app. right. left. reflexivity.
    + intros Hdense u Hu Hne. unfold batch, moveUpdates in Hu.
      apply in_app_or in Hu. destruct Hu as [Hu|[Hu|[]]].
      * apply in_map_iff in Hu. destruct Hu as (t & <- & Ht).
        apply filter_In in Ht. destruct Ht as [Hin Hq].
        apply andb_true_iff in Hq. destruct Hq as [Hc _].
        apply String.eqb_eq in Hc. exists t. split; [exact Hin|].
        split; [exact Hc|]. specialize (Hdense t Hin Hc).
        replace (position t >=? n) with false; [reflexivity|].
        symmetry. rewrite Z.geb_leb. apply Z.leb_gt. exact Hdense.
      * subst u. simpl in Hne. contradiction.
Qed.

Lemma drop_on_other_column_witness :
  let w := [taskA; taskX; taskY] in
  let b := boardOf [aColumn "todo" 0; aColumn "done" 1] w in
  let r := run (storeWith [] w) (handleDragEnd noon (IdStr "A") (Some (IdStr "done"))) b in
  optimisticTasks b = Some w /\
  find (fun t => String.eqb (id t) "A") w = Some taskA /\
  existsb (fun t => String.eqb (id t) "done") w = false /\
  column_id taskA <> "done" /\
  outcome r = Returned tt /\
  hd_error (calls r) =
    Some (UpdateTaskPositions [mkUpdate "X" 0 "done"; mkUpdate "Y" 1 "done";
                               mkUpdate "A" 2 "done"]).
Proof.
  intros w b r.
  assert (Hne : column_id taskA <> "done") by discriminate.
  destruct (drop_on_other_column (storeWith [] w) noon b w "A" "done" taskA
              eq_refl eq_refl eq_refl Hne) as (Ho & Hc & _).
  split; [reflexivity|]. split; [reflexivity|]. split; [reflexivity|].
  split; [exact Hne|]. split; [exact Ho | exact Hc].
Defined.

(** ** The error cell of the board *)

Lemma failedOnce_updQ t f b : failedOnce b -> failedOnce (updQ t f b).
Proof. destruct t; intros H; exact H. Qed.

Lemma failedOnce_setData t result b : failedOnce b -> failedOnce (setData t result b).
Proof. destruct t; intros H; exact H. Qed.

Lemma keeps_failedOnce_fetchData t force : keeps failedOnce (fetchData t force).
Proof.
  intros b Hb. destruct (negb (isMounted (getQ t b))); [exact I|].
  apply keeps_try_finally; [apply keeps_try_catch|].
  - apply keeps_bind.
    + apply keeps_modify. intros s. apply failedOnce_updQ.
    + intros _. apply keeps_bind; [intros r; exact I|].
      intros result. apply keeps_whenMounted. intros b1 Hb1.
      apply failedOnce_updQ.
      destruct (force || jsonDiffers t result (data (getQ t b)));
        [apply failedOnce_setData|]; exact Hb1.
  - intros e. apply keeps_whenMounted. intros s. apply failedOnce_updQ.
  - apply keeps_whenMounted. intros s. apply failedOnce_updQ.
Qed.

Lemma keeps_failedOnce_catch {A} (refetches : bool) fallback e :
  keeps failedOnce
    (if refetches then revertAndFail (A := A) fallback e
     else failWith (A := A) fallback e).
Proof.
  destruct refetches.
  - apply keeps_bind; [apply keeps_failedOnce_fetchData|]. intros _.
    apply keeps_bind; [|intros _; exact I].
    apply keeps_modify. intros s _. discriminate.
  - apply keeps_bind; [|intros _; exact I].
    apply keeps_modify. intros s _. discriminate.
Qed.

Lemma keeps_failedOnce_perform now m : keeps failedOnce (perform now m).
Proof.
  destruct m; intros b Hb; destruct (optimisticTasks b); try exact I;
    (apply keeps_try_catch;
     [|intros e; apply (keeps_failedOnce_catch true)]).
  - apply keeps_bind; [apply keeps_modify; intros s H; exact H|].
    intros _. apply keeps_bind; [intros r; exact I|]. intros createdTask.
    apply keeps_modify. intros s H. exact H.
  - apply keeps_bind; [apply keeps_modify; intros s H; exact H|].
    intros _. apply keeps_bind; [intros r; exact I | intros _; exact I].
  - apply keeps_bind; [apply keeps_modify; intros s H; exact H | intros _ r; exact I].
  - destruct (find _ l); [|exact I].
    apply keeps_bind; [apply keeps_modify; intros s H; exact H | intros _ r; exact I].
  - apply keeps_bind; [apply keeps_modify; intros s H; exact H | intros _ r; exact I].
Qed.

Lemma keeps_failedOnce_react a : keeps failedOnce (react a).
Proof.
  destruct a as [t status | t payload | t payload | now m | op | now active over].
  - intros b Hb. destruct (_ && _); [apply keeps_failedOnce_fetchData | exact I].
  - intros b Hb. destruct (isMounted _); [apply keeps_failedOnce_fetchData | exact I].
  - destruct t; [apply keeps_failedOnce_fetchData|].
    destruct payload; apply keeps_failedOnce_fetchData.
  - apply keeps_failedOnce_perform.
  - destruct op.
    + intros b Hb.
      apply keeps_try_catch; [|intros e; apply (keeps_failedOnce_catch false)].
      apply keeps_bind; [intros r; exact I|].
      intros _; apply keeps_failedOnce_fetchData.
    + apply keeps_try_catch; [|intros e; apply (keeps_failedOnce_catch false)].
      apply keeps_bind; [intros r; exact I|].
      intros _; apply keeps_failedOnce_fetchData.
    + apply keeps_try_catch; [|intros e; apply (keeps_failedOnce_catch false)].
      apply keeps_bind; [intros r; exact I|]. intros _.
      apply keeps_bind; [apply keeps_failedOnce_fetchData|].
      intros _; apply keeps_failedOnce_fetchData.
  - intros b Hb. cbv zeta.
    destruct over as [overId|]; [|apply keeps_modify; intros s H; exact H].
    destruct (find _ (exposedTasks b)) as [activeTask|];
      [|apply keeps_modify; intros s H; exact H].
    apply keeps_try_finally; [|apply keeps_modify; intros s H; exact H].
    apply keeps_try_catch; [|intros e; exact I].
    destruct overId as [overId|n]; [|exact I].
    destruct (negb (existsb _ (exposedTasks b))).
    + destruct (negb _);
        [apply (keeps_failedOnce_perform now (MMove _ _ _)) | exact I].
    + destruct (find _ (exposedTasks b)) as [overTask|];
        [|apply keeps_modify; intros s H; exact H].
      destruct (findIndex _ _); [|apply keeps_modify; intros s H; exact H].
      apply (keeps_failedOnce_perform now (MReorder _)).
Qed.

(** X21.  No operation of the hook, no realtime event and no drag resets
    the error cell of the board to null: once an operation has failed the
    cell holds a message through everything that follows, whatever the
    store answers. *)
Theorem board_error_is_never_cleared steps b :
  error b <> None -> error (runAll steps b) <> None.
Proof.
  revert b. induction steps as [|[sb a] rest IH]; intros b Hb; [exact Hb|].
  simpl. apply IH.
  apply (run_keeps failedOnce sb (react a) b (keeps_failedOnce_react a) Hb).
Qed.

Lemma board_error_is_never_cleared_witness :
  let failed := final (run offline (perform noon (MDelete "A"))
                           (boardOf [] [taskA])) in
  let steps := [(storeWith [] [taskA], AChange tasks UPDATE);
                (storeWith [] [taskA], AMutation noon (MDelete "A"));
                (storeWith [aColumn "todo" 0] [], AColumn (CCreate "todo"))] in
  error failed <> None /\
  error (runAll steps failed) = Some "Failed to delete task".
Proof.
  intros failed steps.
  assert (Hf : error failed <> None) by discriminate.
  pose proof (board_error_is_never_cleared steps failed Hf) as Hkept.
  split; [exact Hf|].
  destruct (error (runAll steps failed)) as [m|] eqn:E; [|contradiction].
  apply (f_equal (fun o => match o with Some s => s | None => "" end)) in E.
  simpl in E. rewrite <- E. reflexivity.
Defined.

(** ** The forms of the dashboard *)

Lemma setBoard_board d : setBoard (board d) d = d.
Proof. destruct d; reflexivity. Qed.

(** A program of the hook run inside the dashboard does what it does on
    the state of the hook and leaves the form cells alone. *)
Lemma run_liftBoard {A} sb (p : Async Board A) (d : Dashboard) :
  run sb (liftBoard p) d =
  mkRun (outcome (run sb p (board d)))
        (setBoard (final (run sb p (board d))) d)
        (calls (run sb p (board d))).
Proof.
  revert d. induction p as [o | k IH | g k IH | c k IH]; intros d; simpl.
  - rewrite setBoard_board. reflexivity.
  - apply IH.
  - rewrite IH. reflexivity.
  - rewrite IH. reflexivity.
Qed.

Lemma truthy_empty : truthy "" = false.
Proof. reflexivity. Qed.

Lemma truthy_nonempty s : s <> "" -> truthy s = true.
Proof.
  intros H. unfold truthy. apply negb_true_iff. apply String.eqb_neq. exact H.
Qed.

(** X22.  The three forms validate before anything else: with no column
    selected (or an empty column id) or a title that trims to the empty
    string, saving a new task does nothing; so does saving an edited task
    with no task in edition or a blank title, and renaming a column with
    no column in edition or a blank title.  No call is made and the state
    is as it was. *)
Theorem blank_input_sends_nothing (trim : string -> string) sb now d :
  (isAddingTask d = None \/ isAddingTask d = Some "" \/
   trim (f_title (newTaskData d)) = "" ->
   run sb (App.handleSaveNewTask trim now) d = mkRun (Returned tt) d []) /\
  (editingTask d = None \/ trim (f_title (newTaskData d)) = "" ->
   run sb (App.handleUpdateTask trim now) d = mkRun (Returned tt) d []) /\
  (editingColumn d = None \/ trim (newColumnTitle d) = "" ->
   run sb (App.handleUpdateColumn trim) d = mkRun (Returned tt) d []).
Proof.
  split; [|split].
  - intros H. unfold App.handleSaveNewTask. cbn [run].
    destruct (isAddingTask d) as [columnId|]; [|reflexivity].
    destruct H as [H | [H | H]]; [discriminate H | |].
    + injection H as ->. reflexivity.
    + rewrite H, truthy_empty, orb_true_r. reflexivity.
  - intros H. unfold App.handleUpdateTask. cbn [run].
    destruct (editingTask d) as [task|]; [|reflexivity].
    destruct H as [H | H]; [discriminate H|].
    rewrite H, truthy_empty. reflexivity.
  - intros H. unfold App.handleUpdateColumn. cbn [run].
    destruct (editingColumn d) as [column|]; [|reflexivity].
    destruct H as [H | H]; [discriminate H|].
    rewrite H, truthy_empty. reflexivity.
Qed.

Lemma blank_input_sends_nothing_witness :
  let d := mkDashboard (boardOf [aColumn "todo" 0] [taskA]) (Some taskA)
                       (Some "todo") None "" (mkForm "   " high) in
  trimSpaces (f_title (newTaskData d)) = "" /\
  run offline (App.handleSaveNewTask trimSpaces noon) d = mkRun (Returned tt) d [] /\
  run offline (App.handleUpdateTask trimSpaces noon) d = mkRun (Returned tt) d [] /\
  run offline (App.handleUpdateColumn trimSpaces) d = mkRun (Returned tt) d [].
Proof.
  intros d.
  destruct (blank_input_sends_nothing trimSpaces offline noon d)
    as (Hsave & Hedit & Hrename).
  split; [reflexivity|]. split; [|split].
  - apply Hsave. right. right. reflexivity.
  - apply Hedit. right. reflexivity.
  - apply Hrename. left. reflexivity.
Defined.

(** X23.  Saving a new task with a column selected and a title that is
    not blank runs [createTask] of the hook with the trimmed title, the
    selected column and the chosen priority, and never throws.  When the
    hook returns, the form is closed and emptied; when the hook throws,
    the form stays open with what was typed.  The other cells of the
    dashboard (the task and the column in edition, the title typed for a
    new column) are not touched. *)
Theorem save_new_task_outcome (trim : string -> string) sb now d columnId :
  isAddingTask d = Some columnId ->
  columnId <> "" ->
  trim (f_title (newTaskData d)) <> "" ->
  let h := run sb (handleCreateTask now (trim (f_title (newTaskData d))) columnId
                                    (f_priority (newTaskData d))) (board d) in
  let r := run sb (App.handleSaveNewTask trim now) d in
  outcome r = Returned tt /\
  calls r = calls h /\
  board (final r) = final h /\
  editingTask (final r) = editingTask d /\
  editingColumn (final r) = editingColumn d /\
  newColumnTitle (final r) = newColumnTitle d /\
  (outcome h = Returned tt ->
     isAddingTask (final r) = None /\ newTaskData (final r) = emptyForm) /\
  (forall e, outcome h = Threw e ->
     isAddingTask (final r) = Some columnId /\
     newTaskData (final r) = newTaskData d).
Proof.
  intros Hadd Hcol Httl h r. unfold r, App.handleSaveNewTask. cbn [run].
  rewrite Hadd, (truthy_nonempty _ Hcol), (truthy_nonempty _ Httl). cbn [negb orb].
  rewrite run_try_catch, run_bind, run_liftBoard. fold h. cbn [outcome final calls].
  destruct (outcome h) as [[]|e] eqn:Ho; simpl; rewrite ?app_nil_r;
    repeat split;
    try match goal with H : Returned _ = Threw _ |- _ => discriminate H end;
    try match goal with H : Threw _ = Returned _ |- _ => discriminate H end.
  exact Hadd.
Qed.

Lemma save_new_task_outcome_witness :
  let d := mkDashboard (boardOf [aColumn "todo" 0] [taskA]) None (Some "todo")
                       None "" (mkForm "  Call Bob " high) in
  let r := run (storeWith [] [taskA]) (App.handleSaveNewTask trimSpaces noon) d in
  let r' := run offline (App.handleSaveNewTask trimSpaces noon) d in
  isAddingTask d = Some "todo" /\ "todo" <> "" /\
  trimSpaces (f_title (newTaskData d)) <> "" /\
  calls r = [CreateTask "Call Bob" "todo" high 1] /\
  isAddingTask (final r) = None /\ newTaskData (final r) = emptyForm /\
  outcome r' = Returned tt /\
  isAddingTask (final r') = Some "todo" /\
  newTaskData (final r') = mkForm "  Call Bob " high.
Proof.
  intros d r r'.
  assert (H1 : "todo" <> "") by discriminate.
  assert (H2 : trimSpaces (f_title (newTaskData d)) <> "") by discriminate.
  destruct (save_new_task_outcome trimSpaces (storeWith [] [taskA]) noon d "todo"
              eq_refl H1 H2) as (_ & Hc & _ & _ & _ & _ & Hok & _).
  destruct (save_new_task_outcome trimSpaces offline noon d "todo"
              eq_refl H1 H2) as (Ho' & _ & _ & _ & _ & _ & _ & Hfail).
  destruct (Hok eq_refl) as [Hclosed Hempty].
  destruct (Hfail (NonError "network") eq_refl) as [Hopen Hkept].
  split; [reflexivity|]. split; [exact H1|]. split; [exact H2|].
  split; [exact Hc|]. split; [exact Hclosed|]. split; [exact Hempty|].
  split; [exact Ho'|]. split; [exact Hopen | exact Hkept].
Defined.

Lemma calls_fetchData sb t force b :
  calls (run sb (fetchData t force) b) =
  if isMounted (getQ t b) then [Fetch t] else [].
Proof.
  destruct b as [cq tq ot er act]. destruct t; simpl.
  - destruct cq as [d l qe rc im ch sub]. destruct im; [|reflexivity].
    unfold fetchData. simpl. unfold Gateway.fetchColumns.
    destruct (columns_select sb) as [e|rows]; simpl; [reflexivity|].
    destruct (force || _); reflexivity.
  - destruct tq as [d l qe rc im ch sub]. destruct im; [|reflexivity].
    unfold fetchData. simpl. unfold Gateway.fetchTasks.
    destruct (tasks_select sb) as [e|rows]; simpl; [reflexivity|].
    destruct (force || _); reflexivity.
Qed.

(** The calls of a task handler: none when a guard stops it, else its
    write, followed by a fetch of the tasks when the write failed and the
    view is mounted. *)
Lemma perform_calls sb now m b :
  calls (run sb (perform now m) b) = [] \/
  exists w,
    optimisticTasks b = Some w /\ accepted m w = true /\
    (calls (run sb (perform now m) b) = [remoteWrite m w] \/
     calls (run sb (perform now m) b) = [remoteWrite m w; Fetch tasks]).
Proof.
  destruct (optimisticTasks b) as [w|] eqn:Hw.
  2:{ left. destruct m; simpl; rewrite Hw; reflexivity. }
  destruct (accepted m w) eqn:Hacc.
  2:{ left. destruct m; simpl in Hacc; try discriminate Hacc.
      simpl. rewrite Hw. rewrite run_try_catch.
      destruct (find (fun t => String.eqb (id t) taskId) w); [discriminate Hacc|].
      reflexivity. }
  right. exists w. split; [reflexivity|]. split; [exact Hacc|].
  assert (Hfailed : forall e, fst (gateway sb (remoteWrite m w)) = Threw e ->
            calls (run sb (perform now m) b) = [remoteWrite m w] \/
            calls (run sb (perform now m) b) = [remoteWrite m w; Fetch tasks]).
  { intros e He. rewrite (perform_failed sb now m b w e Hw Hacc He). cbv zeta.
    cbn [calls]. unfold refetch. rewrite calls_fetchData.
    destruct (isMounted _); [right | left]; reflexivity. }
  destruct m as [ttl columnId prio | taskId updates | taskId
                | taskId newColumnId newPosition | updates];
    cbn [remoteWrite] in *.
  - destruct (fst (gateway sb (CreateTask ttl columnId prio (newTaskPosition w columnId))))
      as [x|e] eqn:Hg; [|exact (Hfailed e eq_refl)].
    left. cbn [perform]. rewrite (createTask_commits sb now ttl columnId prio b w x Hw Hg).
    reflexivity.
  - destruct (fst (gateway sb (UpdateTask taskId updates))) as [x|e] eqn:Hg;
      [|exact (Hfailed e eq_refl)].
    left. cbn [perform]. unfold handleUpdateTask. cbn [run]. rewrite Hw.
    rewrite run_try_catch. cbn [run bind modify await ret]. rewrite Hg. reflexivity.
  - destruct (fst (gateway sb (DeleteTask taskId))) as [x|e] eqn:Hg;
      [|exact (Hfailed e eq_refl)].
    left. cbn [perform]. unfold handleDeleteTask. cbn [run]. rewrite Hw.
    rewrite run_try_catch. cbn [run bind modify await ret]. rewrite Hg. reflexivity.
  - destruct (fst (gateway sb (UpdateTaskPositions
                                 (moveUpdates w taskId newColumnId newPosition))))
      as [x|e] eqn:Hg; [|exact (Hfailed e eq_refl)].
    left. cbn [perform]. unfold handleMoveTask. cbn [run]. rewrite Hw.
    simpl in Hacc.
    destruct (find (fun t => String.eqb (id t) taskId) w); [|discriminate Hacc].
    rewrite run_try_catch. cbn [run bind modify await ret]. rewrite Hg. reflexivity.
  - destruct (fst (gateway sb (UpdateTaskPositions updates))) as [x|e] eqn:Hg;
      [|exact (Hfailed e eq_refl)].
    left. cbn [perform]. unfold handleReorderTasks. cbn [run]. rewrite Hw.
    rewrite run_try_catch. cbn [run bind modify await ret]. rewrite Hg. reflexivity.
Qed.

(** X24.  Saving an edited task with a title that is not blank runs
    [updateTask] of the hook on the id of the task in edition with a patch
    of the trimmed title and the priority only - column and position are
    never part of it - and never throws; the edition is closed when the
    hook returns and stays open when it throws. *)
Theorem save_edited_task_outcome (trim : string -> string) sb now d task :
  editingTask d = Some task ->
  trim (f_title (newTaskData d)) <> "" ->
  let patch := mkPatch (Some (trim (f_title (newTaskData d))))
                       (Some (f_priority (newTaskData d))) None None in
  let h := run sb (handleUpdateTask now (id task) patch) (board d) in
  let r := run sb (App.handleUpdateTask trim now) d in
  outcome r = Returned tt /\
  calls r = calls h /\
  (forall c, In c (calls r) -> isWrite c = true -> c = UpdateTask (id task) patch) /\
  board (final r) = final h /\
  newTaskData (final r) = newTaskData d /\
  (outcome h = Returned tt -> editingTask (final r) = None) /\
  (forall e, outcome h = Threw e -> editingTask (final r) = Some task).
Proof.
  intros Hedit Httl patch h r.
  assert (Hwrites : forall c, In c (calls h) -> isWrite c = true ->
                      c = UpdateTask (id task) patch).
  { intros c Hc Hw.
    destruct (perform_calls sb now (MUpdate (id task) patch) (board d))
      as [Hnone | (w & _ & _ & [Hone | Htwo])]; cbn [perform remoteWrite] in *;
      fold h in Hnone || fold h in Hone || fold h in Htwo.
    - rewrite Hnone in Hc. destruct Hc.
    - rewrite Hone in Hc. destruct Hc as [<-|[]]. reflexivity.
    - rewrite Htwo in Hc. destruct Hc as [<-|[<-|[]]]; [reflexivity|].
      discriminate Hw. }
  unfold r, App.handleUpdateTask. cbn [run].
  rewrite Hedit, (truthy_nonempty _ Httl). cbn [negb].
  rewrite run_try_catch, run_bind, run_liftBoard. fold patch. fold h.
  cbn [outcome final calls].
  destruct (outcome h) as [[]|e] eqn:Ho; simpl; rewrite ?app_nil_r;
    (split; [reflexivity|]); (split; [reflexivity|]);
    (split; [exact Hwrites|]); repeat split;
    try (intros; discriminate); intros; exact Hedit.
Qed.

Lemma save_edited_task_outcome_witness :
  let d := mkDashboard (boardOf [aColumn "todo" 0] [taskA; taskB]) (Some taskB)
                       None None "" (mkForm " Call Bob" high) in
  let patch := mkPatch (Some "Call Bob") (Some high) None None in
  let r := run (storeWith [] [taskA; taskB]) (App.handleUpdateTask trimSpaces noon) d in
  editingTask d = Some taskB /\
  trimSpaces (f_title (newTaskData d)) <> "" /\
  outcome r = Returned tt /\
  calls r = [UpdateTask "B" patch] /\
  editingTask (final r) = None.
Proof.
  intros d patch r.
  assert (H : trimSpaces (f_title (newTaskData d)) <> "") by discriminate.
  destruct (save_edited_task_outcome trimSpaces (storeWith [] [taskA; taskB])
              noon d taskB eq_refl H) as (Ho & Hc & _ & _ & _ & Hok & _).
  split; [reflexivity|]. split; [exact H|]. split; [exact Ho|].
  split; [exact Hc | exact (Hok eq_refl)].
Defined.

(** ** Calls of the task handlers *)

(** X25.  A task operation of the hook makes at most one write, the one
    of the operation on the working list it started from, and besides it
    at most one fetch, of the tasks; it never fetches the columns. *)
Theorem one_write_per_mutation sb now m b :
  let cs := calls (run sb (perform now m) b) in
  (List.length (filter isWrite cs) <= 1)%nat /\
  (List.length cs <= 2)%nat /\
  (forall c, In c cs -> isWrite c = true ->
     exists w, optimisticTasks b = Some w /\ c = remoteWrite m w) /\
  (forall c, In c cs -> isWrite c = false -> c = Fetch tasks).
Proof.
  cbv zeta.
  assert (Hw : forall w, isWrite (remoteWrite m w) = true)
    by (intros w; destruct m; reflexivity).
  destruct (perform_calls sb now m b)
    as [Hnone | (w & Hsome & _ & [Hone | Htwo])].
  - rewrite Hnone. simpl. repeat split; try lia; intros c [].
  - rewrite Hone. simpl. rewrite Hw. simpl. repeat split; try lia.
    + intros c [<-|[]] _. exists w. split; [exact Hsome | reflexivity].
    + intros c [<-|[]] Hc. rewrite Hw in Hc. discriminate Hc.
  - rewrite Htwo. simpl. rewrite Hw. simpl. repeat split; try lia.
    + intros c [<-|[<-|[]]] Hc; [|discriminate Hc].
      exists w. split; [exact Hsome | reflexivity].
    + intros c [<-|[<-|[]]] Hc; [|reflexivity].
      rewrite Hw in Hc. discriminate Hc.
Qed.

(** ** Dropping a task on a task *)

Lemma findIndex_finds {A} (p : A -> bool) (l : list A) (x : A) :
  In x l -> p x = true -> findIndex p l <> None.
Proof.
  induction l as [|y r IH]; intros Hin Hp; [contradiction|]. simpl.
  destruct (p y) eqn:E; [discriminate|].
  destruct Hin as [Hy|Hin]; [congruence|].
  destruct (findIndex p r); [discriminate | exfalso; apply (IH Hin Hp); reflexivity].
Qed.

(** X26.  Dropping a task on a task always sends the renumbering batch
    of the column of the target, also when the task is dropped on itself,
    and throws nothing.  When the dragged task comes from another column
    (ids unique) it is not in the batch: it stays where it was. *)
Theorem drop_on_task_sends_renumbering sb now b w activeId overId activeTask overTask :
  optimisticTasks b = Some w ->
  find (fun t => String.eqb (id t) activeId) w = Some activeTask ->
  find (fun t => String.eqb (id t) overId) w = Some overTask ->
  let batch := dropUpdates w activeTask overTask in
  let r := run sb (handleDragEnd now (IdStr activeId) (Some (IdStr overId))) b in
  outcome r = Returned tt /\
  hd_error (calls r) = Some (UpdateTaskPositions batch) /\
  (NoDup (map id w) -> column_id activeTask <> column_id overTask ->
   ~ In activeId (map u_id batch) /\
   applyTo now batch activeTask = activeTask).
Proof.
  intros Hw Hact Hover batch r.
  assert (Hexp : exposedTasks b = w) by (unfold exposedTasks; rewrite Hw; reflexivity).
  pose proof (find_some _ _ Hact) as [Hain Haid]. apply String.eqb_eq in Haid.
  pose proof (find_some _ _ Hover) as [Hoin Hoid].
  assert (Hex : existsb (fun t => String.eqb (id t) overId) w = true).
  { apply existsb_exists. exists overTask. split; assumption. }
  assert (Hidx : findIndex (fun t => String.eqb (id t) (id overTask))
                   (sortByPosition
                      (filter (fun t => String.eqb (column_id t) (column_id overTask)) w))
                 <> None).
  { apply (findIndex_finds _ _ overTask); [|apply String.eqb_refl].
    apply (Permutation_in _ (Permutation_sym (sortByPosition_perm _))).
    apply filter_In. split; [exact Hoin | apply String.eqb_refl]. }
  assert (Hr : r = mkRun (Returned tt)
                     (setActiveTask None
                        (final (run sb (handleReorderTasks now batch) b)))
                     (calls (run sb (handleReorderTasks now batch) b))).
  { unfold r, handleDragEnd. cbn [run]. cbv zeta. rewrite Hexp. cbn [idIs].
    rewrite Hact. rewrite run_dragEnd_body. rewrite Hex. cbn [negb].
    rewrite Hover.
    destruct (findIndex _ _); [reflexivity | contradiction]. }
  rewrite Hr. cbn [outcome calls]. split; [reflexivity|]. split.
  - generalize batch. intros batch0. unfold handleReorderTasks. cbn [run].
    rewrite Hw. rewrite run_try_catch. simpl.
    destruct (fst (Gateway.updateTaskPositions sb batch0)); reflexivity.
  - intros Hnd Hne.
    assert (Hnot : ~ In activeId (map u_id batch)).
    { unfold batch. rewrite dropUpdates_keeps_order. intros Hin.
      apply in_map_iff in Hin. destruct Hin as (t & Ht & Hin).
      unfold getTasksByColumn in Hin.
      apply (Permutation_in _ (sortByPosition_perm _)) in Hin.
      apply filter_In in Hin. destruct Hin as [Hin Hc]. apply String.eqb_eq in Hc.
      assert (t = activeTask).
      { apply (same_id_same_task w); try assumption. rewrite Ht, Haid. reflexivity. }
      subst t. contradiction. }
    split; [exact Hnot|]. unfold applyTo.
    destruct (find (fun u => String.eqb (u_id u) (id activeTask)) batch)
      as [u|] eqn:Hf; [|reflexivity].
    exfalso. apply find_some in Hf. destruct Hf as [Hin E].
    apply String.eqb_eq in E. apply Hnot. rewrite <- Haid, <- E.
    apply in_map. exact Hin.
Qed.

Lemma drop_on_task_sends_renumbering_witness :
  let w := [taskA; taskX; taskY] in
  let b := boardOf [] w in
  let r := run (storeWith [] w) (handleDragEnd noon (IdStr "A") (Some (IdStr "Y"))) b in
  optimisticTasks b = Some w /\
  find (fun t => String.eqb (id t) "A") w = Some taskA /\
  find (fun t => String.eqb (id t) "Y") w = Some taskY /\
  outcome r = Returned tt /\
  hd_error (calls r) =
    Some (UpdateTaskPositions [mkUpdate "X" 0 "done"; mkUpdate "Y" 1 "done"]) /\
  applyTo noon (dropUpdates w taskA taskY) taskA = taskA.
Proof.
  intros w b r.
  assert (Hnd : NoDup (map id w)).
  { simpl. repeat constructor; simpl; intuition discriminate. }
  assert (Hne : column_id taskA <> column_id taskY) by discriminate.
  destruct (drop_on_task_sends_renumbering (storeWith [] w) noon b w "A" "Y"
              taskA taskY eq_refl eq_refl eq_refl) as (Ho & Hc & Hstay).
  split; [reflexivity|]. split; [reflexivity|]. split; [reflexivity|].
  split; [exact Ho|]. split; [exact Hc|]. exact (proj2 (Hstay Hnd Hne)).
Defined.
